(** * ev-sound-analysis: the 1/3-octave analyzer of [scripts/analyzer.py]

    A shallow embedding of the [Analyzer] class.  Python integers are [Z],
    floating-point samples and levels are idealised as real numbers [R],
    arrays are lists, and exceptions are values of [exn].  The methods that
    read or assign instance attributes, print or draw are written in a
    small state-and-exception monad over the [World] (the instance, what was
    printed, what was drawn). *)

From Stdlib Require Import ZArith String Ascii Bool Lia Lra Reals.
From Stdlib Require Import List.
From Stdlib Require Import DecimalString.
From Stdlib Require DecimalPos.
Import ListNotations.

Open Scope Z_scope.

(** ** Python-level values *)

Inductive exn : Type :=
| RuntimeError (msg : string)
| ValueError (msg : string)
| IndexError (msg : string)
| KeyError (key : string)
| AttributeError (name : string)
| UnboundLocalError (name : string)
| ZeroDivisionError
| ReadError (path : string)
| FileNotFoundError (path : string).

Inductive result (A : Type) : Type :=
| Ok (a : A)
| Raise (e : exn).

Arguments Ok {A} a.
Arguments Raise {A} e.

(** The class of an exception, as [type(e).__name__] would give it. *)
Definition exn_class (e : exn) : string :=
  match e with
  | RuntimeError _ => "RuntimeError"
  | ValueError _ => "ValueError"
  | IndexError _ => "IndexError"
  | KeyError _ => "KeyError"
  | AttributeError _ => "AttributeError"
  | UnboundLocalError _ => "UnboundLocalError"
  | ZeroDivisionError => "ZeroDivisionError"
  | ReadError _ => "ReadError"
  | FileNotFoundError _ => "FileNotFoundError"
  end.

(** [str(n)] for an integer. *)
Definition str_int (n : Z) : string := NilZero.string_of_int (Z.to_int n).

(** ** Arrays *)

(** [l[a:b]] for [0 <= a]: the elements at indices [a <= i < min b (len l)]. *)
Definition py_slice {A : Type} (l : list A) (a b : Z) : list A :=
  firstn (Z.to_nat (b - a)) (skipn (Z.to_nat a) l).

(** [len(l)] *)
Definition len {A : Type} (l : list A) : Z := Z.of_nat (length l).

(** [range(n)] *)
Definition range (n : Z) : list Z := map Z.of_nat (seq 0 (Z.to_nat n)).

(** [np.arange(a, b)] *)
Definition arange (a b : Z) : list Z := map (fun i => a + i) (range (b - a)).

(** [enumerate(l)] *)
Definition enumerate {A : Type} (l : list A) : list (Z * A) :=
  combine (range (len l)) l.

(** [np.sum] of a one-dimensional array. *)
Definition np_sum (l : list R) : R := fold_right Rplus 0%R l.

(** [np.power(x, 2)] *)
Definition np_square (l : list R) : list R := map (fun x => (x * x)%R) l.

(** ** The band-grouping loop of [one_third_octaves] *)

(** The local variables of the loop. *)
Record band_state : Type := mk_band_state {
  acc_energy : list R;
  step : Z;
  nbins : Z;
  start_bin : Z;
  stop_bin : Z
}.

Definition band_init : band_state :=
  {| acc_energy := []; step := 1; nbins := 3; start_bin := 13;
     stop_bin := 13 + 3 |}.

(** One pass through the body of [for idx, band in enumerate(bands)]. *)
Definition band_body (m : list R) (st : band_state) (it : Z * Z) : band_state :=
  let idx := fst it in
  let energy' := acc_energy st ++ [np_sum (py_slice m (start_bin st) (stop_bin st))] in
  let start_bin' := start_bin st + nbins st in
  let nbins' := nbins st + step st in
  let stop_bin' := stop_bin st + nbins' in
  let step' := if (idx + 1) mod 3 =? 0 then step st * 2 else step st in
  {| acc_energy := energy'; step := step'; nbins := nbins';
     start_bin := start_bin'; stop_bin := stop_bin' |}.

Definition band_loop (m : list R) (its : list (Z * Z)) : band_state :=
  fold_left (band_body m) its band_init.

(** ANSI 1/3 octave bands 10-37: [np.arange(10,38)]. *)
Definition ansi_bands : list Z := arange 10 38.

(** The loop variables on entry to the iteration with index [k]. *)
Definition state_at (m : list R) (k : nat) : band_state :=
  band_loop m (firstn k (enumerate ansi_bands)).

(** The slice bounds [start_bin:stop_bin] read by iteration [k]. *)
Definition band_range (m : list R) (k : nat) : Z * Z :=
  (start_bin (state_at m k), stop_bin (state_at m k)).

Definition band_width (m : list R) (k : nat) : Z :=
  snd (band_range m k) - fst (band_range m k).

(** The sum of the magnitudes at the bins [a <= i < b] of the spectrum [m]. *)
Definition bin_sum (m : list R) (a b : Z) : R :=
  np_sum (map (fun i => nth (Z.to_nat i) m 0%R) (map (fun i => a + i) (range (b - a)))).

(** The integer part of the loop, without the spectrum: step, width, start. *)
Fixpoint band_table (k : nat) : Z * Z * Z :=
  match k with
  | O => (1, 3, 13)
  | S k' =>
      let '(s, w, a) := band_table k' in
      ((if (Z.of_nat k' + 1) mod 3 =? 0 then s * 2 else s), w + s, a + w)
  end.

(** ** Numeric primitives of numpy used by the analyzer *)

(** A complex FFT coefficient. *)
Record complex : Type := mkC { re : R; im : R }.

(** [np.abs] of a complex array. *)
Definition np_abs (y : list complex) : list R :=
  map (fun z => sqrt (re z * re z + im z * im z)) y.

(** [np.log10]; the real logarithm stands for it on positive arguments
    (numpy gives [-inf] at 0 and [nan] below, which [R] does not have). *)
Definition log10 (x : R) : R := (ln x / ln 10)%R.

(** [x * w] for one-dimensional arrays, with numpy's broadcasting rule:
    equal lengths multiply element-wise, a length-1 operand is stretched,
    anything else raises. *)
Definition np_mul (x w : list R) : result (list R) :=
  if len x =? len w then Ok (map (fun p => (fst p * snd p)%R) (combine x w))
  else if len w =? 1 then Ok (map (fun a => (a * hd 0 w)%R) x)
  else if len x =? 1 then Ok (map (fun b => (hd 0 x * b)%R) w)
  else Raise (ValueError "operands could not be broadcast together").

(** [y[idxs]]: indexing with a sequence of indices; every index must exist. *)
Fixpoint index_all {A : Type} (y : list A) (idxs : list Z) : result (list A) :=
  match idxs with
  | [] => Ok []
  | i :: rest =>
      match nth_error y (Z.to_nat i) with
      | None => Raise (IndexError "index out of bounds")
      | Some v =>
          match index_all y rest with
          | Ok r => Ok (v :: r)
          | Raise e => Raise e
          end
      end
  end.

(** [np.argmax]: the index of the first occurrence of the greatest value. *)
Fixpoint argmax_from (best_i : Z) (best : R) (i : Z) (l : list R) : Z :=
  match l with
  | [] => best_i
  | x :: t =>
      if Rlt_dec best x then argmax_from i x (i + 1) t
      else argmax_from best_i best (i + 1) t
  end.

Definition np_argmax (l : list R) : result Z :=
  match l with
  | [] => Raise (ValueError "attempt to get argmax of an empty sequence")
  | x :: t => Ok (argmax_from 0 x 1 t)
  end.

(** [round(x, 0)] on a float: to the nearest integer, halves to even. *)
Definition round_half_even (x : R) : Z :=
  let f := Int_part x in
  let d := frac_part x in
  if Rlt_dec d (1 / 2) then f
  else if Rlt_dec (1 / 2) d then f + 1
  else if Z.even f then f else f + 1.

(** ** Strings *)

(** [s.split(sep)] for a one-character separator. *)
Fixpoint split_on (sep : ascii) (s : string) : list string :=
  match s with
  | EmptyString => [EmptyString]
  | String c t =>
      if Ascii.eqb c sep then EmptyString :: split_on sep t
      else match split_on sep t with
           | [] => [String c EmptyString]
           | h :: r => String c h :: r
           end
  end.

(** [os.path.basename]: what follows the last slash. *)
Definition basename (p : string) : string :=
  last (split_on "/"%char p) EmptyString.

(** [s.replace(pat, "")] for a non-empty [pat]: the occurrences of [pat]
    are dropped, scanning from the left; [skip] counts the characters of an
    occurrence still to drop. *)
Fixpoint remove_from (pat : string) (skip : nat) (s : string) : string :=
  match s with
  | EmptyString => EmptyString
  | String c t =>
      match skip with
      | S k => remove_from pat k t
      | O =>
          if String.prefix pat s then remove_from pat (String.length pat - 1) t
          else String c (remove_from pat 0 t)
      end
  end.

Definition str_remove (pat s : string) : string := remove_from pat 0 s.

(** The white space [int] skips at both ends of ASCII text: the blank and
    the characters 9 to 13. *)
Definition is_space (c : ascii) : bool :=
  let n := N_of_ascii c in
  (N.eqb n 32 || (N.leb 9 n && N.leb n 13))%bool.

Fixpoint lstrip (s : string) : string :=
  match s with
  | EmptyString => EmptyString
  | String c t => if is_space c then lstrip t else s
  end.

Fixpoint rstrip (s : string) : string :=
  match s with
  | EmptyString => EmptyString
  | String c t =>
      match rstrip t with
      | EmptyString => if is_space c then EmptyString else String c EmptyString
      | t' => String c t'
      end
  end.

Definition digit_val (c : ascii) : option Z :=
  let n := Z.of_N (N_of_ascii c) in
  if ((48 <=? n) && (n <=? 57))%bool then Some (n - 48) else None.

Fixpoint digits_val (acc : Z) (s : string) : option Z :=
  match s with
  | EmptyString => Some acc
  | String c t =>
      match digit_val c with
      | Some d => digits_val (10 * acc + d) t
      | None => None
      end
  end.

(** [int(s)] on ASCII text: surrounding white space, an optional sign and at
    least one decimal digit.  ([split("_")] has removed every underscore
    before [int] is called.) *)
Definition py_int (s : string) : result Z :=
  let t := rstrip (lstrip s) in
  let '(sign, body) :=
    match t with
    | String "-"%char r => (-1, r)
    | String "+"%char r => (1, r)
    | _ => (1, t)
    end in
  match body with
  | EmptyString => Raise (ValueError "invalid literal for int() with base 10")
  | _ =>
      match digits_val 0 body with
      | Some n => Ok (sign * n)
      | None => Raise (ValueError "invalid literal for int() with base 10")
      end
  end.

(** [l[i]] on a list of strings. *)
Definition list_get (l : list string) (i : nat) : result string :=
  match nth_error l i with
  | Some v => Ok v
  | None => Raise (IndexError "list index out of range")
  end.

(** [d[k]] on a dictionary with string keys. *)
Fixpoint dict_get {A : Type} (d : list (string * A)) (k : string) : result A :=
  match d with
  | [] => Raise (KeyError k)
  | (k', v) :: rest => if String.eqb k' k then Ok v else dict_get rest k
  end.

(** [os.path.join(a, b)] *)
Definition path_join (a b : string) : string :=
  match b with
  | String "/"%char _ => b
  | _ =>
      match a with
      | EmptyString => b
      | _ => if String.eqb (basename a) EmptyString then a ++ b
             else a ++ "/" ++ b
      end
  end%string.

(** ** Data of the analyzer *)

(** What [sf.read] hands back: a one-dimensional array for a mono file, a
    frames-by-channels array otherwise. *)
Inductive ndarray : Type :=
| Arr1 (s : list R)
| Arr2 (rows : list (list R)).

(** [x.shape[0]] *)
Definition shape0 (x : ndarray) : Z :=
  match x with Arr1 s => len s | Arr2 rows => len rows end.

(** [x.ndim] *)
Definition ndim (x : ndarray) : Z :=
  match x with Arr1 _ => 1 | Arr2 _ => 2 end.

(** The samples of an array; past [validate_audio] the array is
    one-dimensional and this is the array itself. *)
Definition samples (x : ndarray) : list R :=
  match x with Arr1 s => s | Arr2 rows => concat rows end.

(** The dictionary returned by [analyze]. *)
Record analysis : Type := mk_analysis {
  audio : list R;
  bands : list Z;
  energy : list R;
  xticks : list string;
  frame_idx : Z
}.

(** The dictionary returned by [get_test_details]. *)
Record test_details : Type := mk_test {
  test_type : string;
  test_date : string;
  test_num : Z;
  test_file : string
}.

(** One entry of [sound_level_reqs.json], with the two keys [run] reads:
    ["1/3 octave bands"] and ["two band spec"]. *)
Record spec_entry : Type := mk_spec_entry {
  octave_bands : list (string * R);
  two_band : R
}.

(** The module-level table [test_names]. *)
Definition test_names : list (string * string) :=
  [("30", "30km/hr"); ("20", "20km/hr"); ("10", "10km/hr");
   ("stat", "Stationary"); ("rev", "Reverse")]%string.

(** The instance attributes.  Those assigned after the first lines of
    [__init__] are absent ([None]) until the assignment runs. *)
Record Analyzer : Type := mk_Analyzer {
  cal_file : string;
  cal_fs : Z;
  cal_type : string;
  amb_file : string;
  output_dir : string;
  file_type : string;
  verbose : bool;
  block_size : Z;
  cal : option R;
  amb_analysis : option analysis;
  slr : option (list (string * spec_entry));
  cal_target : option Z;
  cal_audio : option (list R);
  fs : option Z;
  band_specs : option (list R);
  two_band_spec : option R
}.

Definition set_cal (v : R) (a : Analyzer) : Analyzer :=
  mk_Analyzer (cal_file a) (cal_fs a) (cal_type a) (amb_file a) (output_dir a)
    (file_type a) (verbose a) (block_size a) (Some v) (amb_analysis a) (slr a)
    (cal_target a) (cal_audio a) (fs a) (band_specs a) (two_band_spec a).

Definition set_amb_analysis (v : analysis) (a : Analyzer) : Analyzer :=
  mk_Analyzer (cal_file a) (cal_fs a) (cal_type a) (amb_file a) (output_dir a)
    (file_type a) (verbose a) (block_size a) (cal a) (Some v) (slr a)
    (cal_target a) (cal_audio a) (fs a) (band_specs a) (two_band_spec a).

Definition set_slr (v : list (string * spec_entry)) (a : Analyzer) : Analyzer :=
  mk_Analyzer (cal_file a) (cal_fs a) (cal_type a) (amb_file a) (output_dir a)
    (file_type a) (verbose a) (block_size a) (cal a) (amb_analysis a) (Some v)
    (cal_target a) (cal_audio a) (fs a) (band_specs a) (two_band_spec a).

Definition set_cal_target (v : Z) (a : Analyzer) : Analyzer :=
  mk_Analyzer (cal_file a) (cal_fs a) (cal_type a) (amb_file a) (output_dir a)
    (file_type a) (verbose a) (block_size a) (cal a) (amb_analysis a) (slr a)
    (Some v) (cal_audio a) (fs a) (band_specs a) (two_band_spec a).

Definition set_cal_audio (v : list R) (a : Analyzer) : Analyzer :=
  mk_Analyzer (cal_file a) (cal_fs a) (cal_type a) (amb_file a) (output_dir a)
    (file_type a) (verbose a) (block_size a) (cal a) (amb_analysis a) (slr a)
    (cal_target a) (Some v) (fs a) (band_specs a) (two_band_spec a).

Definition set_fs (v : Z) (a : Analyzer) : Analyzer :=
  mk_Analyzer (cal_file a) (cal_fs a) (cal_type a) (amb_file a) (output_dir a)
    (file_type a) (verbose a) (block_size a) (cal a) (amb_analysis a) (slr a)
    (cal_target a) (cal_audio a) (Some v) (band_specs a) (two_band_spec a).

Definition set_band_specs (v : list R) (a : Analyzer) : Analyzer :=
  mk_Analyzer (cal_file a) (cal_fs a) (cal_type a) (amb_file a) (output_dir a)
    (file_type a) (verbose a) (block_size a) (cal a) (amb_analysis a) (slr a)
    (cal_target a) (cal_audio a) (fs a) (Some v) (two_band_spec a).

Definition set_two_band_spec (v : R) (a : Analyzer) : Analyzer :=
  mk_Analyzer (cal_file a) (cal_fs a) (cal_type a) (amb_file a) (output_dir a)
    (file_type a) (verbose a) (block_size a) (cal a) (amb_analysis a) (slr a)
    (cal_target a) (cal_audio a) (fs a) (band_specs a) (Some v).

(** One saved figure of [generate_plots]: the file it is saved to, its
    title, the time series (joint figure only) and the three bar series and
    the horizontal line of the frequency axes. *)
Record figure : Type := mk_figure {
  fig_file : string;
  fig_title : string;
  fig_time_series : option (list R);
  fig_positions : list Z;
  fig_labels : list string;
  fig_measured : list R;
  fig_spec : list R;
  fig_ambient : list R;
  fig_two_band_line : R
}.

(** ** The state-and-exception monad of the methods *)

Record World : Type := mk_World {
  self : Analyzer;
  stdout : list string;
  figures : list figure
}.

Definition M (A : Type) : Type := World -> result A * World.

Definition ret {A : Type} (a : A) : M A := fun w => (Ok a, w).

Definition raise {A : Type} (e : exn) : M A := fun w => (Raise e, w).

Definition bind {A B : Type} (c : M A) (k : A -> M B) : M B :=
  fun w =>
    match c w with
    | (Ok a, w') => k a w'
    | (Raise e, w') => (Raise e, w')
    end.

(** Bind of plain fallible computations. *)
Definition rbind {A B : Type} (c : result A) (k : A -> result B) : result B :=
  match c with
  | Ok a => k a
  | Raise e => Raise e
  end.

Definition lift {A : Type} (r : result A) : M A := fun w => (r, w).

(** [print(s)] *)
Definition print (s : string) : M unit :=
  fun w => (Ok tt, mk_World (self w) (stdout w ++ [s]) (figures w)).

(** A figure written by [plt.savefig]. *)
Definition savefig (f : figure) : M unit :=
  fun w => (Ok tt, mk_World (self w) (stdout w) (figures w ++ [f])).

(** Reading an attribute set by the first lines of [__init__]. *)
Definition read {A : Type} (proj : Analyzer -> A) : M A :=
  fun w => (Ok (proj (self w)), w).

(** Reading an attribute that may not have been assigned yet. *)
Definition getattr {A : Type} (name : string) (proj : Analyzer -> option A) : M A :=
  fun w =>
    match proj (self w) with
    | Some v => (Ok v, w)
    | None => (Raise (AttributeError name), w)
    end.

(** [self.attr = v] *)
Definition assign (upd : Analyzer -> Analyzer) : M unit :=
  fun w => (Ok tt, mk_World (upd (self w)) (stdout w) (figures w)).

Declare Scope py_scope.
Delimit Scope py_scope with py.

Notation "x <- c1 ;; c2" := (bind c1 (fun x => c2))
  (at level 61, c1 at next level, right associativity) : py_scope.
Notation "' pat <- c1 ;; c2" := (bind c1 (fun x => match x with pat => c2 end))
  (at level 61, pat pattern, c1 at next level, right associativity) : py_scope.
Notation "c1 ;; c2" := (bind c1 (fun _ => c2))
  (at level 61, right associativity) : py_scope.
Notation "x <~ c1 ;; c2" := (rbind c1 (fun x => c2))
  (at level 61, c1 at next level, right associativity) : py_scope.

(** ** What matplotlib checks when the figures are drawn *)

(** [np.max] of an array: an empty one has no maximum. *)
Definition np_max (x : list R) : result R :=
  match x with
  | [] => Raise (ValueError "zero-size array to reduction operation maximum which has no identity")
  | v :: t => Ok (fold_left Rmax t v)
  end.

(** [Axes.bar(x, height, width)] broadcasts the positions against the
    heights: equal lengths pair up, a length-1 operand is stretched,
    anything else raises.  The container returned holds one bar per
    broadcast element; its length is all the methods use of it. *)
Definition plt_bar (x : list Z) (height : list R) : result Z :=
  if len x =? len height then Ok (len x)
  else if len height =? 1 then Ok (len x)
  else if len x =? 1 then Ok (len height)
  else Raise (ValueError "shape mismatch: objects cannot be broadcast to a single shape").

(** [p[0]] on a bar container of [n] bars. *)
Definition first_bar (n : Z) : result unit :=
  if n =? 0 then Raise (IndexError "tuple index out of range") else Ok tt.

(** [set_xticks(ticks)] followed by [set_xticklabels(labels)]: a non-empty
    list of labels must have one label per tick. *)
Definition set_xticklabels (ticks : list Z) (labels : list string) : result unit :=
  match labels with
  | [] => Ok tt
  | _ =>
      if len ticks =? len labels then Ok tt
      else Raise (ValueError ("The number of FixedLocator locations ("
                              ++ str_int (len ticks)
                              ++ "), usually from a call to set_ticks, does not match the number of labels ("
                              ++ str_int (len labels) ++ ")."))
  end.

(** ** Reference instances of the numeric primitives

    The analyzer takes its window, its Fourier transform and its recursive
    filter from scipy.  The methods below are written over any such
    primitives; these are the textbook ones. *)

(** The discrete Fourier transform. *)
Definition dft (x : list R) : list complex :=
  let L := INR (length x) in
  let angle (k n : nat) := (2 * PI * INR k * INR n / L)%R in
  map (fun k =>
         mkC (np_sum (map (fun n => (nth n x 0 * cos (angle k n))%R) (seq 0 (length x))))
             (- np_sum (map (fun n => (nth n x 0 * sin (angle k n))%R) (seq 0 (length x)))))
      (seq 0 (length x)).

(** The symmetric four-term Blackman-Harris window of [n] points. *)
Definition blackmanharris_sym (n : Z) : list R :=
  if n =? 1 then [1%R]
  else
    map (fun k =>
           let t := (2 * PI * IZR k / IZR (n - 1))%R in
           (35875 / 100000 - 48829 / 100000 * cos t
            + 14128 / 100000 * cos (2 * t) - 1168 / 100000 * cos (3 * t))%R)
        (range n).

(** [sum_k b[k] * h[k]] over the common prefix of [b] and [h]. *)
Definition dot (b h : list R) : R :=
  np_sum (map (fun p => (fst p * snd p)%R) (combine b h)).

(** A direct-form recursive filter: [xh] and [yh] are the past inputs and
    outputs, most recent first. *)
Fixpoint lfilter_from (b a xh yh x : list R) : list R :=
  match x with
  | [] => []
  | xn :: t =>
      let xh' := xn :: xh in
      let yn := ((dot b xh' - dot (tl a) yh) / hd 1 a)%R in
      yn :: lfilter_from b a xh' (yn :: yh) t
  end.

Definition lfilter_direct (b a x : list R) : list R := lfilter_from b a [] [] x.

(** ** The methods of [Analyzer] *)

Section Methods.

(** [soundfile.read]: the decoded samples and the sample rate of a file. *)
Variable sf_read : string -> result (ndarray * Z).

(** [A_weighting.A_weighting]: the coefficients [(b, a)] of the weighting
    filter for a sample rate. *)
Variable A_weighting : Z -> result (list R * list R).

(** [scipy.signal.lfilter] *)
Variable lfilter : list R -> list R -> list R -> list R.

(** [scipy.signal.blackmanharris] *)
Variable blackmanharris : Z -> list R.

(** [scipy.fftpack.fft] on a non-empty array. *)
Variable fft : list R -> list complex.

(** [json.load(open("sound_level_reqs.json"))] *)
Variable sound_level_reqs : result (list (string * spec_entry)).

(** [plt.savefig(path)] as the file system and the backend answer it:
    whether the figure can be written to [path]. *)
Variable plt_savefig : string -> result unit.

Local Open Scope py_scope.

(** [fftpack.fft] refuses an array without data points. *)
Definition fft_checked (x : list R) : result (list complex) :=
  match x with
  | [] => Raise (ValueError "invalid number of data points (0) specified")
  | _ => Ok (fft x)
  end.

Definition validate_audio (x : ndarray) (fs : Z) : M bool :=
  bs <- read block_size ;;
  (if shape0 x <? bs
   then raise (RuntimeError ("Invalid length - input file must be "
                             ++ str_int bs ++ " samples long"))
   else ret tt) ;;
  cfs <- read cal_fs ;;
  (if negb (fs =? cfs)
   then raise (RuntimeError ("Invalid sampling rate - input file must have fs = "
                             ++ str_int cfs))
   else ret tt) ;;
  (if 1 <? ndim x
   then raise (RuntimeError "Invalid channel count - input file must be mono")
   else ret tt) ;;
  ret true.

Definition load (audio_file : string) : M (ndarray * Z) :=
  ' (x, fs) <- lift (sf_read audio_file) ;;
  validate_audio x fs ;;
  v <- read verbose ;;
  (if v : bool
   then print ("Loaded " ++ str_int (shape0 x) ++ " samples with fs = "
               ++ str_int fs ++ " from " ++ audio_file)
   else ret tt) ;;
  ret (x, fs).

(** The label of a band: [str(int(round(2 ** ((band - 30) / 3) * 1000, 0)))]. *)
Definition band_label (band : Z) : string :=
  str_int (round_half_even (Rpower 2 (IZR (band - 30) / 3) * 1000)).

Definition one_third_octaves (x : list R) : result (list string * list Z * list R) :=
  let w := blackmanharris (len x) in
  x_w <~ np_mul x w ;;
  y <~ fft_checked x_w ;;
  y <~ index_all y (range (len x / 2)) ;;
  let m := np_abs y in
  let bands := ansi_bands in
  let xticks := skipn 15 (map band_label bands) in
  let st := band_loop m (enumerate bands) in
  Ok (xticks, bands, acc_energy st).

(** The body of the frame loop: the value appended to [rmse] for a frame. *)
Definition frame_rmse (data : list R) (hop_size frame_size frame : Z) : R :=
  let x := py_slice data (hop_size * frame) (hop_size * frame + frame_size) in
  sqrt (1 / IZR frame_size * np_sum (np_square x)).

Definition find_greatest_energy (data : list R) (fs : Z) (frame_size : Z) : result Z :=
  let hop_size := Z.quot frame_size 4 in
  if frame_size =? 0 then Raise ZeroDivisionError
  else
    let frames := (len data / frame_size) * 4 in
    let rmse := map (frame_rmse data hop_size frame_size) (range frames) in
    k <~ np_argmax rmse ;;
    Ok (hop_size * k).

Definition calibrate (response_time : string) : M R :=
  cf <- read cal_file ;;
  tok <- lift (list_get (split_on "_"%char (basename cf)) 1) ;;
  target <- lift (py_int tok) ;;
  assign (set_cal_target target) ;;
  N <- (if String.eqb response_time "fast" then ret 8192
        else if String.eqb response_time "slow" then ret 65536
        else raise (ValueError "Invalid response time. Must be 'fast' or 'slow'.")) ;;
  ' (x, fs) <- load cf ;;
  assign (set_cal_audio (samples x)) ;;
  assign (set_fs fs) ;;
  idx <- lift (find_greatest_energy (samples x) fs N) ;;
  let frame := py_slice (samples x) idx (idx + N) in
  assign (set_cal_audio frame) ;;
  ' (b, a) <- lift (A_weighting fs) ;;
  let cal_a := lfilter b a frame in
  let w := blackmanharris N in
  cal_aw <- lift (np_mul cal_a w) ;;
  y <- lift (fft_checked cal_aw) ;;
  y <- lift (index_all y (range (N / 2))) ;;
  let total_energy := (2 / IZR N * np_sum (np_square (np_abs y)))%R in
  ret (20 * log10 total_energy)%R.

Definition analyze (audio_file : string) : M analysis :=
  ' (x, fs) <- load audio_file ;;
  N <- read block_size ;;
  idx <- lift (find_greatest_energy (samples x) fs N) ;;
  let x := py_slice (samples x) idx (idx + N) in
  ' (b, a) <- lift (A_weighting fs) ;;
  let x_a := lfilter b a x in
  ' (xticks, bands, energy) <- lift (one_third_octaves x_a) ;;
  let energy := map (fun e => (2 / IZR N * Rabs e)%R) energy in
  let energy := map (fun e => (20 * log10 e)%R) energy in
  target <- getattr "cal_target" cal_target ;;
  c <- getattr "cal" cal ;;
  let energy := map (fun e => (e + (IZR target - c))%R) energy in
  ret {| audio := x; bands := bands; energy := energy; xticks := xticks;
         frame_idx := idx |}.

(** The body of the [try] block of [get_test_details]. *)
Definition parse_filename (audio_file : string) : result test_details :=
  let filename := str_remove ".wav" (basename audio_file) in
  let details := split_on "_"%char filename in
  ty <~ list_get details 0 ;;
  date <~ list_get details 1 ;;
  tok <~ list_get details 2 ;;
  num <~ py_int tok ;;
  Ok {| test_type := ty; test_date := date; test_num := num;
        test_file := filename |}.

(** [test] is bound only when the [try] block ran to its end; the handler
    prints and falls through to [return test]. *)
Definition get_test_details (audio_file : string) : M test_details :=
  match parse_filename audio_file with
  | Ok test => ret test
  | Raise _ =>
      print ("Failed to parse " ++ audio_file ++ "!") ;;
      raise (UnboundLocalError "test")
  end.

(** One figure: the bars of the bands from index 15 on for the measured
    levels, the thresholds and the ambient levels, and a horizontal line. *)
Definition plot_figure (file title : string) (series : option (list R))
  (plot_data amb : analysis) (specs : list R) (line : R) : figure :=
  {| fig_file := file; fig_title := title; fig_time_series := series;
     fig_positions := skipn 15 (bands plot_data);
     fig_labels := xticks plot_data;
     fig_measured := skipn 15 (energy plot_data);
     fig_spec := specs;
     fig_ambient := skipn 15 (energy amb);
     fig_two_band_line := line |}.

(** The bars, ticks, line and legend of the frequency axes, drawn the same
    way for both figures: the attributes read, in the order they are read,
    and the checks matplotlib makes on the way.  Colours, grids and axis
    labels are not modelled. *)
Definition frequency_axes (plot_data : analysis) : M (list R * analysis * R) :=
  let positions := skipn 15 (bands plot_data) in
  p1 <- lift (plt_bar positions (skipn 15 (energy plot_data))) ;;
  specs <- getattr "band_specs" band_specs ;;
  p2 <- lift (plt_bar positions specs) ;;
  amb <- getattr "amb_analysis" amb_analysis ;;
  p3 <- lift (plt_bar positions (skipn 15 (energy amb))) ;;
  lift (set_xticklabels positions (xticks plot_data)) ;;
  line <- getattr "two_band_spec" two_band_spec ;;
  lift (first_bar p1) ;;
  lift (first_bar p2) ;;
  lift (first_bar p3) ;;
  ret (specs, amb, line).

(** [generate_plots]: the amplitude limit and the time vector of the time
    axes, then the two figures, each saved when it has been drawn. *)
Definition generate_plots (plot_title plot_filename : string) (plot_data : analysis) : M unit :=
  od <- read output_dir ;;
  let plot_path := path_join od plot_filename in
  ymax <- lift (np_max (audio plot_data)) ;;
  rate <- getattr "fs" fs ;;
  (if rate =? 0 then raise ZeroDivisionError else ret tt) ;;
  ' (specs, amb, line) <- frequency_axes plot_data ;;
  ft <- read file_type ;;
  lift (plt_savefig (plot_path ++ "_j" ++ "." ++ ft)) ;;
  savefig (plot_figure (plot_path ++ "_j" ++ "." ++ ft) plot_title
             (Some (audio plot_data)) plot_data amb specs line) ;;
  ' (specs, amb, line) <- frequency_axes plot_data ;;
  ft <- read file_type ;;
  lift (plt_savefig (plot_path ++ "_f" ++ "." ++ ft)) ;;
  savefig (plot_figure (plot_path ++ "_f" ++ "." ++ ft) plot_title
             None plot_data amb specs line).

Definition run (audio_file : string) : M unit :=
  test <- get_test_details audio_file ;;
  table <- getattr "slr" slr ;;
  entry <- lift (dict_get table (test_type test)) ;;
  assign (set_band_specs (map snd (octave_bands entry))) ;;
  table <- getattr "slr" slr ;;
  entry <- lift (dict_get table (test_type test)) ;;
  assign (set_two_band_spec (two_band entry)) ;;
  res <- analyze audio_file ;;
  name <- lift (dict_get test_names (test_type test)) ;;
  let plot_title := (name ++ " # " ++ str_int (test_num test) ++ " | "
                     ++ test_date test)%string in
  let plot_filename := test_file test in
  generate_plots plot_title plot_filename res.

(** The instance before the computed attributes are assigned. *)
Definition new_Analyzer (cal_file : string) (cal_fs : Z) (cal_type amb_file
  output_dir file_type : string) (verbose : bool) : Analyzer :=
  mk_Analyzer cal_file cal_fs cal_type amb_file output_dir file_type verbose
    65536 None None None None None None None None.

(** [__init__], from [self.cal = self.calibrate()] on. *)
Definition init : M unit :=
  c <- calibrate "fast" ;;
  assign (set_cal c) ;;
  af <- read amb_file ;;
  a <- analyze af ;;
  assign (set_amb_analysis a) ;;
  table <- lift sound_level_reqs ;;
  assign (set_slr table).

(** ** Test fixtures

    A small file system, a pass-through weighting filter and a threshold
    table, for running the methods on concrete inputs. *)

(** A click of amplitude 1 followed by silence, [n] samples in all. *)
Definition click_first (n : Z) : list R := 1%R :: repeat 0%R (Z.to_nat (n - 1)).

(** [n] samples of silence followed by a click of amplitude 1. *)
Definition click_last (n : Z) : list R := repeat 0%R (Z.to_nat n) ++ [1%R].

Definition demo_read (path : string) : result (ndarray * Z) :=
  if String.eqb path "cal_94_ref.wav" then Ok (Arr1 (click_first 65536), 48000)
  else if String.eqb path "amb_20200101_1.wav" then Ok (Arr1 (click_first 65536), 48000)
  else if String.eqb path "stat_20200101_1.wav" then Ok (Arr1 (click_first 65536), 48000)
  else if String.eqb path "cal_94_late.wav" then Ok (Arr1 (click_last 65536), 48000)
  else if String.eqb path "stat_20200101_2.wav" then Ok (Arr1 (click_last 65536), 48000)
  else Raise (ReadError path).

Definition flat_weighting (rate : Z) : result (list R * list R) :=
  Ok ([1%R], [1%R]).

(** A file system on which figures can be written to the directory
    [plots] only. *)
Definition demo_savefig (path : string) : result unit :=
  if String.prefix "plots/" path then Ok tt else Raise (FileNotFoundError path).

(** Thresholds for the test type ["stat"]: one per plotted band, each
    [margin] above the level in [levels]. *)
Definition demo_reqs (levels : list R) (margin : R) : list (string * spec_entry) :=
  [("stat"%string,
    {| octave_bands :=
         combine (map str_int [25; 26; 27; 28; 29; 30; 31; 32; 33; 34; 35; 36; 37])
                 (map (fun v => (v + margin)%R) levels);
       two_band := (hd 0%R levels + margin)%R |})].

(** The instance before [__init__] computes anything. *)
Definition demo_blank (cal_path : string) : World :=
  mk_World (new_Analyzer cal_path 48000 "mean" "amb_20200101_1.wav" "plots"
              "png" false) [] [].

(** An instance as [__init__] leaves it, with a measured calibration
    level of 12 dB for a target of 94 dB, and the world around it. *)
Definition demo_ambient : analysis :=
  {| audio := click_first 65536; bands := ansi_bands;
     energy := repeat 30%R 28;
     xticks := skipn 15 (map band_label ansi_bands);
     frame_idx := 0 |}.

Definition demo_world (cal_path : string) (table : list (string * spec_entry)) : World :=
  mk_World
    (mk_Analyzer cal_path 48000 "mean" "amb_20200101_1.wav" "plots" "png" false
       65536 (Some 12%R) (Some demo_ambient) (Some table) (Some 94)
       (Some (py_slice (click_first 65536) 0 8192)) (Some 48000) None None)
    [] [].

(** What a figure shows apart from the thresholds copied from the table. *)
Definition without_thresholds (f : figure) : figure :=
  {| fig_file := fig_file f; fig_title := fig_title f;
     fig_time_series := fig_time_series f;
     fig_positions := fig_positions f; fig_labels := fig_labels f;
     fig_measured := fig_measured f; fig_spec := [];
     fig_ambient := fig_ambient f; fig_two_band_line := 0%R |}.

(** The root mean square of a frame in the words of the specification:
    the square root of the mean of its squared samples. *)
Definition rms_of_frame (x : list R) : R :=
  sqrt (np_sum (np_square x) / IZR (len x)).

(** [k] is the first position of the greatest value of [l]. *)
Definition first_max (l : list R) (k : nat) : Prop :=
  (k < length l)%nat
  /\ (forall j, (j < length l)%nat -> (nth j l 0 <= nth k l 0)%R)
  /\ (forall j, (j < k)%nat -> (nth j l 0 < nth k l 0)%R).

(** The three exceptions of [validate_audio]. *)
Definition invalid_length (bs : Z) : exn :=
  RuntimeError ("Invalid length - input file must be " ++ str_int bs
                ++ " samples long").

Definition invalid_rate (cfs : Z) : exn :=
  RuntimeError ("Invalid sampling rate - input file must have fs = "
                ++ str_int cfs).

Definition invalid_channels : exn :=
  RuntimeError "Invalid channel count - input file must be mono".

(** What [load] prints when [verbose] is set. *)
Definition loaded_message (x : ndarray) (rate : Z) (audio_file : string) : string :=
  "Loaded " ++ str_int (shape0 x) ++ " samples with fs = " ++ str_int rate
  ++ " from " ++ audio_file.

(** The world after a successful [load]. *)
Definition after_load (x : ndarray) (rate : Z) (audio_file : string) (w : World) : World :=
  if verbose (self w)
  then mk_World (self w) (stdout w ++ [loaded_message x rate audio_file]) (figures w)
  else w.

(** The magnitude spectrum [m] that [one_third_octaves] folds into bands:
    the first half of the transform of the windowed frame. *)
Definition spectrum (x : list R) : list R :=
  np_abs (firstn (Z.to_nat (len x / 2))
            (fft (map (fun p => (fst p * snd p)%R)
                    (combine x (blackmanharris (len x)))))).

(** The last three statements of [analyze] before the dictionary: scaling
    by [2.0/N], conversion to decibels and the calibration offset. *)
Definition calibrated_energy (N target : Z) (c : R) (band_energy : list R) : list R :=
  map (fun e => (e + (IZR target - c))%R)
    (map (fun e => (20 * log10 e)%R)
       (map (fun e => (2 / IZR N * Rabs e)%R) band_energy)).

(** The energies of the 28 bands of a frame, before calibration. *)
Definition band_energies (x : list R) : list R :=
  acc_energy (band_loop (spectrum x) (enumerate ansi_bands)).

(** The world in which [calibrate] multiplies the frame by the window:
    [cal_target], [cal_audio] and [fs] have been assigned and [load] has
    printed its message. *)
Definition calibrating (target rate : Z) (data frame : list R) (w : World) : World :=
  let w1 := after_load (Arr1 data) rate (cal_file (self w))
              (mk_World (set_cal_target target (self w)) (stdout w) (figures w)) in
  mk_World (set_cal_audio frame (set_fs rate (set_cal_audio data (self w1))))
    (stdout w1) (figures w1).

(** The level computed by the last two statements of [calibrate] from the
    half spectrum [m] of the windowed frame. *)
Definition total_level (N : Z) (m : list R) : R :=
  (20 * log10 (2 / IZR N * np_sum (np_square m)))%R.

(** The instance after the run of a method, whatever it returned or
    raised, is related to the instance before by [rel]. *)
Definition keeps {A : Type} (rel : Analyzer -> Analyzer -> Prop) (c : M A) : Prop :=
  forall w, rel (self w) (self (snd (c w))).

(** Two instances that agree on every attribute other than [band_specs]
    and [two_band_spec]. *)
Definition same_but_specs (a a' : Analyzer) : Prop :=
  cal_file a' = cal_file a /\ cal_fs a' = cal_fs a /\ cal_type a' = cal_type a
  /\ amb_file a' = amb_file a /\ output_dir a' = output_dir a
  /\ file_type a' = file_type a /\ verbose a' = verbose a
  /\ block_size a' = block_size a /\ cal a' = cal a
  /\ amb_analysis a' = amb_analysis a /\ slr a' = slr a
  /\ cal_target a' = cal_target a /\ cal_audio a' = cal_audio a
  /\ fs a' = fs a.

(** [c in s] for a character [c]. *)
Fixpoint contains (c : ascii) (s : string) : bool :=
  match s with
  | EmptyString => false
  | String c' t => (Ascii.eqb c' c || contains c t)%bool
  end.

(** * Properties *)

(** ** Lists, slices and sums *)

Lemma len_nonneg {A : Type} (l : list A) : 0 <= len l.
Proof. unfold len. lia. Qed.

Lemma range_length (n : Z) : length (range n) = Z.to_nat n.
Proof. unfold range. now rewrite length_map, length_seq. Qed.

Lemma range_nth (n : Z) (k : nat) :
  (k < Z.to_nat n)%nat -> nth k (range n) 0 = Z.of_nat k.
Proof.
  intros Hk. unfold range.
  change 0 with (Z.of_nat 0). rewrite map_nth. now rewrite seq_nth.
Qed.

Lemma np_sum_app (l1 l2 : list R) :
  np_sum (l1 ++ l2) = (np_sum l1 + np_sum l2)%R.
Proof.
  induction l1 as [|x l1 IH]; simpl.
  - lra.
  - rewrite IH. lra.
Qed.

Lemma np_sum_nonneg (l : list R) :
  Forall (fun x => (0 <= x)%R) l -> (0 <= np_sum l)%R.
Proof.
  induction 1 as [|x l Hx _ IH]; simpl; lra.
Qed.

Lemma np_sum_zeros (l : list R) :
  Forall (fun x => x = 0%R) l -> np_sum l = 0%R.
Proof.
  induction 1 as [|x l Hx _ IH]; simpl; lra.
Qed.

Lemma py_slice_length {A : Type} (l : list A) (a b : Z) :
  0 <= a -> a <= b -> b <= len l -> len (py_slice l a b) = b - a.
Proof.
  unfold py_slice, len. intros Ha Hab Hb.
  rewrite length_firstn, length_skipn. lia.
Qed.

Lemma py_slice_short {A : Type} (l : list A) (a b : Z) :
  0 <= a -> a <= len l -> len l < b -> len (py_slice l a b) = len l - a.
Proof.
  unfold py_slice, len. intros Ha Hab Hb.
  rewrite length_firstn, length_skipn. lia.
Qed.

Lemma Forall_firstn' {A : Type} (P : A -> Prop) (n : nat) (l : list A) :
  Forall P l -> Forall P (firstn n l).
Proof.
  intros H. revert n. induction H as [|x l Hx _ IH]; intros [|n]; simpl; auto.
Qed.

Lemma Forall_skipn' {A : Type} (P : A -> Prop) (n : nat) (l : list A) :
  Forall P l -> Forall P (skipn n l).
Proof.
  intros H. revert n. induction H as [|x l Hx Hl IH]; intros [|n]; simpl; auto.
Qed.

Lemma py_slice_Forall {A : Type} (P : A -> Prop) (l : list A) (a b : Z) :
  Forall P l -> Forall P (py_slice l a b).
Proof.
  intros H. unfold py_slice. now apply Forall_firstn', Forall_skipn'.
Qed.

(** Summing a prefix is summing the entries at its indices; an index past
    the end contributes nothing. *)
Lemma np_sum_firstn_nth (n : nat) (l : list R) :
  np_sum (firstn n l) = np_sum (map (fun i => nth i l 0%R) (seq 0 n)).
Proof.
  revert n. induction l as [|x l IH]; intros n.
  - rewrite firstn_nil. simpl. symmetry. apply np_sum_zeros.
    apply Forall_forall. intros y Hy. apply in_map_iff in Hy.
    destruct Hy as [i [<- _]]. now destruct i.
  - destruct n as [|n]; [reflexivity|].
    simpl. rewrite IH. f_equal.
    rewrite <- seq_shift, map_map. reflexivity.
Qed.

Lemma nth_skipn' {A : Type} (a i : nat) (l : list A) (d : A) :
  nth i (skipn a l) d = nth (a + i) l d.
Proof.
  revert l. induction a as [|a IH]; intros l; simpl.
  - reflexivity.
  - destruct l as [|x l]; simpl.
    + now destruct i.
    + apply IH.
Qed.

(** The sum of a slice is the sum of the spectrum over the bins of the
    slice. *)
Lemma np_sum_py_slice (m : list R) (a b : Z) :
  0 <= a -> np_sum (py_slice m a b) = bin_sum m a b.
Proof.
  intros Ha. unfold py_slice, bin_sum, range.
  rewrite np_sum_firstn_nth. f_equal.
  rewrite !map_map. apply map_ext_in. intros i _.
  rewrite nth_skipn'. f_equal. lia.
Qed.

Lemma firstn_seq_min (k a n : nat) :
  firstn k (seq a n) = seq a (Nat.min k n).
Proof.
  revert a n. induction k as [|k IH]; intros a [|n]; simpl; try reflexivity.
  now rewrite IH.
Qed.

(** ** The band-grouping recurrence *)

Lemma enumerate_ansi_bands :
  enumerate ansi_bands
  = map (fun k => (Z.of_nat k, 10 + Z.of_nat k)) (seq 0 28).
Proof. reflexivity. Qed.

(** Entering iteration [k + 1] is leaving iteration [k]. *)
Lemma state_at_S (m : list R) (k : nat) :
  (k < 28)%nat ->
  state_at m (S k) = band_body m (state_at m k) (Z.of_nat k, 10 + Z.of_nat k).
Proof.
  intros Hk. unfold state_at, band_loop.
  rewrite enumerate_ansi_bands, !firstn_map, !firstn_seq_min.
  replace (Nat.min (S k) 28) with (S k) by lia.
  replace (Nat.min k 28) with k by lia.
  rewrite seq_S, map_app, fold_left_app. reflexivity.
Qed.

Lemma state_at_all (m : list R) (k : nat) :
  (28 <= k)%nat -> state_at m k = band_loop m (enumerate ansi_bands).
Proof.
  intros Hk. unfold state_at. rewrite firstn_all2; [reflexivity|].
  rewrite enumerate_ansi_bands, length_map, length_seq. exact Hk.
Qed.

(** The loop invariant: the integer variables follow [band_table], the
    slice always ends [nbins] past its start, and one energy has been
    appended per completed iteration. *)
Lemma state_at_invariant (m : list R) (k : nat) :
  (k <= 28)%nat ->
  (step (state_at m k), nbins (state_at m k), start_bin (state_at m k))
    = band_table k
  /\ stop_bin (state_at m k) = start_bin (state_at m k) + nbins (state_at m k)
  /\ length (acc_energy (state_at m k)) = k.
Proof.
  induction k as [|k IH]; intros Hk.
  - repeat split; reflexivity.
  - destruct IH as (Ht & Hs & Hl); [lia|].
    rewrite state_at_S by lia. simpl band_table.
    rewrite <- Ht. unfold band_body; cbn [step nbins start_bin stop_bin acc_energy fst].
    repeat split.
    + rewrite Hs. lia.
    + rewrite length_app, Hl. simpl. lia.
Qed.

Lemma band_table_positive (k : nat) :
  let '(s, w, a) := band_table k in 1 <= s /\ 3 <= w /\ 13 <= a.
Proof.
  induction k as [|k IH]; simpl.
  - lia.
  - destruct (band_table k) as [[s w] a].
    destruct ((Z.of_nat k + 1) mod 3 =? 0); lia.
Qed.

Lemma band_range_table (m : list R) (k : nat) :
  (k <= 28)%nat ->
  band_range m k
  = (snd (band_table k), snd (band_table k) + snd (fst (band_table k))).
Proof.
  intros Hk. destruct (state_at_invariant m k Hk) as (Ht & Hs & _).
  unfold band_range. rewrite Hs. rewrite <- Ht. reflexivity.
Qed.

(** The energy appended by iteration [k] stays at position [k]. *)
Lemma acc_energy_nth (m : list R) (n k : nat) :
  (k < n <= 28)%nat ->
  nth k (acc_energy (state_at m n)) 0%R
  = np_sum (py_slice m (fst (band_range m k)) (snd (band_range m k))).
Proof.
  induction n as [|n IH]; intros Hk; [lia|].
  rewrite state_at_S by lia.
  unfold band_body; cbn [acc_energy].
  destruct (state_at_invariant m n) as (_ & _ & Hl); [lia|].
  destruct (Nat.eq_dec k n) as [->|Hne].
  - rewrite app_nth2 by lia. rewrite Hl, Nat.sub_diag. reflexivity.
  - rewrite app_nth1 by lia. apply IH. lia.
Qed.

Lemma band_range_start_nonneg (m : list R) (k : nat) :
  (k <= 28)%nat -> 13 <= fst (band_range m k) < snd (band_range m k).
Proof.
  intros Hk. rewrite band_range_table by exact Hk.
  pose proof (band_table_positive k) as H.
  destruct (band_table k) as [[s w] a]. simpl. lia.
Qed.

(** The ranges of the 28 bands, as the loop reads them. *)
Lemma band_ranges_28 (m : list R) :
  map (band_range m) (seq 0 28)
  = [(13, 16); (16, 20); (20, 25); (25, 31); (31, 39); (39, 49); (49, 61);
     (61, 77); (77, 97); (97, 121); (121, 153); (153, 193); (193, 241);
     (241, 305); (305, 385); (385, 481); (481, 609); (609, 769); (769, 961);
     (961, 1217); (1217, 1537); (1537, 1921); (1921, 2433); (2433, 3073);
     (3073, 3841); (3841, 4865); (4865, 6145); (6145, 7681)].
Proof.
  transitivity
    (map (fun k => (snd (band_table k),
                    snd (band_table k) + snd (fst (band_table k)))) (seq 0 28)).
  - apply map_ext_in. intros k Hk. apply in_seq in Hk.
    apply band_range_table. lia.
  - reflexivity.
Qed.

Lemma band_range_stop_bound (m : list R) (k : nat) :
  (k < 26)%nat -> snd (band_range m k) <= 4865.
Proof.
  intros Hk. rewrite band_range_table by lia.
  do 26 (destruct k as [|k]; [vm_compute; discriminate|]). lia.
Qed.

(** C1: on a spectrum of at least 5000 bins the loop of
    [one_third_octaves] appends 28 energies; the first six bands read the
    bins [13,16), [16,20), [20,25), [25,31), [31,39), [39,49), of widths
    3, 4, 5, 6, 8, 10; the step is still 1 on entry to bands 0, 1 and 2 and
    is 2 on entry to band 3; from one band to the next the start advances
    by the width, the width grows by the step and the step doubles exactly
    after the bands of index 2 mod 3; and every band's energy is the sum
    of the spectrum's magnitudes over the bins of its range, which for the
    bands 0 to 25 (the first six among them) all lie inside the spectrum. *)
Theorem band_grouping_first_six (m : list R) (Hm : 5000 <= len m) :
  let st := band_loop m (enumerate ansi_bands) in
  length (acc_energy st) = 28%nat
  /\ map (band_range m) (seq 0 6)
     = [(13, 16); (16, 20); (20, 25); (25, 31); (31, 39); (39, 49)]
  /\ map (band_width m) (seq 0 6) = [3; 4; 5; 6; 8; 10]
  /\ map (fun k => step (state_at m k)) (seq 0 4) = [1; 1; 1; 2]
  /\ (forall k, (k < 28)%nat ->
        fst (band_range m (S k)) = fst (band_range m k) + band_width m k
        /\ band_width m (S k) = band_width m k + step (state_at m k)
        /\ step (state_at m (S k))
           = if Z.of_nat k mod 3 =? 2 then 2 * step (state_at m k)
             else step (state_at m k))
  /\ (forall k, (k < 28)%nat ->
        nth k (acc_energy st) 0%R
        = bin_sum m (fst (band_range m k)) (snd (band_range m k)))
  /\ (forall k, (k < 26)%nat -> snd (band_range m k) <= len m).
Proof.
  intros st. subst st. rewrite <- (state_at_all m 28) by lia.
  split; [|split; [|split; [|split; [|split; [|split]]]]].
  - now destruct (state_at_invariant m 28) as (_ & _ & Hl); [lia|].
  - cbn [map seq]. rewrite !band_range_table by lia. reflexivity.
  - unfold band_width. cbn [map seq].
    rewrite !band_range_table by lia. reflexivity.
  - transitivity (map (fun k => fst (fst (band_table k))) (seq 0 4));
      [|reflexivity].
    apply map_ext_in. intros k Hk. apply in_seq in Hk.
    destruct (state_at_invariant m k) as (Ht & _); [lia|].
    now rewrite <- Ht.
  - intros k Hk. unfold band_width, band_range; cbn [fst snd].
    destruct (state_at_invariant m k) as (_ & Hs & _); [lia|].
    rewrite state_at_S by lia.
    unfold band_body; cbn [step nbins start_bin stop_bin fst].
    rewrite Hs. repeat split; try lia.
    assert (E : ((Z.of_nat k + 1) mod 3 =? 0) = (Z.of_nat k mod 3 =? 2)).
    { apply Bool.eq_true_iff_eq. rewrite !Z.eqb_eq.
      pose proof (Z.mod_pos_bound (Z.of_nat k) 3 ltac:(lia)).
      rewrite <- Zplus_mod_idemp_l.
      split; intros H1.
      - destruct (Z.eq_dec (Z.of_nat k mod 3) 0) as [e|n0];
          [rewrite e in H1; discriminate|].
        destruct (Z.eq_dec (Z.of_nat k mod 3) 1) as [e|n1];
          [rewrite e in H1; discriminate|]. lia.
      - rewrite H1. reflexivity. }
    rewrite E. destruct (Z.of_nat k mod 3 =? 2); lia.
  - intros k Hk. rewrite acc_energy_nth by lia.
    apply np_sum_py_slice.
    pose proof (band_range_start_nonneg m k). lia.
  - intros k Hk. pose proof (band_range_stop_bound m k Hk). lia.
Qed.

Lemma band_step_relation (m : list R) (k : nat) :
  (k < 28)%nat ->
  fst (band_range m (S k)) = snd (band_range m k)
  /\ band_width m (S k) = band_width m k + step (state_at m k)
  /\ 1 <= step (state_at m k).
Proof.
  intros Hk. unfold band_width, band_range; cbn [fst snd].
  destruct (state_at_invariant m k) as (Ht & Hs & _); [lia|].
  rewrite state_at_S by lia.
  unfold band_body; cbn [step nbins start_bin stop_bin fst].
  pose proof (band_table_positive k) as Hp. rewrite <- Ht in Hp.
  repeat split; lia.
Qed.

Lemma band_starts_monotone (m : list R) (j k : nat) :
  (j < k <= 28)%nat -> snd (band_range m j) <= fst (band_range m k).
Proof.
  intros [Hjk Hk]. induction k as [|k IH]; [lia|].
  destruct (band_step_relation m k) as (Hc & _); [lia|].
  destruct (Nat.eq_dec j k) as [->|Hne].
  - lia.
  - pose proof (band_range_start_nonneg m k). lia.
Qed.

(** C2: the bin ranges of the 28 bands are non-empty and increasing, each
    band ends where the next one starts, a band never shares a bin with a
    later band, and the widths never decrease from one band to the next. *)
Theorem band_ranges_contiguous (m : list R) :
  (forall k, (k < 28)%nat ->
     fst (band_range m k) < snd (band_range m k))
  /\ (forall k, (k <= 26)%nat ->
        snd (band_range m k) = fst (band_range m (S k))
        /\ fst (band_range m k) < fst (band_range m (S k))
        /\ snd (band_range m k) < snd (band_range m (S k))
        /\ band_width m k <= band_width m (S k))
  /\ (forall j k i, (j < k < 28)%nat ->
        fst (band_range m j) <= i < snd (band_range m j) ->
        ~ (fst (band_range m k) <= i < snd (band_range m k))).
Proof.
  split; [|split].
  - intros k Hk. pose proof (band_range_start_nonneg m k). lia.
  - intros k Hk.
    destruct (band_step_relation m k) as (Hc & Hw & Hs); [lia|].
    pose proof (band_range_start_nonneg m k).
    pose proof (band_range_start_nonneg m (S k)).
    repeat split; lia.
  - intros j k i Hjk Hj Hki.
    pose proof (band_starts_monotone m j k). lia.
Qed.

(** ** The frame selector *)

Lemma argmax_from_first_max (t pre : list R) (bi : nat) :
  first_max pre bi ->
  let r := argmax_from (Z.of_nat bi) (nth bi pre 0%R) (len pre) t in
  0 <= r /\ first_max (pre ++ t) (Z.to_nat r).
Proof.
  revert pre bi. induction t as [|x t IH]; intros pre bi Hfm; simpl.
  - rewrite app_nil_r, Nat2Z.id. split; [lia|exact Hfm].
  - destruct Hfm as (Hlt & Hmax & Hfirst).
    assert (Hlen : len pre + 1 = len (pre ++ [x])).
    { unfold len. rewrite length_app. simpl. lia. }
    destruct (Rlt_dec (nth bi pre 0%R) x) as [Hbx|Hbx].
    + specialize (IH (pre ++ [x]) (length pre)).
      replace (nth (length pre) (pre ++ [x]) 0%R) with x in IH
        by (rewrite app_nth2, Nat.sub_diag by lia; reflexivity).
      rewrite Hlen. rewrite <- app_assoc in IH. apply IH.
      repeat split.
      * rewrite length_app. simpl. lia.
      * intros j Hj. rewrite length_app in Hj. simpl in Hj.
        rewrite (app_nth2 pre [x] 0%R (n := length pre)) by lia.
        rewrite Nat.sub_diag. simpl.
        destruct (Nat.eq_dec j (length pre)) as [->|Hne].
        -- rewrite app_nth2, Nat.sub_diag by lia. simpl. lra.
        -- rewrite app_nth1 by lia. specialize (Hmax j ltac:(lia)). lra.
      * intros j Hj.
        rewrite (app_nth2 pre [x] 0%R (n := length pre)) by lia.
        rewrite Nat.sub_diag. simpl.
        rewrite app_nth1 by lia. specialize (Hmax j ltac:(lia)). lra.
    + specialize (IH (pre ++ [x]) bi).
      replace (nth bi (pre ++ [x]) 0%R) with (nth bi pre 0%R) in IH
        by (rewrite app_nth1 by lia; reflexivity).
      rewrite Hlen. rewrite <- app_assoc in IH. apply IH.
      repeat split.
      * rewrite length_app. simpl. lia.
      * intros j Hj. rewrite length_app in Hj. simpl in Hj.
        rewrite (app_nth1 pre [x] 0%R (n := bi)) by lia.
        destruct (Nat.eq_dec j (length pre)) as [->|Hne].
        -- rewrite app_nth2, Nat.sub_diag by lia. simpl. lra.
        -- rewrite app_nth1 by lia. apply Hmax. lia.
      * intros j Hj. rewrite !app_nth1 by lia. now apply Hfirst.
Qed.

(** [np.argmax] of a non-empty array returns the first position of its
    greatest value. *)
Lemma np_argmax_first_max (l : list R) :
  l <> [] ->
  exists k, np_argmax l = Ok (Z.of_nat k) /\ first_max l k.
Proof.
  destruct l as [|x t]; [congruence|]. intros _.
  pose proof (argmax_from_first_max t [x] 0) as H. simpl in H.
  destruct H as (Hr & Hfm).
  - repeat split; simpl; try lia.
    intros [|j] Hj; [lra|lia].
  - exists (Z.to_nat (argmax_from 0 x 1 t)). split; [|exact Hfm].
    simpl. now rewrite Z2Nat.id.
Qed.

Lemma first_max_unique (l : list R) (j k : nat) :
  first_max l j -> first_max l k -> j = k.
Proof.
  intros (Hj & Hjm & Hjf) (Hk & Hkm & Hkf).
  destruct (Nat.lt_trichotomy j k) as [H|[H|H]]; [|exact H|].
  - specialize (Hkf j H). specialize (Hjm k Hk). lra.
  - specialize (Hjf k H). specialize (Hkm j Hj). lra.
Qed.

Lemma np_argmax_eq (l : list R) (k : nat) :
  first_max l k -> np_argmax l = Ok (Z.of_nat k).
Proof.
  intros Hk. destruct (np_argmax_first_max l) as (k' & Hr & Hk').
  - destruct Hk as (Hlt & _). destruct l; simpl in Hlt; [lia|congruence].
  - now rewrite (first_max_unique l k k').
Qed.

Lemma np_square_nonneg (x : list R) : Forall (fun v => (0 <= v)%R) (np_square x).
Proof.
  unfold np_square. apply Forall_forall. intros v Hv.
  apply in_map_iff in Hv. destruct Hv as [u [<- _]]. nra.
Qed.

Lemma np_square_app (x y : list R) :
  np_square (x ++ y) = np_square x ++ np_square y.
Proof. unfold np_square. apply map_app. Qed.

(** A slice that runs to the end of the array is what is left after its
    start. *)
Lemma py_slice_to_end {A : Type} (l : list A) (a b : Z) :
  len l <= b -> py_slice l a b = skipn (Z.to_nat a) l.
Proof.
  intros Hb. unfold py_slice. apply firstn_all2.
  rewrite length_skipn. unfold len in Hb. lia.
Qed.

(** Of two frames that both run to the end of the signal, the one that
    starts later has no more energy. *)
Lemma tail_frame_dominated (data : list R) (a a' b b' : Z) :
  0 <= a <= a' -> len data <= b -> len data <= b' ->
  (np_sum (np_square (py_slice data a' b'))
   <= np_sum (np_square (py_slice data a b)))%R.
Proof.
  intros Ha Hb Hb'. rewrite !py_slice_to_end by assumption.
  replace (Z.to_nat a') with (Z.to_nat (a' - a) + Z.to_nat a)%nat by lia.
  rewrite <- skipn_skipn.
  rewrite <- (firstn_skipn (Z.to_nat (a' - a)) (skipn (Z.to_nat a) data)) at 2.
  rewrite np_square_app, np_sum_app.
  pose proof (np_sum_nonneg _
    (np_square_nonneg (firstn (Z.to_nat (a' - a)) (skipn (Z.to_nat a) data)))).
  lra.
Qed.

Lemma frame_rmse_dominated (data : list R) (hop N j k : Z) :
  0 < N -> 0 <= hop -> 0 <= j <= k ->
  len data <= hop * j + N ->
  (frame_rmse data hop N k <= frame_rmse data hop N j)%R.
Proof.
  intros HN Hh Hjk Hend. unfold frame_rmse.
  apply sqrt_le_1_alt. apply Rmult_le_compat_l.
  - apply Rlt_le. apply Rdiv_lt_0_compat; [lra|]. now apply IZR_lt.
  - apply tail_frame_dominated; nia.
Qed.

Lemma nth_frame_rmse (data : list R) (hop N frames : Z) (k : nat) :
  (k < Z.to_nat frames)%nat ->
  nth k (map (frame_rmse data hop N) (range frames)) 0%R
  = frame_rmse data hop N (Z.of_nat k).
Proof.
  intros Hk.
  rewrite nth_indep with (d' := frame_rmse data hop N 0)
    by (now rewrite length_map, range_length).
  rewrite map_nth. now rewrite range_nth.
Qed.

(** The frame selector on a signal of at least one frame: it returns the
    hop times the first position of the greatest entry of [rmse], which has
    one entry per examined frame. *)
Lemma find_greatest_energy_first_max (data : list R) (fs N : Z) :
  0 < N -> N <= len data ->
  let hop := N / 4 in
  let rmse := map (frame_rmse data hop N) (range (len data / N * 4)) in
  exists k : nat,
    find_greatest_energy data fs N = Ok (hop * Z.of_nat k)
    /\ first_max rmse k
    /\ Z.of_nat k < len data / N * 4.
Proof.
  intros HN Hlen hop rmse.
  assert (Hq : 1 <= len data / N) by (apply Z.div_le_lower_bound; lia).
  destruct (np_argmax_first_max rmse) as (k & Hk & Hfm).
  - intros E. apply (f_equal (@length R)) in E.
    unfold rmse in E. rewrite length_map, range_length in E. simpl in E. lia.
  - exists k. unfold find_greatest_energy.
    rewrite Z.quot_div_nonneg by lia.
    destruct (Z.eqb_spec N 0) as [->|_]; [lia|].
    fold hop. fold rmse. rewrite Hk. simpl. repeat split; try apply Hfm.
    destruct Hfm as (Hlt & _). unfold rmse in Hlt.
    rewrite length_map, range_length in Hlt. lia.
Qed.

(** With a frame of four whole hops and a signal of whole hops, the frame
    selected never runs past the end of the signal. *)
Lemma find_greatest_energy_in_bounds (data : list R) (fs hop c idx : Z) :
  0 < hop -> 4 <= c -> len data = hop * c ->
  find_greatest_energy data fs (4 * hop) = Ok idx ->
  idx + 4 * hop <= len data.
Proof.
  intros Hh Hc Hlen Hidx.
  destruct (find_greatest_energy_first_max data fs (4 * hop)) as (k & Hk & Hfm & Hkb);
    [lia|nia|].
  assert (E : 4 * hop / 4 = hop) by (rewrite Z.mul_comm; apply Z.div_mul; lia).
  rewrite E in *.
  assert (Hi : idx = hop * Z.of_nat k) by congruence.
  subst idx. clear Hidx.
  assert (Hfr : c - 3 <= len data / (4 * hop) * 4).
  { rewrite Hlen.
    pose proof (Z.div_mod (hop * c) (4 * hop) ltac:(lia)) as Hd.
    pose proof (Z.mod_pos_bound (hop * c) (4 * hop) ltac:(lia)) as Hm.
    nia. }
  destruct (Z_le_gt_dec (Z.of_nat k) (c - 4)) as [Hle|Hgt].
  { assert (hop * Z.of_nat k <= hop * (c - 4))
      by (apply Z.mul_le_mono_nonneg_l; lia).
    lia. }
  exfalso. destruct Hfm as (_ & _ & Hfirst).
  specialize (Hfirst (Z.to_nat (c - 4)) ltac:(lia)).
  rewrite !nth_frame_rmse in Hfirst by lia.
  rewrite Z2Nat.id in Hfirst by lia.
  pose proof (frame_rmse_dominated data hop (4 * hop) (c - 4) (Z.of_nat k)
                ltac:(lia) ltac:(lia) ltac:(lia) ltac:(nia)).
  lra.
Qed.

Lemma frame_rmse_full_frame (data : list R) (hop N k : Z) :
  0 < N -> 0 <= hop * k -> hop * k + N <= len data ->
  frame_rmse data hop N k
  = rms_of_frame (py_slice data (hop * k) (hop * k + N)).
Proof.
  intros HN Hk Hfit. unfold frame_rmse, rms_of_frame.
  rewrite py_slice_length by lia.
  replace (hop * k + N - hop * k) with N by lia.
  f_equal. field. apply not_0_IZR. lia.
Qed.

(** C5 (amended): for a signal of at least [N] samples the selector
    examines exactly [floor(len/N) * 4] frames at hop [floor(N/4)]; the
    value it computes for a frame is [sqrt((1/N) * sum of the squares of
    the samples of signal[hop*k : hop*k+N])], which is the root mean square
    of the frame whenever the frame lies wholly inside the signal, while a
    frame cut short by the end of the signal keeps the divisor [N]; and it
    returns the hop times the first index at which that value is
    greatest. *)
Theorem frame_selector_first_greatest (data : list R) (fs N : Z)
  (HN : 0 < N) (Hlen : N <= len data) :
  let hop := N / 4 in
  let frames := len data / N * 4 in
  let rmse := map (frame_rmse data hop N) (range frames) in
  len rmse = frames
  /\ (forall k, 0 <= k -> hop * k + N <= len data ->
        frame_rmse data hop N k
        = rms_of_frame (py_slice data (hop * k) (hop * k + N)))
  /\ (forall k, 0 <= k -> hop * k <= len data -> len data < hop * k + N ->
        len (py_slice data (hop * k) (hop * k + N)) = len data - hop * k
        /\ frame_rmse data hop N k
           = sqrt (np_sum (np_square (py_slice data (hop * k) (hop * k + N)))
                   / IZR N))
  /\ exists k : nat,
       find_greatest_energy data fs N = Ok (hop * Z.of_nat k)
       /\ first_max rmse k.
Proof.
  intros hop frames rmse.
  assert (Hhop : 0 <= hop) by (apply Z.div_pos; lia).
  assert (Hq : 1 <= len data / N) by (apply Z.div_le_lower_bound; lia).
  split; [|split; [|split]].
  - unfold rmse, len. rewrite length_map, range_length. lia.
  - intros k Hk Hfit. apply frame_rmse_full_frame; nia.
  - intros k Hk Hin Hcut. split.
    + apply py_slice_short; nia.
    + unfold frame_rmse. f_equal. field. apply not_0_IZR. lia.
  - destruct (find_greatest_energy_first_max data fs N HN Hlen) as (k & Hr & Hfm & _).
    exists k. split; assumption.
Qed.

Lemma frame_selector_first_greatest_witness :
  0 < 4 /\ 4 <= len [0; 0; 0; 2]%R
  /\ exists k : nat,
       find_greatest_energy [0; 0; 0; 2]%R 48000 4 = Ok (4 / 4 * Z.of_nat k)
       /\ first_max
            (map (frame_rmse [0; 0; 0; 2]%R (4 / 4) 4)
               (range (len [0; 0; 0; 2]%R / 4 * 4))) k.
Proof.
  split; [lia|]. split; [vm_compute; discriminate|].
  apply (frame_selector_first_greatest [0; 0; 0; 2]%R 48000 4);
    [lia | vm_compute; discriminate].
Defined.

(** Counterexample to C5 as stated: on the four samples 0, 0, 0, 2 with
    frames of four samples (hop 1) the frame at offset 3 holds the single
    sample 2 and has root mean square 2, the greatest of the four frames,
    while the frame at offset 0 has root mean square 1; the selector gives
    every frame the value 1 and returns offset 0. *)
Lemma short_frame_rms_counterexample :
  4 <= len [0; 0; 0; 2]%R
  /\ find_greatest_energy [0; 0; 0; 2]%R 48000 4 = Ok 0
  /\ rms_of_frame (py_slice [0; 0; 0; 2]%R 0 4) = 1%R
  /\ rms_of_frame (py_slice [0; 0; 0; 2]%R 3 7) = 2%R
  /\ frame_rmse [0; 0; 0; 2]%R 1 4 3 = 1%R.
Proof.
  split; [vm_compute; discriminate|]. split; [|split; [|split]].
  - destruct (find_greatest_energy_first_max [0; 0; 0; 2]%R 48000 4)
      as (k & Hk & _ & _); [lia | vm_compute; discriminate |].
    pose proof (find_greatest_energy_in_bounds [0; 0; 0; 2]%R 48000 1 4 _
                  ltac:(lia) ltac:(lia) eq_refl Hk) as Hb.
    change (len [0; 0; 0; 2]%R) with 4 in Hb.
    rewrite Hk. f_equal. change (4 / 4) with 1 in *. lia.
  - change (py_slice [0; 0; 0; 2]%R 0 4) with [0; 0; 0; 2]%R.
    unfold rms_of_frame, np_square, np_sum, len. cbn [map fold_right length].
    change (Z.of_nat 4) with 4.
    replace ((0 * 0 + (0 * 0 + (0 * 0 + (2 * 2 + 0)))) / 4)%R with (1 * 1)%R by lra.
    apply sqrt_square. lra.
  - change (py_slice [0; 0; 0; 2]%R 3 7) with [2%R].
    unfold rms_of_frame, np_square, np_sum, len. cbn [map fold_right length].
    change (Z.of_nat 1) with 1.
    replace ((2 * 2 + 0) / 1)%R with (2 * 2)%R by lra.
    apply sqrt_square. lra.
  - unfold frame_rmse. change (py_slice [0; 0; 0; 2]%R (1 * 3) (1 * 3 + 4)) with [2%R].
    unfold np_square, np_sum. cbn [map fold_right].
    replace (1 / 4 * (2 * 2 + 0))%R with (1 * 1)%R by lra.
    apply sqrt_square. lra.
Qed.

(** ** Validation and loading *)

Ltac unfold_monad :=
  cbv beta iota zeta delta [bind ret raise lift read getattr assign print savefig rbind].

(** [validate_audio] never touches the world; it makes its three checks
    in the order length, sample rate, channel count. *)
Lemma validate_audio_eq (x : ndarray) (rate : Z) (w : World) :
  validate_audio x rate w
  = (if shape0 x <? block_size (self w) then Raise (invalid_length (block_size (self w)))
     else if negb (rate =? cal_fs (self w)) then Raise (invalid_rate (cal_fs (self w)))
     else if 1 <? ndim x then Raise invalid_channels
     else Ok true, w).
Proof.
  unfold validate_audio. unfold_monad.
  destruct (shape0 x <? block_size (self w)); [reflexivity|].
  destruct (negb (rate =? cal_fs (self w))); [reflexivity|].
  destruct (1 <? ndim x); reflexivity.
Qed.

Lemma load_eq (audio_file : string) (w : World) :
  load audio_file w
  = match sf_read audio_file with
    | Raise e => (Raise e, w)
    | Ok (x, rate) =>
        match fst (validate_audio x rate w) with
        | Raise e => (Raise e, w)
        | Ok _ => (Ok (x, rate), after_load x rate audio_file w)
        end
    end.
Proof.
  unfold load. unfold bind at 1. unfold lift at 1.
  destruct (sf_read audio_file) as [[x rate]|e]; [|reflexivity].
  unfold bind at 1. rewrite validate_audio_eq. cbn [fst].
  destruct (if shape0 x <? block_size (self w) then _ else _) as [b|e];
    [|reflexivity].
  unfold_monad. unfold after_load, loaded_message.
  destruct (verbose (self w)); reflexivity.
Qed.

Lemma load_valid (audio_file : string) (w : World) (x : ndarray) (rate : Z) :
  sf_read audio_file = Ok (x, rate) ->
  block_size (self w) <= shape0 x -> rate = cal_fs (self w) -> ndim x <= 1 ->
  load audio_file w = (Ok (x, rate), after_load x rate audio_file w).
Proof.
  intros Hr Hlen Hrate Hdim. rewrite load_eq, Hr, validate_audio_eq. cbn [fst].
  destruct (Z.ltb_spec (shape0 x) (block_size (self w))); [lia|].
  destruct (Z.eqb_spec rate (cal_fs (self w))); [|contradiction].
  destruct (Z.ltb_spec 1 (ndim x)); [lia|]. reflexivity.
Qed.

Lemma self_after_load (x : ndarray) (rate : Z) (f : string) (w : World) :
  self (after_load x rate f w) = self w.
Proof. unfold after_load. now destruct (verbose (self w)). Qed.

Lemma figures_after_load (x : ndarray) (rate : Z) (f : string) (w : World) :
  figures (after_load x rate f w) = figures w.
Proof. unfold after_load. now destruct (verbose (self w)). Qed.

(** ** The band analysis *)

(** What the analyzer relies on from scipy: the window has the requested
    number of points, the transform and the filter keep the length. *)
Hypothesis blackmanharris_len : forall n, 0 <= n -> len (blackmanharris n) = n.
Hypothesis fft_len : forall x, len (fft x) = len x.
Hypothesis lfilter_len : forall b a x, len (lfilter b a x) = len x.

Lemma np_mul_same_len (x w : list R) :
  len x = len w ->
  np_mul x w = Ok (map (fun p => (fst p * snd p)%R) (combine x w)).
Proof. intros H. unfold np_mul. now rewrite H, Z.eqb_refl. Qed.

Lemma len_combine_same (x w : list R) :
  len x = len w ->
  len (map (fun p => (fst p * snd p)%R) (combine x w)) = len x.
Proof.
  unfold len. intros H. rewrite length_map, length_combine. lia.
Qed.

Lemma np_mul_mismatch (x w : list R) :
  len x <> len w -> len x <> 1 -> len w <> 1 ->
  np_mul x w = Raise (ValueError "operands could not be broadcast together").
Proof.
  intros H Hx Hw. unfold np_mul.
  destruct (Z.eqb_spec (len x) (len w)); [contradiction|].
  destruct (Z.eqb_spec (len w) 1); [contradiction|].
  destruct (Z.eqb_spec (len x) 1); [contradiction|]. reflexivity.
Qed.

Lemma index_all_seq {A : Type} (y : list A) (n a : nat) :
  (a + n <= length y)%nat ->
  index_all y (map Z.of_nat (seq a n)) = Ok (firstn n (skipn a y)).
Proof.
  revert a. induction n as [|n IH]; intros a Ha; [reflexivity|].
  cbn [seq map index_all]. rewrite Nat2Z.id.
  destruct (nth_error y a) as [v|] eqn:E.
  - rewrite IH by lia.
    assert (Hs : skipn a y = v :: skipn (S a) y).
    { clear - E. revert y E. induction a as [|a IHa]; intros [|u y] E;
        simpl in *; try discriminate.
      - now injection E as ->.
      - now apply IHa. }
    rewrite Hs. reflexivity.
  - apply nth_error_None in E. lia.
Qed.

Lemma index_all_range {A : Type} (y : list A) (n : Z) :
  0 <= n <= len y ->
  index_all y (range n) = Ok (firstn (Z.to_nat n) y).
Proof.
  intros Hn. unfold range. rewrite index_all_seq; [reflexivity|].
  unfold len in Hn. lia.
Qed.

Lemma one_third_octaves_ok (x : list R) :
  x <> [] ->
  one_third_octaves x
  = Ok (skipn 15 (map band_label ansi_bands), ansi_bands, band_energies x).
Proof.
  intros Hx. unfold one_third_octaves.
  pose proof (len_nonneg x) as Hl.
  rewrite np_mul_same_len by (now rewrite blackmanharris_len).
  cbn [rbind].
  destruct (map _ (combine x (blackmanharris (len x)))) as [|u t] eqn:E.
  - exfalso. apply (f_equal (@len R)) in E.
    rewrite len_combine_same in E by (now rewrite blackmanharris_len).
    destruct x; [congruence|]. unfold len in E. simpl in E. lia.
  - cbn [fft_checked rbind]. rewrite <- E.
    rewrite index_all_range.
    + unfold band_energies, spectrum. reflexivity.
    + rewrite fft_len, len_combine_same by (now rewrite blackmanharris_len).
      split; [apply Z.div_pos; lia|].
      apply Z.div_le_upper_bound; lia.
Qed.

Lemma one_third_octaves_empty :
  exists e, one_third_octaves [] = Raise e.
Proof.
  unfold one_third_octaves, np_mul.
  change (len (@nil R)) with 0.
  destruct (0 =? len (blackmanharris 0)); [eexists; reflexivity|].
  destruct (len (blackmanharris 0) =? 1).
  - cbn. eexists; reflexivity.
  - cbn. eexists; reflexivity.
Qed.

Lemma np_abs_nonneg (y : list complex) : Forall (fun v => (0 <= v)%R) (np_abs y).
Proof.
  unfold np_abs. apply Forall_forall. intros v Hv.
  apply in_map_iff in Hv. destruct Hv as [z [<- _]]. apply sqrt_pos.
Qed.

Lemma band_loop_energy_nonneg (m : list R) (its : list (Z * Z)) (st : band_state) :
  Forall (fun v => (0 <= v)%R) m ->
  Forall (fun v => (0 <= v)%R) (acc_energy st) ->
  Forall (fun v => (0 <= v)%R) (acc_energy (fold_left (band_body m) its st)).
Proof.
  intros Hm. revert st. induction its as [|it its IH]; intros st Hst; [exact Hst|].
  simpl. apply IH. unfold band_body; cbn [acc_energy].
  apply Forall_app. split; [exact Hst|].
  constructor; [|constructor].
  apply np_sum_nonneg. now apply py_slice_Forall.
Qed.

Lemma ansi_bands_eq :
  ansi_bands = [10; 11; 12; 13; 14; 15; 16; 17; 18; 19; 20; 21; 22; 23; 24;
                25; 26; 27; 28; 29; 30; 31; 32; 33; 34; 35; 36; 37].
Proof. reflexivity. Qed.

(** C8 (amended): for every non-empty frame the band analysis returns the
    28 band numbers 10 to 37, 28 energies in band order, each non-negative
    and equal to the sum of the magnitude spectrum over its band's bins,
    and 13 labels: those of the bands 25 to 37 only, each
    [2^((band-30)/3) * 1000] rounded to the nearest integer. *)
Theorem band_analysis_result (x : list R) (Hx : x <> []) :
  exists labels energies,
    one_third_octaves x = Ok (labels, ansi_bands, energies)
    /\ length ansi_bands = 28%nat
    /\ length energies = 28%nat
    /\ Forall (fun v => (0 <= v)%R) energies
    /\ (forall k, (k < 28)%nat ->
          nth k energies 0%R
          = bin_sum (spectrum x) (fst (band_range (spectrum x) k))
              (snd (band_range (spectrum x) k)))
    /\ labels = map band_label [25; 26; 27; 28; 29; 30; 31; 32; 33; 34; 35; 36; 37]
    /\ length labels = 13%nat.
Proof.
  eexists. eexists. split; [apply one_third_octaves_ok; exact Hx|].
  unfold band_energies.
  rewrite <- (state_at_all (spectrum x) 28) by lia.
  split; [reflexivity|]. split; [|split; [|split; [|split]]].
  - now destruct (state_at_invariant (spectrum x) 28) as (_ & _ & Hl); [lia|].
  - rewrite state_at_all by lia. apply band_loop_energy_nonneg.
    + apply np_abs_nonneg.
    + constructor.
  - intros k Hk. rewrite acc_energy_nth by lia.
    apply np_sum_py_slice.
    pose proof (band_range_start_nonneg (spectrum x) k). lia.
  - reflexivity.
  - reflexivity.
Qed.

(** ** Analysis of one file *)

Lemma bind_ok {A B : Type} (c : M A) (k : A -> M B) (w w' : World) (a : A) :
  c w = (Ok a, w') -> bind c k w = k a w'.
Proof. intros H. unfold bind. now rewrite H. Qed.

Lemma bind_raise {A B : Type} (c : M A) (k : A -> M B) (w w' : World) (e : exn) :
  c w = (Raise e, w') -> bind c k w = (Raise e, w').
Proof. intros H. unfold bind. now rewrite H. Qed.

(** The selected offset lies inside the signal. *)
Lemma find_greatest_energy_offset (data : list R) (rate N idx : Z) :
  0 < N -> N <= len data ->
  find_greatest_energy data rate N = Ok idx ->
  0 <= idx < len data
  /\ exists k, idx = N / 4 * k /\ 0 <= k <= 4 * (len data / N) - 1.
Proof.
  intros HN Hlen Hidx.
  destruct (find_greatest_energy_first_max data rate N HN Hlen) as (k & Hk & _ & Hkb).
  rewrite Hk in Hidx. assert (Hi : idx = N / 4 * Z.of_nat k) by congruence.
  clear Hidx Hk.
  assert (Hhop : 0 <= N / 4) by (apply Z.div_pos; lia).
  pose proof (Z.mul_div_le N 4 ltac:(lia)) as H4.
  pose proof (Z.mul_div_le (len data) N HN) as Hq.
  split.
  - split; [nia|].
    assert (4 * idx < 4 * len data); [|lia].
    assert (4 * idx <= N * Z.of_nat k) by nia.
    assert (N * Z.of_nat k <= N * (len data / N * 4 - 1)) by nia.
    nia.
  - exists (Z.of_nat k). split; [exact Hi|lia].
Qed.

Lemma selected_frame_nonempty (data : list R) (N idx : Z) :
  0 < N -> 0 <= idx < len data -> py_slice data idx (idx + N) <> [].
Proof.
  intros HN Hidx E. apply (f_equal (@length R)) in E.
  unfold py_slice in E. rewrite length_firstn, length_skipn in E.
  unfold len in Hidx. simpl in E. lia.
Qed.

Lemma len_nonempty {A : Type} (l : list A) : 0 < len l -> l <> [].
Proof. intros H E. subst l. unfold len in H. simpl in H. lia. Qed.

(** [analyze] on a file that decodes to a valid mono signal. *)
Lemma analyze_ok (audio_file : string) (w : World) (data : list R)
  (rate idx target : Z) (b a : list R) (c : R) :
  sf_read audio_file = Ok (Arr1 data, rate) ->
  0 < block_size (self w) <= len data -> rate = cal_fs (self w) ->
  find_greatest_energy data rate (block_size (self w)) = Ok idx ->
  A_weighting rate = Ok (b, a) ->
  cal_target (self w) = Some target -> cal (self w) = Some c ->
  let N := block_size (self w) in
  let frame := py_slice data idx (idx + N) in
  analyze audio_file w
  = (Ok {| audio := frame; bands := ansi_bands;
           energy := calibrated_energy N target c (band_energies (lfilter b a frame));
           xticks := skipn 15 (map band_label ansi_bands);
           frame_idx := idx |},
     after_load (Arr1 data) rate audio_file w).
Proof.
  intros Hread Hlen Hrate Hidx Hw Ht Hc N frame. subst N frame.
  destruct (find_greatest_energy_offset data rate _ idx (proj1 Hlen) (proj2 Hlen) Hidx)
    as (Hin & _).
  unfold analyze.
  rewrite (bind_ok _ _ _ _ _ (load_valid audio_file w (Arr1 data) rate Hread
             ltac:(simpl; lia) Hrate ltac:(simpl; lia))).
  unfold_monad. rewrite !self_after_load. cbn [samples].
  rewrite Hidx, Hw.
  rewrite one_third_octaves_ok.
  - cbv beta iota zeta. rewrite ?self_after_load, Ht.
    cbv beta iota zeta. rewrite ?self_after_load, Hc.
    unfold calibrated_energy, band_energies. reflexivity.
  - apply len_nonempty. rewrite lfilter_len.
    pose proof (selected_frame_nonempty data (block_size (self w)) idx
                  (proj1 Hlen) Hin) as Hne.
    destruct (py_slice data idx (idx + block_size (self w)));
      [congruence|]. unfold len. simpl. lia.
Qed.

(** ** Calibration *)

(** [calibrate] up to the multiplication by the window, on a calibration
    file that decodes to a valid mono signal. *)
Lemma calibrate_eq (response_time : string) (w : World) (data : list R)
  (rate idx target N : Z) (tok : string) (b a : list R) :
  list_get (split_on "_"%char (basename (cal_file (self w)))) 1 = Ok tok ->
  py_int tok = Ok target ->
  (response_time = "fast"%string /\ N = 8192)
  \/ (response_time = "slow"%string /\ N = 65536) ->
  sf_read (cal_file (self w)) = Ok (Arr1 data, rate) ->
  block_size (self w) <= len data -> rate = cal_fs (self w) ->
  find_greatest_energy data rate N = Ok idx ->
  A_weighting rate = Ok (b, a) ->
  calibrate response_time w
  = (match np_mul (lfilter b a (py_slice data idx (idx + N))) (blackmanharris N) with
     | Raise e => Raise e
     | Ok cal_aw =>
         match fft_checked cal_aw with
         | Raise e => Raise e
         | Ok y =>
             match index_all y (range (N / 2)) with
             | Raise e => Raise e
             | Ok y' => Ok (total_level N (np_abs y'))
             end
         end
     end,
     calibrating target rate data (py_slice data idx (idx + N)) w).
Proof.
  intros Htok Hint Hmode Hread Hlen Hrate Hidx Hw.
  unfold calibrate.
  unfold bind at 1. unfold read at 1.
  unfold bind at 1. unfold lift at 1. rewrite Htok.
  unfold bind at 1. unfold lift at 1. rewrite Hint.
  unfold bind at 1. unfold assign at 1.
  set (w0 := mk_World (set_cal_target target (self w)) (stdout w) (figures w)).
  assert (HN : (if String.eqb response_time "fast" then ret 8192
                else if String.eqb response_time "slow" then ret 65536
                else raise (ValueError
                              "Invalid response time. Must be 'fast' or 'slow'."))
               = ret N).
  { destruct Hmode as [[-> ->]|[-> ->]]; reflexivity. }
  rewrite HN. unfold bind at 1. unfold ret at 1.
  assert (Hl : load (cal_file (self w)) w0
               = (Ok (Arr1 data, rate),
                  after_load (Arr1 data) rate (cal_file (self w)) w0)).
  { apply load_valid; try assumption; simpl; lia. }
  rewrite (bind_ok _ _ _ _ _ Hl).
  unfold_monad. cbn [samples self stdout figures].
  rewrite Hidx, Hw. unfold calibrating. fold w0.
  destruct (np_mul _ _) as [cal_aw|e]; [|reflexivity].
  destruct (fft_checked cal_aw) as [y|e]; [|reflexivity].
  destruct (index_all y (range (N / 2))) as [y'|e]; reflexivity.
Qed.

Lemma find_greatest_energy_needs_frame (data : list R) (rate N idx : Z) :
  0 < N -> find_greatest_energy data rate N = Ok idx -> N <= len data.
Proof.
  intros HN H. unfold find_greatest_energy in H.
  destruct (Z.eqb_spec N 0); [lia|].
  destruct (Z_lt_le_dec (len data) N) as [Hlt|Hle]; [|exact Hle].
  rewrite Z.div_small in H by (pose proof (len_nonneg data); lia).
  discriminate H.
Qed.

Lemma nth_map_in {A B : Type} (f : A -> B) (l : list A) (k : nat) (d : B) (d' : A) :
  (k < length l)%nat -> nth k (map f l) d = f (nth k l d').
Proof.
  intros Hk. rewrite nth_indep with (d' := f d') by (now rewrite length_map).
  apply map_nth.
Qed.

Lemma band_energies_length (x : list R) : length (band_energies x) = 28%nat.
Proof.
  unfold band_energies. rewrite <- (state_at_all (spectrum x) 28) by lia.
  now destruct (state_at_invariant (spectrum x) 28) as (_ & _ & Hl); [lia|].
Qed.

(** The energy of band [k]: the un-squared magnitudes summed over the bins
    of the band. *)
Lemma band_energies_nth (x : list R) (k : nat) :
  (k < 28)%nat ->
  nth k (band_energies x) 0%R
  = bin_sum (spectrum x) (fst (band_range (spectrum x) k))
      (snd (band_range (spectrum x) k)).
Proof.
  intros Hk. unfold band_energies.
  rewrite <- (state_at_all (spectrum x) 28) by lia.
  rewrite acc_energy_nth by lia.
  apply np_sum_py_slice.
  pose proof (band_range_start_nonneg (spectrum x) k). lia.
Qed.

Lemma calibrated_energy_nth (N target : Z) (c : R) (E : list R) (k : nat) :
  (k < length E)%nat ->
  nth k (calibrated_energy N target c E) 0%R
  = (20 * log10 (2 / IZR N * Rabs (nth k E 0)) + (IZR target - c))%R.
Proof.
  intros Hk. unfold calibrated_energy.
  rewrite (nth_map_in _ _ _ _ 0%R) by (now rewrite !length_map).
  rewrite (nth_map_in _ _ _ _ 0%R) by (now rewrite !length_map).
  rewrite (nth_map_in _ _ _ _ 0%R) by assumption.
  reflexivity.
Qed.

(** [calibrate] when the selected frame lies inside the recording. *)
Lemma calibrate_ok (response_time : string) (w : World) (data : list R)
  (rate idx target N : Z) (tok : string) (b a : list R) :
  list_get (split_on "_"%char (basename (cal_file (self w)))) 1 = Ok tok ->
  py_int tok = Ok target ->
  (response_time = "fast"%string /\ N = 8192)
  \/ (response_time = "slow"%string /\ N = 65536) ->
  sf_read (cal_file (self w)) = Ok (Arr1 data, rate) ->
  block_size (self w) <= len data -> rate = cal_fs (self w) ->
  find_greatest_energy data rate N = Ok idx ->
  idx + N <= len data ->
  A_weighting rate = Ok (b, a) ->
  calibrate response_time w
  = (Ok (total_level N (spectrum (lfilter b a (py_slice data idx (idx + N))))),
     calibrating target rate data (py_slice data idx (idx + N)) w).
Proof.
  intros Htok Hint Hmode Hread Hlen Hrate Hidx Hfit Hw.
  assert (HN : 0 < N) by (destruct Hmode as [[_ ->]|[_ ->]]; lia).
  pose proof (find_greatest_energy_needs_frame _ _ _ _ HN Hidx) as HNl.
  destruct (find_greatest_energy_offset _ _ _ _ HN HNl Hidx) as (Hin & _).
  rewrite (calibrate_eq response_time w data rate idx target N tok b a)
    by assumption.
  assert (Hfl : len (lfilter b a (py_slice data idx (idx + N))) = N).
  { rewrite lfilter_len, py_slice_length by lia. lia. }
  rewrite np_mul_same_len by (rewrite blackmanharris_len by lia; exact Hfl).
  set (xw := map _ (combine _ _)).
  assert (Hxw : len xw = N).
  { unfold xw. rewrite len_combine_same; [exact Hfl|].
    rewrite blackmanharris_len by lia. exact Hfl. }
  destruct xw as [|u t] eqn:E; [unfold len in Hxw; simpl in Hxw; lia|].
  cbn [fft_checked]. rewrite <- E.
  rewrite index_all_range.
  - f_equal. f_equal. unfold spectrum. rewrite Hfl. unfold xw. reflexivity.
  - rewrite fft_len. rewrite E, Hxw.
    split; [apply Z.div_pos; lia|]. apply Z.div_le_upper_bound; lia.
Qed.

(** C3: the level measured by [calibrate] on a recording whose selected
    frame lies inside it and is not silent (the squared magnitudes of its
    half spectrum have a positive sum) is 20*log10((2/N) * sum of the
    squared magnitudes) of the half spectrum of the A-weighted, windowed
    frame; [analyze] run with that level stored in [cal] returns for each
    of the 28 bands whose energy E is not zero
    20*log10((2/N) * |E|) + (cal_target - cal), where E is the sum of the
    un-squared magnitudes over the bins of the band: the offset added is
    the target level minus the measured level. *)
Theorem calibration_level_and_offset (response_time : string) (w : World)
  (data : list R) (rate idx target N : Z) (tok : string) (b a : list R)
  (Htok : list_get (split_on "_"%char (basename (cal_file (self w)))) 1 = Ok tok)
  (Hint : py_int tok = Ok target)
  (Hmode : (response_time = "fast"%string /\ N = 8192)
           \/ (response_time = "slow"%string /\ N = 65536))
  (Hread : sf_read (cal_file (self w)) = Ok (Arr1 data, rate))
  (Hlen : block_size (self w) <= len data)
  (Hrate : rate = cal_fs (self w))
  (Hidx : find_greatest_energy data rate N = Ok idx)
  (Hfit : idx + N <= len data)
  (Hw : A_weighting rate = Ok (b, a))
  (Hloud : (0 < np_sum (map (fun v => v * v)
                          (spectrum (lfilter b a (py_slice data idx (idx + N))))))%R) :
  let m := spectrum (lfilter b a (py_slice data idx (idx + N))) in
  let measured := (20 * log10 (2 / IZR N * np_sum (map (fun v => v * v) m)))%R in
  let w1 := calibrating target rate data (py_slice data idx (idx + N)) w in
  let w2 := mk_World (set_cal measured (self w1)) (stdout w1) (figures w1) in
  calibrate response_time w = (Ok measured, w1)
  /\ cal_target (self w2) = Some target
  /\ cal (self w2) = Some measured
  /\ forall (audio_file : string) (x : list R) (idx' : Z),
       sf_read audio_file = Ok (Arr1 x, rate) ->
       0 < block_size (self w) <= len x ->
       find_greatest_energy x rate (block_size (self w)) = Ok idx' ->
       let frame := lfilter b a (py_slice x idx' (idx' + block_size (self w))) in
       exists an w3,
         analyze audio_file w2 = (Ok an, w3)
         /\ length (energy an) = 28%nat
         /\ forall k, (k < 28)%nat ->
              bin_sum (spectrum frame) (fst (band_range (spectrum frame) k))
                (snd (band_range (spectrum frame) k)) <> 0%R ->
              nth k (energy an) 0%R
              = (20 * log10 (2 / IZR (block_size (self w))
                             * Rabs (bin_sum (spectrum frame)
                                       (fst (band_range (spectrum frame) k))
                                       (snd (band_range (spectrum frame) k))))
                 + (IZR target - measured))%R.
Proof.
  intros m measured w1 w2.
  assert (Hs1 : self w1
                = set_cal_audio (py_slice data idx (idx + N))
                    (set_fs rate (set_cal_audio data
                       (set_cal_target target (self w))))).
  { unfold w1, calibrating. cbn [self]. rewrite self_after_load. reflexivity. }
  split; [|split; [|split]].
  - apply (calibrate_ok response_time w data rate idx target N tok b a);
      assumption.
  - unfold w2. cbn [self]. rewrite Hs1. reflexivity.
  - reflexivity.
  - intros audio_file x idx' Hrx Hlx Hix frame.
    assert (Hbs : block_size (self w2) = block_size (self w)).
    { unfold w2. cbn [self]. rewrite Hs1. reflexivity. }
    assert (Hcf : cal_fs (self w2) = cal_fs (self w)).
    { unfold w2. cbn [self]. rewrite Hs1. reflexivity. }
    assert (Hct : cal_target (self w2) = Some target).
    { unfold w2. cbn [self]. rewrite Hs1. reflexivity. }
    pose proof (analyze_ok audio_file w2 x rate idx' target b a measured) as Ha.
    rewrite Hbs, Hcf in Ha.
    specialize (Ha Hrx Hlx Hrate Hix Hw Hct eq_refl).
    eexists. eexists. split; [exact Ha|].
    cbn [energy]. split.
    + unfold calibrated_energy. rewrite !length_map. apply band_energies_length.
    + intros k Hk _. rewrite calibrated_energy_nth
        by (now rewrite band_energies_length).
      rewrite band_energies_nth by assumption. reflexivity.
Qed.

(** ** Validation errors *)

Lemma analyze_rejected (audio_file : string) (w : World) (x : ndarray)
  (rate : Z) (e : exn) :
  sf_read audio_file = Ok (x, rate) ->
  fst (validate_audio x rate w) = Raise e ->
  load audio_file w = (Raise e, w) /\ analyze audio_file w = (Raise e, w).
Proof.
  intros Hr Hv.
  assert (Hl : load audio_file w = (Raise e, w)) by (now rewrite load_eq, Hr, Hv).
  split; [exact Hl|]. unfold analyze. now rewrite (bind_raise _ _ _ _ _ Hl).
Qed.

(** C6 (amended): [validate_audio] is called by [load] right after
    decoding, and when it raises, [analyze] raises the same exception
    with nothing computed, assigned or printed.  A signal shorter than
    [block_size] raises the length error; a long enough signal at another
    rate than [cal_fs] raises the rate error; a long enough signal at the
    right rate with more than one dimension raises the channel error.
    The three are told apart by their messages only: every exception of
    [validate_audio] has the class [RuntimeError], and a signal with
    several defects raises the first of them in that order. *)
Theorem validation_errors (x : ndarray) (rate : Z) (w : World) :
  (shape0 x < block_size (self w) ->
     validate_audio x rate w = (Raise (invalid_length (block_size (self w))), w))
  /\ (block_size (self w) <= shape0 x -> rate <> cal_fs (self w) ->
        validate_audio x rate w = (Raise (invalid_rate (cal_fs (self w))), w))
  /\ (block_size (self w) <= shape0 x -> rate = cal_fs (self w) -> 1 < ndim x ->
        validate_audio x rate w = (Raise invalid_channels, w))
  /\ (block_size (self w) <= shape0 x -> rate = cal_fs (self w) -> ndim x <= 1 ->
        validate_audio x rate w = (Ok true, w))
  /\ (forall e, fst (validate_audio x rate w) = Raise e ->
        exn_class e = "RuntimeError"%string)
  /\ (forall bs cfs,
        invalid_length bs <> invalid_rate cfs
        /\ invalid_length bs <> invalid_channels
        /\ invalid_rate cfs <> invalid_channels)
  /\ (forall audio_file e,
        sf_read audio_file = Ok (x, rate) ->
        fst (validate_audio x rate w) = Raise e ->
        analyze audio_file w = (Raise e, w)).
Proof.
  rewrite validate_audio_eq.
  split; [|split; [|split; [|split; [|split; [|split]]]]].
  - intros H. destruct (Z.ltb_spec (shape0 x) (block_size (self w))); [reflexivity|lia].
  - intros H Hr. destruct (Z.ltb_spec (shape0 x) (block_size (self w))); [lia|].
    destruct (Z.eqb_spec rate (cal_fs (self w))); [contradiction|reflexivity].
  - intros H Hr Hd. destruct (Z.ltb_spec (shape0 x) (block_size (self w))); [lia|].
    destruct (Z.eqb_spec rate (cal_fs (self w))); [|contradiction].
    destruct (Z.ltb_spec 1 (ndim x)); [reflexivity|lia].
  - intros H Hr Hd. destruct (Z.ltb_spec (shape0 x) (block_size (self w))); [lia|].
    destruct (Z.eqb_spec rate (cal_fs (self w))); [|contradiction].
    destruct (Z.ltb_spec 1 (ndim x)); [lia|reflexivity].
  - intros e. cbn [fst].
    destruct (shape0 x <? block_size (self w)); [now intros [= <-]|].
    destruct (negb (rate =? cal_fs (self w))); [now intros [= <-]|].
    destruct (1 <? ndim x); [now intros [= <-]|discriminate].
  - intros bs cfs. unfold invalid_length, invalid_rate, invalid_channels.
    repeat split; intros H; simpl in H; discriminate H.
  - intros audio_file e Hr Hv.
    apply (analyze_rejected audio_file w x rate e Hr).
    now rewrite validate_audio_eq.
Qed.

(** ** File names *)

Lemma get_test_details_failed (audio_file : string) (w : World) (e : exn) :
  parse_filename audio_file = Raise e ->
  get_test_details audio_file w
  = (Raise (UnboundLocalError "test"),
     mk_World (self w) (stdout w ++ ["Failed to parse " ++ audio_file ++ "!"]%string)
       (figures w)).
Proof. intros H. unfold get_test_details. rewrite H. reflexivity. Qed.

Lemma get_test_details_parsed (audio_file : string) (w : World) (t : test_details) :
  parse_filename audio_file = Ok t ->
  get_test_details audio_file w = (Ok t, w).
Proof. intros H. unfold get_test_details. rewrite H. reflexivity. Qed.

(** C7 (the code at the failing input): for the file name [badname.wav],
    which has no underscore, the [try] block of [get_test_details] fails
    with an [IndexError]; the handler swallows it and prints a message,
    and what reaches the caller is the [UnboundLocalError] of
    [return test]; [run] stops there with the same exception. *)
Theorem unparsable_name_unbound_local (w : World) :
  parse_filename "badname.wav" = Raise (IndexError "list index out of range")
  /\ get_test_details "badname.wav" w
     = (Raise (UnboundLocalError "test"),
        mk_World (self w) (stdout w ++ ["Failed to parse badname.wav!"%string])
          (figures w))
  /\ run "badname.wav" w
     = (Raise (UnboundLocalError "test"),
        mk_World (self w) (stdout w ++ ["Failed to parse badname.wav!"%string])
          (figures w)).
Proof.
  assert (Hp : parse_filename "badname.wav"
               = Raise (IndexError "list index out of range")) by reflexivity.
  pose proof (get_test_details_failed "badname.wav" w _ Hp) as Hg.
  split; [exact Hp|]. split; [exact Hg|].
  unfold run. now rewrite (bind_raise _ _ _ _ _ Hg).
Qed.

(** ** What a per-file call assigns *)

Section Keeps.

Variable rel : Analyzer -> Analyzer -> Prop.
Hypothesis rel_refl : forall a, rel a a.
Hypothesis rel_trans : forall a b c, rel a b -> rel b c -> rel a c.

Lemma keeps_ret {A : Type} (a : A) : keeps rel (ret a).
Proof. intros w. apply rel_refl. Qed.

Lemma keeps_raise {A : Type} (e : exn) : keeps rel (@raise A e).
Proof. intros w. apply rel_refl. Qed.

Lemma keeps_lift {A : Type} (r : result A) : keeps rel (lift r).
Proof. intros w. apply rel_refl. Qed.

Lemma keeps_read {A : Type} (proj : Analyzer -> A) : keeps rel (read proj).
Proof. intros w. apply rel_refl. Qed.

Lemma keeps_getattr {A : Type} (name : string) (proj : Analyzer -> option A) :
  keeps rel (getattr name proj).
Proof. intros w. unfold getattr. destruct (proj (self w)); apply rel_refl. Qed.

Lemma keeps_print (s : string) : keeps rel (print s).
Proof. intros w. apply rel_refl. Qed.

Lemma keeps_savefig (f : figure) : keeps rel (savefig f).
Proof. intros w. apply rel_refl. Qed.

Lemma keeps_assign (upd : Analyzer -> Analyzer) :
  (forall a, rel a (upd a)) -> keeps rel (assign upd).
Proof. intros H w. apply H. Qed.

Lemma keeps_bind {A B : Type} (c : M A) (k : A -> M B) :
  keeps rel c -> (forall a, keeps rel (k a)) -> keeps rel (bind c k).
Proof.
  intros Hc Hk w. unfold bind. specialize (Hc w).
  destruct (c w) as [[a|e] w'] eqn:E; cbn [snd] in *.
  - eapply rel_trans; [exact Hc|]. apply Hk.
  - exact Hc.
Qed.

Lemma keeps_load (audio_file : string) : keeps rel (load audio_file).
Proof.
  intros w. rewrite load_eq.
  destruct (sf_read audio_file) as [[x rate]|e]; [|apply rel_refl].
  destruct (fst (validate_audio x rate w)); cbn [snd];
    [rewrite self_after_load|]; apply rel_refl.
Qed.

Lemma keeps_analyze (audio_file : string) : keeps rel (analyze audio_file).
Proof.
  unfold analyze.
  apply keeps_bind; [apply keeps_load|]. intros [x rate].
  apply keeps_bind; [apply keeps_read|]. intros N.
  apply keeps_bind; [apply keeps_lift|]. intros idx.
  apply keeps_bind; [apply keeps_lift|]. intros [b a].
  apply keeps_bind; [apply keeps_lift|]. intros [[ticks bds] en].
  apply keeps_bind; [apply keeps_getattr|]. intros target.
  apply keeps_bind; [apply keeps_getattr|]. intros c.
  apply keeps_ret.
Qed.

Lemma keeps_frequency_axes (an : analysis) : keeps rel (frequency_axes an).
Proof.
  unfold frequency_axes.
  apply keeps_bind; [apply keeps_lift|]. intros p1.
  apply keeps_bind; [apply keeps_getattr|]. intros specs.
  apply keeps_bind; [apply keeps_lift|]. intros p2.
  apply keeps_bind; [apply keeps_getattr|]. intros amb.
  apply keeps_bind; [apply keeps_lift|]. intros p3.
  apply keeps_bind; [apply keeps_lift|]. intros _.
  apply keeps_bind; [apply keeps_getattr|]. intros line.
  apply keeps_bind; [apply keeps_lift|]. intros _.
  apply keeps_bind; [apply keeps_lift|]. intros _.
  apply keeps_bind; [apply keeps_lift|]. intros _.
  apply keeps_ret.
Qed.

Lemma keeps_generate_plots (title name : string) (an : analysis) :
  keeps rel (generate_plots title name an).
Proof.
  unfold generate_plots.
  apply keeps_bind; [apply keeps_read|]. intros od.
  apply keeps_bind; [apply keeps_lift|]. intros ymax.
  apply keeps_bind; [apply keeps_getattr|]. intros rate.
  apply keeps_bind; [destruct (rate =? 0); [apply keeps_raise|apply keeps_ret]|].
  intros _.
  apply keeps_bind; [apply keeps_frequency_axes|]. intros [[specs amb] line].
  apply keeps_bind; [apply keeps_read|]. intros ft.
  apply keeps_bind; [apply keeps_lift|]. intros _.
  apply keeps_bind; [apply keeps_savefig|]. intros _.
  apply keeps_bind; [apply keeps_frequency_axes|]. intros [[specs' amb'] line'].
  apply keeps_bind; [apply keeps_read|]. intros ft'.
  apply keeps_bind; [apply keeps_lift|]. intros _.
  apply keeps_savefig.
Qed.

Lemma keeps_get_test_details (audio_file : string) :
  keeps rel (get_test_details audio_file).
Proof.
  unfold get_test_details. destruct (parse_filename audio_file).
  - apply keeps_ret.
  - apply keeps_bind; [apply keeps_print|]. intros _. apply keeps_raise.
Qed.

Lemma keeps_run (audio_file : string) :
  (forall v a, rel a (set_band_specs v a)) ->
  (forall v a, rel a (set_two_band_spec v a)) ->
  keeps rel (run audio_file).
Proof.
  intros Hb Ht. unfold run.
  apply keeps_bind; [apply keeps_get_test_details|]. intros test.
  apply keeps_bind; [apply keeps_getattr|]. intros table.
  apply keeps_bind; [apply keeps_lift|]. intros entry.
  apply keeps_bind; [apply keeps_assign, Hb|]. intros _.
  apply keeps_bind; [apply keeps_getattr|]. intros table'.
  apply keeps_bind; [apply keeps_lift|]. intros entry'.
  apply keeps_bind; [apply keeps_assign, Ht|]. intros _.
  apply keeps_bind; [apply keeps_analyze|]. intros res.
  apply keeps_bind; [apply keeps_lift|]. intros name.
  apply keeps_generate_plots.
Qed.

End Keeps.

Lemma same_but_specs_refl (a : Analyzer) : same_but_specs a a.
Proof. unfold same_but_specs. repeat split. Qed.

Lemma same_but_specs_trans (a b c : Analyzer) :
  same_but_specs a b -> same_but_specs b c -> same_but_specs a c.
Proof.
  unfold same_but_specs. intros H1 H2.
  repeat match goal with H : _ /\ _ |- _ => destruct H end.
  repeat split; congruence.
Qed.

(** [run] past its two assignments: the analysis and the plots assign
    nothing. *)
Lemma run_tail_keeps (audio_file : string) (test : test_details) :
  keeps eq
    (bind (analyze audio_file) (fun res =>
       bind (lift (dict_get test_names (test_type test))) (fun name =>
         generate_plots
           (name ++ " # " ++ str_int (test_num test) ++ " | " ++ test_date test)%string
           (test_file test) res))).
Proof.
  apply (keeps_bind eq (@eq_trans _)).
  - apply (keeps_analyze eq (@eq_refl _) (@eq_trans _)).
  - intros res. apply (keeps_bind eq (@eq_trans _)).
    + apply (keeps_lift eq (@eq_refl _)).
    + intros name. apply (keeps_generate_plots eq (@eq_refl _) (@eq_trans _)).
Qed.

Lemma run_assigns_specs (audio_file : string) (w : World) (test : test_details)
  (table : list (string * spec_entry)) (entry : spec_entry) :
  parse_filename audio_file = Ok test ->
  slr (self w) = Some table ->
  dict_get table (test_type test) = Ok entry ->
  self (snd (run audio_file w))
  = set_two_band_spec (two_band entry)
      (set_band_specs (map snd (octave_bands entry)) (self w)).
Proof.
  intros Hp Hs Hd. unfold run.
  rewrite (bind_ok _ _ _ _ _ (get_test_details_parsed audio_file w test Hp)).
  unfold bind at 1. unfold getattr at 1. rewrite Hs.
  unfold bind at 1. unfold lift at 1. rewrite Hd.
  unfold bind at 1. unfold assign at 1.
  unfold bind at 1. unfold getattr at 1. cbn [self slr set_band_specs]. rewrite Hs.
  unfold bind at 1. unfold lift at 1. rewrite Hd.
  unfold bind at 1. unfold assign at 1. cbn [self stdout figures].
  symmetry.
  exact (run_tail_keeps audio_file test
           (mk_World (set_two_band_spec (two_band entry)
                        (set_band_specs (map snd (octave_bands entry)) (self w)))
              (stdout w) (figures w))).
Qed.

(** C9 (amended): [analyze] assigns no attribute of the instance, and
    [run] leaves every attribute other than [band_specs] and
    [two_band_spec] as it was, [cal], [cal_target] and [amb_analysis] among
    them, whether the call returns or raises; [run] overwrites [band_specs]
    and [two_band_spec] with the thresholds of the file's test type as soon
    as the file name parses and the type is in the table. *)
Theorem per_file_calls_frame (audio_file : string) (w : World) :
  self (snd (analyze audio_file w)) = self w
  /\ same_but_specs (self w) (self (snd (run audio_file w)))
  /\ cal (self (snd (run audio_file w))) = cal (self w)
  /\ cal_target (self (snd (run audio_file w))) = cal_target (self w)
  /\ amb_analysis (self (snd (run audio_file w))) = amb_analysis (self w)
  /\ (forall test table entry,
        parse_filename audio_file = Ok test ->
        slr (self w) = Some table ->
        dict_get table (test_type test) = Ok entry ->
        band_specs (self (snd (run audio_file w)))
          = Some (map snd (octave_bands entry))
        /\ two_band_spec (self (snd (run audio_file w)))
           = Some (two_band entry)).
Proof.
  assert (Hrun : same_but_specs (self w) (self (snd (run audio_file w)))).
  { apply (keeps_run same_but_specs same_but_specs_refl same_but_specs_trans).
    - intros v a. unfold same_but_specs. repeat split.
    - intros v a. unfold same_but_specs. repeat split. }
  split; [|split; [exact Hrun|]].
  - symmetry. apply (keeps_analyze eq (@eq_refl _) (@eq_trans _)).
  - unfold same_but_specs in Hrun.
    repeat match goal with H : _ /\ _ |- _ => destruct H end.
    split; [assumption|]. split; [assumption|]. split; [assumption|].
    intros test table entry Hp Hs Hd.
    rewrite (run_assigns_specs audio_file w test table entry Hp Hs Hd).
    split; reflexivity.
Qed.

(** ** The per-file path *)

(** The frequency axes change nothing, and what they return depends on
    the instance only. *)
Lemma frequency_axes_pure (an : analysis) (w : World) :
  frequency_axes an w = (fst (frequency_axes an w), w).
Proof.
  unfold frequency_axes. unfold_monad.
  destruct (plt_bar _ (skipn 15 (energy an))); [|reflexivity].
  destruct (band_specs (self w)); [|reflexivity].
  destruct (plt_bar _ l); [|reflexivity].
  destruct (amb_analysis (self w)); [|reflexivity].
  destruct (plt_bar _ _); [|reflexivity].
  destruct (set_xticklabels _ _); [|reflexivity].
  destruct (two_band_spec (self w)); [|reflexivity].
  destruct (first_bar a); [|reflexivity].
  destruct (first_bar a0); [|reflexivity].
  destruct (first_bar a2); reflexivity.
Qed.

Lemma frequency_axes_self (an : analysis) (w w' : World) :
  self w' = self w -> fst (frequency_axes an w') = fst (frequency_axes an w).
Proof.
  intros E. unfold frequency_axes. unfold_monad. rewrite E.
  destruct (plt_bar _ (skipn 15 (energy an))); [|reflexivity].
  destruct (band_specs (self w)); [|reflexivity].
  destruct (plt_bar _ l); [|reflexivity].
  rewrite E.
  destruct (amb_analysis (self w)); [|reflexivity].
  destruct (plt_bar _ _); [|reflexivity].
  destruct (set_xticklabels _ _); [|reflexivity].
  rewrite E.
  destruct (two_band_spec (self w)); [|reflexivity].
  destruct (first_bar a); [|reflexivity].
  destruct (first_bar a0); [|reflexivity].
  destruct (first_bar a2); reflexivity.
Qed.

Lemma plt_bar_same (x : list Z) (h : list R) :
  len h = len x -> plt_bar x h = Ok (len x).
Proof. intros E. unfold plt_bar. rewrite E, Z.eqb_refl. reflexivity. Qed.

(** The frequency axes when every bar series and the labels have one
    entry per position and there is a position at all. *)
Lemma frequency_axes_ok (an amb : analysis) (w : World) (specs : list R) (line : R) :
  band_specs (self w) = Some specs ->
  amb_analysis (self w) = Some amb ->
  two_band_spec (self w) = Some line ->
  0 < len (skipn 15 (bands an)) ->
  len (skipn 15 (energy an)) = len (skipn 15 (bands an)) ->
  len specs = len (skipn 15 (bands an)) ->
  len (skipn 15 (energy amb)) = len (skipn 15 (bands an)) ->
  len (xticks an) = len (skipn 15 (bands an)) ->
  frequency_axes an w = (Ok (specs, amb, line), w).
Proof.
  intros Hb Ha Ht Hn He Hs Hm Hl. unfold frequency_axes. unfold_monad.
  rewrite (plt_bar_same _ _ He), Hb, (plt_bar_same _ _ Hs), Ha,
    (plt_bar_same _ _ Hm), Ht.
  unfold set_xticklabels. rewrite Hl, Z.eqb_refl.
  unfold first_bar.
  destruct (Z.eqb_spec (len (skipn 15 (bands an))) 0) as [E|_]; [lia|].
  destruct (xticks an); reflexivity.
Qed.

Lemma generate_plots_ok (title name : string) (an amb : analysis) (w : World)
  (r : Z) (specs : list R) (line : R) :
  audio an <> [] ->
  fs (self w) = Some r -> r <> 0 ->
  band_specs (self w) = Some specs ->
  amb_analysis (self w) = Some amb ->
  two_band_spec (self w) = Some line ->
  0 < len (skipn 15 (bands an)) ->
  len (skipn 15 (energy an)) = len (skipn 15 (bands an)) ->
  len specs = len (skipn 15 (bands an)) ->
  len (skipn 15 (energy amb)) = len (skipn 15 (bands an)) ->
  len (xticks an) = len (skipn 15 (bands an)) ->
  let path := path_join (output_dir (self w)) name in
  plt_savefig (path ++ "_j" ++ "." ++ file_type (self w)) = Ok tt ->
  plt_savefig (path ++ "_f" ++ "." ++ file_type (self w)) = Ok tt ->
  generate_plots title name an w
  = (Ok tt,
     mk_World (self w) (stdout w)
       ((figures w
         ++ [plot_figure (path ++ "_j" ++ "." ++ file_type (self w)) title
               (Some (audio an)) an amb specs line])
        ++ [plot_figure (path ++ "_f" ++ "." ++ file_type (self w)) title
              None an amb specs line])).
Proof.
  intros Hau Hfs Hr Hb Ha Ht Hn He Hs Hm Hl path Hj Hf.
  unfold generate_plots.
  unfold bind at 1. unfold read at 1.
  unfold bind at 1. unfold lift at 1.
  destruct (audio an) as [|v t] eqn:Eau; [contradiction|]. cbn [np_max].
  unfold bind at 1. unfold getattr at 1. rewrite Hfs.
  unfold bind at 1. destruct (Z.eqb_spec r 0) as [|_]; [contradiction|].
  unfold ret at 1.
  rewrite (bind_ok _ _ _ _ _
             (frequency_axes_ok an amb w specs line Hb Ha Ht Hn He Hs Hm Hl)).
  unfold bind at 1. unfold read at 1.
  unfold bind at 1. unfold lift at 1. fold path. rewrite Hj.
  unfold bind at 1. unfold savefig at 1.
  match goal with
  | |- bind _ _ ?W = _ =>
      rewrite (bind_ok _ _ W _ _
                 (frequency_axes_ok an amb W specs line Hb Ha Ht Hn He Hs Hm Hl))
  end.
  unfold bind at 1. unfold read at 1.
  unfold bind at 1. unfold lift at 1. cbn [self]. fold path. rewrite Hf.
  unfold savefig. cbn [self stdout figures]. reflexivity.
Qed.

Lemma skipn_15_of_28 {A : Type} (l : list A) :
  length l = 28%nat -> len (skipn 15 l) = 13.
Proof. intros H. unfold len. rewrite length_skipn, H. reflexivity. Qed.

(** [run] on a file whose name parses, whose type is in both tables with
    13 thresholds, and whose samples are valid, for an instance as
    [__init__] leaves it, when both figures can be written. *)
Lemma run_ok (audio_file : string) (w : World) (test : test_details)
  (table : list (string * spec_entry)) (entry : spec_entry)
  (data : list R) (rate idx target r : Z) (b a : list R) (c : R)
  (name : string) (amb : analysis) :
  parse_filename audio_file = Ok test ->
  slr (self w) = Some table ->
  dict_get table (test_type test) = Ok entry ->
  length (octave_bands entry) = 13%nat ->
  sf_read audio_file = Ok (Arr1 data, rate) ->
  0 < block_size (self w) <= len data -> rate = cal_fs (self w) ->
  find_greatest_energy data rate (block_size (self w)) = Ok idx ->
  A_weighting rate = Ok (b, a) ->
  cal_target (self w) = Some target -> cal (self w) = Some c ->
  dict_get test_names (test_type test) = Ok name ->
  fs (self w) = Some r -> r <> 0 ->
  amb_analysis (self w) = Some amb ->
  length (energy amb) = 28%nat ->
  let N := block_size (self w) in
  let frame := py_slice data idx (idx + N) in
  let an := {| audio := frame; bands := ansi_bands;
               energy := calibrated_energy N target c
                           (band_energies (lfilter b a frame));
               xticks := skipn 15 (map band_label ansi_bands);
               frame_idx := idx |} in
  let specs := map snd (octave_bands entry) in
  let title := (name ++ " # " ++ str_int (test_num test) ++ " | "
                ++ test_date test)%string in
  let path := path_join (output_dir (self w)) (test_file test) in
  plt_savefig (path ++ "_j" ++ "." ++ file_type (self w)) = Ok tt ->
  plt_savefig (path ++ "_f" ++ "." ++ file_type (self w)) = Ok tt ->
  let w1 := after_load (Arr1 data) rate audio_file
              (mk_World (set_two_band_spec (two_band entry)
                           (set_band_specs specs (self w)))
                 (stdout w) (figures w)) in
  run audio_file w
  = (Ok tt,
     mk_World (self w1) (stdout w1)
       (figures w1
        ++ [plot_figure (path ++ "_j" ++ "." ++ file_type (self w)) title
              (Some frame) an amb specs (two_band entry)]
        ++ [plot_figure (path ++ "_f" ++ "." ++ file_type (self w)) title
              None an amb specs (two_band entry)])).
Proof.
  intros Hp Hs Hd H13 Hread Hlen Hrate Hidx Hw Ht Hc Hn Hfs Hr Hamb H28
    N frame an specs title path Hj Hf w1.
  unfold run.
  rewrite (bind_ok _ _ _ _ _ (get_test_details_parsed audio_file w test Hp)).
  unfold bind at 1. unfold getattr at 1. rewrite Hs.
  unfold bind at 1. unfold lift at 1. rewrite Hd.
  unfold bind at 1. unfold assign at 1.
  unfold bind at 1. unfold getattr at 1. cbn [self slr set_band_specs]. rewrite Hs.
  unfold bind at 1. unfold lift at 1. rewrite Hd.
  unfold bind at 1. unfold assign at 1. cbn [self stdout figures].
  set (w0 := mk_World _ (stdout w) (figures w)).
  assert (Ha : analyze audio_file w0 = (Ok an, w1)).
  { apply (analyze_ok audio_file w0 data rate idx target b a c); assumption. }
  rewrite (bind_ok _ _ _ _ _ Ha).
  unfold bind at 1. unfold lift at 1. rewrite Hn.
  assert (Hs1 : self w1 = self w0) by apply self_after_load.
  fold title.
  assert (Hpos : len (skipn 15 (bands an)) = 13) by reflexivity.
  assert (Hfr : audio an <> []).
  { destruct (find_greatest_energy_offset data rate _ idx (proj1 Hlen)
                (proj2 Hlen) Hidx) as (Hin & _).
    exact (selected_frame_nonempty data (block_size (self w)) idx
             (proj1 Hlen) Hin). }
  rewrite (generate_plots_ok title (test_file test) an amb w1 r specs (two_band entry)).
  - rewrite Hs1. unfold w0 at 2 3. cbn [self output_dir file_type set_two_band_spec
                                          set_band_specs].
    fold path. rewrite <- app_assoc. reflexivity.
  - exact Hfr.
  - rewrite Hs1. exact Hfs.
  - exact Hr.
  - rewrite Hs1. reflexivity.
  - rewrite Hs1. exact Hamb.
  - rewrite Hs1. reflexivity.
  - rewrite Hpos. lia.
  - rewrite Hpos. apply skipn_15_of_28. cbn [energy an].
    unfold calibrated_energy. rewrite !length_map. apply band_energies_length.
  - rewrite Hpos. unfold specs, len. rewrite length_map, H13. reflexivity.
  - rewrite Hpos. apply skipn_15_of_28. exact H28.
  - rewrite Hpos. cbn [xticks an]. apply skipn_15_of_28.
    rewrite length_map. reflexivity.
  - rewrite Hs1. exact Hj.
  - rewrite Hs1. exact Hf.
Qed.


Lemma without_thresholds_plot_figure (file title : string)
  (series : option (list R)) (an amb : analysis) (specs : list R) (line : R) :
  without_thresholds (plot_figure file title series an amb specs line)
  = plot_figure file title series an amb [] 0%R.
Proof. unfold without_thresholds, plot_figure. reflexivity. Qed.


(** ** Frames at the end of the signal *)

Lemma find_greatest_energy_at (data : list R) (rate N : Z) (k : nat) :
  0 < N -> Z.of_nat k < len data / N * 4 ->
  (forall j, (j < Z.to_nat (len data / N * 4))%nat ->
     (frame_rmse data (N / 4) N (Z.of_nat j)
      <= frame_rmse data (N / 4) N (Z.of_nat k))%R) ->
  (forall j, (j < k)%nat ->
     (frame_rmse data (N / 4) N (Z.of_nat j)
      < frame_rmse data (N / 4) N (Z.of_nat k))%R) ->
  find_greatest_energy data rate N = Ok (N / 4 * Z.of_nat k).
Proof.
  intros HN Hk Hmax Hfirst. unfold find_greatest_energy.
  rewrite Z.quot_div_nonneg by lia.
  destruct (Z.eqb_spec N 0); [lia|].
  rewrite (np_argmax_eq _ k); [reflexivity|].
  repeat split.
  - rewrite length_map, range_length. lia.
  - intros j Hj. rewrite length_map, range_length in Hj.
    rewrite !nth_frame_rmse by lia. now apply Hmax.
  - intros j Hj. rewrite !nth_frame_rmse by lia. now apply Hfirst.
Qed.

Lemma slice_energy_bounded (l : list R) (a b : Z) :
  (np_sum (np_square (py_slice l a b)) <= np_sum (np_square l))%R.
Proof.
  unfold py_slice.
  rewrite <- (firstn_skipn (Z.to_nat a) l) at 2.
  rewrite <- (firstn_skipn (Z.to_nat (b - a)) (skipn (Z.to_nat a) l)) at 2.
  rewrite !np_square_app, !np_sum_app.
  pose proof (np_sum_nonneg _ (np_square_nonneg (firstn (Z.to_nat a) l))).
  pose proof (np_sum_nonneg _
    (np_square_nonneg (skipn (Z.to_nat (b - a)) (skipn (Z.to_nat a) l)))).
  lra.
Qed.

Lemma silence_energy (l : list R) :
  Forall (fun v => v = 0%R) l -> np_sum (np_square l) = 0%R.
Proof.
  intros H. apply np_sum_zeros. unfold np_square.
  apply Forall_forall. intros v Hv. apply in_map_iff in Hv.
  destruct Hv as [u [<- Hu]]. rewrite Forall_forall in H.
  rewrite (H u Hu). lra.
Qed.

Lemma repeat_silent (n : nat) : Forall (fun v => v = 0%R) (repeat 0%R n).
Proof. apply Forall_forall. intros v Hv. now apply repeat_spec in Hv. Qed.

Lemma click_last_len (n : Z) : 0 <= n -> len (click_last n) = n + 1.
Proof.
  intros Hn. unfold click_last, len.
  rewrite length_app, repeat_length. cbn [length]. lia.
Qed.

Lemma click_first_len (n : Z) : 1 <= n -> len (click_first n) = n.
Proof.
  intros Hn. unfold click_first, len. cbn [length].
  rewrite repeat_length. lia.
Qed.

(** A frame that ends before the click holds silence. *)
Lemma click_last_frame_silent (n a b : Z) :
  0 <= a -> b <= n ->
  np_sum (np_square (py_slice (click_last n) a b)) = 0%R.
Proof.
  intros Ha Hb. apply silence_energy. unfold py_slice, click_last.
  rewrite skipn_app, firstn_app.
  rewrite length_skipn, !repeat_length.
  replace (Z.to_nat (b - a) - (Z.to_nat n - Z.to_nat a))%nat with 0%nat by lia.
  rewrite firstn_O, app_nil_r.
  apply Forall_firstn', Forall_skipn', repeat_silent.
Qed.

(** A frame that reaches the click holds its whole energy. *)
Lemma click_last_frame_loud (n a b : Z) :
  0 <= a <= n -> n < b ->
  np_sum (np_square (py_slice (click_last n) a b)) = 1%R.
Proof.
  intros Ha Hb.
  rewrite py_slice_to_end by (rewrite click_last_len by lia; lia).
  unfold click_last. rewrite skipn_app, repeat_length.
  replace (Z.to_nat a - Z.to_nat n)%nat with 0%nat by lia.
  cbn [skipn]. rewrite np_square_app, np_sum_app.
  rewrite (silence_energy (skipn (Z.to_nat a) (repeat 0%R (Z.to_nat n))))
    by apply Forall_skipn', repeat_silent.
  unfold np_square, np_sum. cbn [map fold_right]. lra.
Qed.

Lemma click_last_energy (n : Z) :
  0 <= n -> np_sum (np_square (click_last n)) = 1%R.
Proof.
  intros Hn. unfold click_last. rewrite np_square_app, np_sum_app.
  rewrite (silence_energy (repeat 0%R (Z.to_nat n))) by apply repeat_silent.
  unfold np_square, np_sum. cbn [map fold_right]. lra.
Qed.

Lemma sqrt_scaled_pos (N : Z) : 0 < N -> (0 < sqrt (1 / IZR N * 1))%R.
Proof.
  intros HN. apply sqrt_lt_R0. rewrite Rmult_1_r.
  apply Rdiv_lt_0_compat; [lra|]. now apply IZR_lt.
Qed.

(** With silence up to a final click, the selector returns the first
    frame that reaches the click. *)
Lemma find_greatest_energy_click_last (n rate N : Z) (k : nat) :
  0 < N -> N <= n + 1 ->
  Z.of_nat k < (n + 1) / N * 4 ->
  N / 4 * Z.of_nat k <= n < N / 4 * Z.of_nat k + N ->
  (forall j, (j < k)%nat -> N / 4 * Z.of_nat j + N <= n) ->
  find_greatest_energy (click_last n) rate N = Ok (N / 4 * Z.of_nat k).
Proof.
  intros HN Hlen Hk Hreach Hbefore.
  assert (Hn : 0 <= n) by lia.
  assert (Hhop : 0 <= N / 4) by (apply Z.div_pos; lia).
  assert (Hval : frame_rmse (click_last n) (N / 4) N (Z.of_nat k)
                 = sqrt (1 / IZR N * 1)).
  { unfold frame_rmse. rewrite click_last_frame_loud by lia. reflexivity. }
  apply find_greatest_energy_at; rewrite ?click_last_len by lia; try assumption.
  - intros j _. rewrite Hval. unfold frame_rmse.
    apply sqrt_le_1_alt. apply Rmult_le_compat_l.
    + apply Rlt_le. apply Rdiv_lt_0_compat; [lra|]. now apply IZR_lt.
    + pose proof (slice_energy_bounded (click_last n) (N / 4 * Z.of_nat j)
                    (N / 4 * Z.of_nat j + N)) as Hb.
      now rewrite (click_last_energy n Hn) in Hb.
  - intros j Hj. rewrite Hval. unfold frame_rmse.
    rewrite click_last_frame_silent by (specialize (Hbefore j Hj); nia).
    rewrite Rmult_0_r, sqrt_0. now apply sqrt_scaled_pos.
Qed.

Lemma click_first_frame_zero (n N : Z) :
  1 <= N ->
  np_sum (np_square (py_slice (click_first n) 0 (0 + N)))
  = np_sum (np_square (click_first n)).
Proof.
  intros HN. unfold py_slice, click_first.
  replace (Z.to_nat (0 + N - 0)) with (S (Z.to_nat (N - 1))) by lia.
  cbn [Z.to_nat skipn firstn]. unfold np_square. cbn [map np_sum fold_right].
  f_equal. fold (np_square (firstn (Z.to_nat (N - 1)) (repeat 0%R (Z.to_nat (n - 1))))).
  fold (np_square (repeat 0%R (Z.to_nat (n - 1)))).
  fold (np_sum (np_square (firstn (Z.to_nat (N - 1)) (repeat 0%R (Z.to_nat (n - 1)))))).
  fold (np_sum (np_square (repeat 0%R (Z.to_nat (n - 1))))).
  rewrite !silence_energy; [reflexivity| apply repeat_silent |].
  apply Forall_firstn', repeat_silent.
Qed.

(** With a click on the first sample, the selector returns offset 0. *)
Lemma find_greatest_energy_click_first (n rate N : Z) :
  0 < N -> N <= n ->
  find_greatest_energy (click_first n) rate N = Ok 0.
Proof.
  intros HN Hlen.
  assert (Hq : 1 <= n / N) by (apply Z.div_le_lower_bound; lia).
  pose proof (find_greatest_energy_at (click_first n) rate N 0 HN) as H.
  rewrite click_first_len in H by lia.
  rewrite H; [f_equal; change (Z.of_nat 0) with 0; lia | change (Z.of_nat 0) with 0; lia
              | | intros j Hj; lia].
  intros j _. unfold frame_rmse.
  apply sqrt_le_1_alt. apply Rmult_le_compat_l.
  - apply Rlt_le. apply Rdiv_lt_0_compat; [lra|]. now apply IZR_lt.
  - change (Z.of_nat 0) with 0. rewrite Z.mul_0_r.
    rewrite click_first_frame_zero by lia. apply slice_energy_bounded.
Qed.

Lemma find_greatest_energy_tail (data : list R) (rate N idx : Z) :
  0 < N -> N <= len data ->
  find_greatest_energy data rate N = Ok idx ->
  N / 4 <= len data - idx.
Proof.
  intros HN Hlen Hidx.
  destruct (find_greatest_energy_offset data rate N idx HN Hlen Hidx)
    as (_ & k & -> & Hk).
  assert (Hhop : 0 <= N / 4) by (apply Z.div_pos; lia).
  pose proof (Z.mul_div_le N 4 ltac:(lia)) as H4.
  pose proof (Z.mul_div_le (len data) N HN) as Hq.
  assert (N / 4 * k <= N / 4 * (4 * (len data / N) - 1))
    by (apply Z.mul_le_mono_nonneg_l; lia).
  assert (4 * (N / 4) * (len data / N) <= N * (len data / N))
    by (apply Z.mul_le_mono_nonneg_r; [apply Z.div_pos; lia | lia]).
  lia.
Qed.

(** C10 (amended): for a signal of at least [N] samples the offset
    returned by the selector is [floor(N/4) * k] for an integer
    [0 <= k <= 4*floor(len/N) - 1] and lies inside the signal.  The bound
    allows [offset + N > len]; the slice [signal[offset : offset+N]] then
    has [len - offset] samples, at least [floor(N/4)] and fewer than [N],
    and [analyze] raises nothing: it goes on with the shorter frame, which
    it returns as [audio]. *)
Theorem selected_frame_may_overrun (data : list R) (rate N idx : Z)
  (HN : 0 < N) (Hlen : N <= len data)
  (Hidx : find_greatest_energy data rate N = Ok idx) :
  (exists k, idx = N / 4 * k /\ 0 <= k <= 4 * (len data / N) - 1)
  /\ 0 <= idx < len data
  /\ (len data < idx + N ->
        len (py_slice data idx (idx + N)) = len data - idx
        /\ N / 4 <= len data - idx < N)
  /\ (forall audio_file w b a target c,
        len data < idx + N ->
        sf_read audio_file = Ok (Arr1 data, rate) ->
        block_size (self w) = N -> rate = cal_fs (self w) ->
        A_weighting rate = Ok (b, a) ->
        cal_target (self w) = Some target -> cal (self w) = Some c ->
        exists an w',
          analyze audio_file w = (Ok an, w')
          /\ audio an = py_slice data idx (idx + N)
          /\ frame_idx an = idx
          /\ len (audio an) < N).
Proof.
  destruct (find_greatest_energy_offset data rate N idx HN Hlen Hidx)
    as (Hin & Hk).
  pose proof (find_greatest_energy_tail data rate N idx HN Hlen Hidx) as Htail.
  assert (Hcut : len data < idx + N ->
                 len (py_slice data idx (idx + N)) = len data - idx)
    by (intros H; apply py_slice_short; lia).
  split; [exact Hk|]. split; [exact Hin|]. split.
  - intros H. split; [now apply Hcut | lia].
  - intros audio_file w b a target c Hov Hread Hbs Hrate Hw Ht Hc.
    pose proof (analyze_ok audio_file w data rate idx target b a c) as Ha.
    rewrite Hbs in Ha. specialize (Ha Hread ltac:(lia) Hrate Hidx Hw Ht Hc).
    cbv zeta in Ha. eexists. eexists. split; [exact Ha|].
    cbn [audio frame_idx energy].
    split; [reflexivity|]. split; [reflexivity|].
    rewrite Hcut by assumption. lia.
Qed.

(** Counterexample to C10 as stated: the four samples 0, 0, 0, 1 are an
    exact multiple of the frame length 4, and the last three of the four
    candidate frames (hop 1) have the greatest value, which all four
    share; the selector returns offset 0, whose frame ends exactly at the
    end of the signal. *)
Lemma tied_last_frames_counterexample :
  len [0; 0; 0; 1]%R = 1 * 4
  /\ (forall j k, 0 <= j < 4 -> 1 <= k < 4 ->
        (frame_rmse [0; 0; 0; 1]%R 1 4 j <= frame_rmse [0; 0; 0; 1]%R 1 4 k)%R)
  /\ find_greatest_energy [0; 0; 0; 1]%R 48000 4 = Ok 0
  /\ ~ (0 + 4 > len [0; 0; 0; 1]%R)
  /\ py_slice [0; 0; 0; 1]%R 0 (0 + 4) = [0; 0; 0; 1]%R.
Proof.
  assert (Hv : forall j, 0 <= j < 4 ->
                 frame_rmse [0; 0; 0; 1]%R 1 4 j = sqrt (1 / 4)).
  { intros j Hj. unfold frame_rmse.
    assert (H : j = 0 \/ j = 1 \/ j = 2 \/ j = 3) by lia.
    destruct H as [-> | [-> | [-> | ->]]].
    - change (py_slice _ _ _) with [0; 0; 0; 1]%R.
      unfold np_square, np_sum. cbn [map fold_right]. f_equal. lra.
    - change (py_slice _ _ _) with [0; 0; 1]%R.
      unfold np_square, np_sum. cbn [map fold_right]. f_equal. lra.
    - change (py_slice _ _ _) with [0; 1]%R.
      unfold np_square, np_sum. cbn [map fold_right]. f_equal. lra.
    - change (py_slice _ _ _) with [1]%R.
      unfold np_square, np_sum. cbn [map fold_right]. f_equal. lra. }
  split; [reflexivity|]. split; [|split; [|split]].
  - intros j k Hj Hk. rewrite !Hv by lia. lra.
  - unfold find_greatest_energy.
    change (4 =? 0) with false. cbv iota.
    change (len [0; 0; 0; 1]%R / 4 * 4) with 4.
    change (range 4) with [0; 1; 2; 3].
    change (Z.quot 4 4) with 1. cbn [map].
    rewrite !Hv by lia.
    unfold np_argmax, rbind. cbn [argmax_from].
    destruct (Rlt_dec (sqrt (1 / 4)) (sqrt (1 / 4))) as [H|_]; [lra|].
    reflexivity.
  - change (len [0; 0; 0; 1]%R) with 4. lia.
  - reflexivity.
Qed.

(** * Further properties of the analyzer *)

(** ** The frame selector: outcomes *)

(** X1: [find_greatest_energy] returns an offset exactly when the frame
    size is positive and no longer than the signal, and the offset then
    lies inside the signal; a frame size of 0 raises [ZeroDivisionError];
    a negative frame size or a signal shorter than one frame leaves [rmse]
    empty and [np.argmax] raises [ValueError]. *)
Theorem find_greatest_energy_outcome (data : list R) (rate N : Z) :
  match find_greatest_energy data rate N with
  | Ok idx => 0 < N <= len data /\ 0 <= idx < len data
  | Raise e =>
      ~ (0 < N <= len data)
      /\ e = (if N =? 0 then ZeroDivisionError
              else ValueError "attempt to get argmax of an empty sequence")
  end.
Proof.
  destruct (Z_lt_le_dec 0 N) as [Hpos|Hneg].
  - destruct (Z_le_gt_dec N (len data)) as [Hle|Hgt].
    + destruct (find_greatest_energy_first_max data rate N Hpos Hle)
        as (k & Hk & _ & _).
      rewrite Hk.
      split; [lia|].
      apply (find_greatest_energy_offset data rate N _ Hpos Hle Hk).
    + unfold find_greatest_energy.
      destruct (Z.eqb_spec N 0); [lia|].
      rewrite Z.div_small by (pose proof (len_nonneg data); lia).
      cbn. split; [lia|reflexivity].
  - unfold find_greatest_energy.
    destruct (Z.eqb_spec N 0) as [->|Hn].
    + split; [lia|reflexivity].
    + assert (Hq : len data / N * 4 <= 0).
      { pose proof (len_nonneg data) as Hl.
        pose proof (Z.div_mod (len data) N Hn) as Hd.
        pose proof (Z.mod_neg_bound (len data) N ltac:(lia)) as Hm.
        assert (len data / N <= 0) by nia. lia. }
      unfold range. replace (Z.to_nat (len data / N * 4)) with 0%nat by lia.
      cbn. split; [lia|reflexivity].
Qed.

(** ** Energy of a slice *)

Lemma energy_pos_loud (l : list R) :
  (0 < np_sum (np_square l))%R <-> exists v, In v l /\ v <> 0%R.
Proof.
  induction l as [|x l IH]; cbn.
  - split; [lra|]. intros (v & [] & _).
  - pose proof (np_sum_nonneg _ (np_square_nonneg l)) as Hl.
    fold (np_square l) in *. fold (np_sum (np_square l)) in *.
    split.
    + intros H. destruct (Req_dec x 0) as [->|Hx].
      * destruct (proj1 IH ltac:(lra)) as (v & Hv & Hv0).
        exists v. split; [now right|exact Hv0].
      * exists x. split; [now left|exact Hx].
    + intros (v & [->|Hv] & Hv0).
      * assert (0 < v * v)%R by nra. lra.
      * pose proof (proj2 IH (ex_intro _ v (conj Hv Hv0))). nra.
Qed.

Lemma py_slice_map {A B : Type} (f : A -> B) (l : list A) (a b : Z) :
  py_slice (map f l) a b = map f (py_slice l a b).
Proof. unfold py_slice. now rewrite skipn_map, firstn_map. Qed.

Lemma energy_scaled (c : R) (l : list R) :
  np_sum (np_square (map (Rmult c) l)) = (c * c * np_sum (np_square l))%R.
Proof.
  induction l as [|x l IH]; cbn.
  - lra.
  - fold (np_square (map (Rmult c) l)). fold (np_square l).
    fold (np_sum (np_square (map (Rmult c) l))). fold (np_sum (np_square l)).
    rewrite IH. lra.
Qed.

(** ** The band grouping: what the bands cover *)

Lemma bin_sum_empty (m : list R) (a : Z) : bin_sum m a a = 0%R.
Proof. unfold bin_sum. now rewrite Z.sub_diag. Qed.

Lemma bin_sum_snoc (m : list R) (a b : Z) :
  a <= b ->
  bin_sum m a (b + 1) = (bin_sum m a b + nth (Z.to_nat b) m 0)%R.
Proof.
  intros Hab. unfold bin_sum, range.
  replace (Z.to_nat (b + 1 - a)) with (S (Z.to_nat (b - a))) by lia.
  rewrite seq_S, !map_app, np_sum_app. cbn [map np_sum fold_right].
  replace (a + Z.of_nat (0 + Z.to_nat (b - a))) with b by lia. lra.
Qed.

Lemma bin_sum_split (m : list R) (a b c : Z) :
  a <= b <= c -> bin_sum m a c = (bin_sum m a b + bin_sum m b c)%R.
Proof.
  intros [Hab Hbc].
  replace c with (b + Z.of_nat (Z.to_nat (c - b))) by lia.
  induction (Z.to_nat (c - b)) as [|n IH].
  - rewrite Z.add_0_r, bin_sum_empty. lra.
  - replace (b + Z.of_nat (S n)) with (b + Z.of_nat n + 1) by lia.
    rewrite !bin_sum_snoc by lia. rewrite IH. lra.
Qed.

Lemma bin_sum_ext (m m' : list R) (a b : Z) :
  (forall i, a <= i < b -> nth (Z.to_nat i) m 0%R = nth (Z.to_nat i) m' 0%R) ->
  bin_sum m a b = bin_sum m' a b.
Proof.
  intros H. unfold bin_sum. f_equal. apply map_ext_in.
  intros i Hi. apply in_map_iff in Hi. destruct Hi as (j & <- & Hj).
  unfold range in Hj. apply in_map_iff in Hj. destruct Hj as (n & <- & Hn).
  apply in_seq in Hn. apply H. lia.
Qed.

Lemma band_range_stop_last (m : list R) (k : nat) :
  (k < 28)%nat -> snd (band_range m k) <= 7681.
Proof.
  intros Hk. rewrite band_range_table by lia.
  do 28 (destruct k as [|k]; [vm_compute; discriminate|]). lia.
Qed.

Lemma acc_energy_total (m : list R) (n : nat) :
  (n <= 28)%nat ->
  np_sum (acc_energy (state_at m n)) = bin_sum m 13 (start_bin (state_at m n)).
Proof.
  induction n as [|n IH]; intros Hn.
  - change (state_at m 0) with band_init.
    unfold band_init; cbn [acc_energy start_bin np_sum fold_right].
    now rewrite bin_sum_empty.
  - rewrite state_at_S by lia.
    destruct (state_at_invariant m n) as (_ & Hs & _); [lia|].
    pose proof (band_range_start_nonneg m n ltac:(lia)) as Hr.
    unfold band_range in Hr; cbn [fst snd] in Hr.
    unfold band_body; cbn [acc_energy start_bin].
    rewrite np_sum_app, IH by lia. cbn [np_sum fold_right].
    rewrite np_sum_py_slice by lia.
    rewrite (bin_sum_split m 13 (start_bin (state_at m n))
               (start_bin (state_at m n) + nbins (state_at m n))) by lia.
    rewrite Hs. lra.
Qed.

(** X4: the 28 band energies of [one_third_octaves] add up to the sum of
    the magnitude spectrum over the bins 13 to 7680: together the bands
    cover exactly that stretch of the spectrum, each bin once. *)
Theorem band_energies_total (m : list R) :
  np_sum (acc_energy (band_loop m (enumerate ansi_bands))) = bin_sum m 13 7681.
Proof.
  rewrite <- (state_at_all m 28) by lia.
  rewrite acc_energy_total by lia.
  destruct (state_at_invariant m 28) as (Ht & _); [lia|].
  replace (start_bin (state_at m 28)) with 7681; [reflexivity|].
  change 7681 with (snd (band_table 28)). now rewrite <- Ht.
Qed.

(** X5: the band energies depend on the bins 13 to 7680 only: two spectra
    that agree there, whatever they hold at the bins 0 to 12 (the DC end)
    and from bin 7681 on, and whatever their lengths, give the same 28
    energies. *)
Theorem band_energies_local (m m' : list R)
  (Hagree : forall i, 13 <= i < 7681 ->
              nth (Z.to_nat i) m 0%R = nth (Z.to_nat i) m' 0%R) :
  acc_energy (band_loop m (enumerate ansi_bands))
  = acc_energy (band_loop m' (enumerate ansi_bands)).
Proof.
  rewrite <- (state_at_all m 28), <- (state_at_all m' 28) by lia.
  destruct (state_at_invariant m 28) as (_ & _ & Hl); [lia|].
  destruct (state_at_invariant m' 28) as (_ & _ & Hl'); [lia|].
  apply (nth_ext _ _ 0%R 0%R); [congruence|].
  intros k Hk. rewrite Hl in Hk.
  rewrite !acc_energy_nth by lia.
  pose proof (band_range_start_nonneg m k ltac:(lia)) as Hr.
  pose proof (band_range_stop_last m k Hk) as Hs.
  rewrite (band_range_table m' k), <- (band_range_table m k) by lia.
  rewrite !np_sum_py_slice by lia.
  apply bin_sum_ext. intros i Hi. apply Hagree. lia.
Qed.

Lemma band_energies_local_witness :
  acc_energy (band_loop [] (enumerate ansi_bands))
  = acc_energy (band_loop [5%R; 7%R] (enumerate ansi_bands)).
Proof.
  apply (band_energies_local [] [5%R; 7%R]).
  intros i Hi. rewrite !nth_overflow by (cbn [length]; lia). reflexivity.
Defined.

(** X6: a band that starts at or past the end of the spectrum gets the
    energy 0: nothing is raised for a frame too short to reach it. *)
Theorem band_past_spectrum_silent (m : list R) (k : nat)
  (Hk : (k < 28)%nat) (Hpast : len m <= fst (band_range m k)) :
  nth k (acc_energy (band_loop m (enumerate ansi_bands))) 0%R = 0%R.
Proof.
  rewrite <- (state_at_all m 28) by lia.
  rewrite acc_energy_nth by lia.
  unfold py_slice. rewrite skipn_all2 by (unfold len in Hpast; lia).
  now rewrite firstn_nil.
Qed.

Lemma band_past_spectrum_silent_witness :
  nth 27 (acc_energy (band_loop (repeat 1%R 20) (enumerate ansi_bands))) 0%R = 0%R.
Proof.
  apply (band_past_spectrum_silent (repeat 1%R 20) 27).
  - lia.
  - rewrite band_range_table by lia. vm_compute. discriminate.
Defined.

(** ** The band analysis: outcomes *)

(** X7: [one_third_octaves] returns exactly for a non-empty frame, with
    the 28 band numbers and 28 energies; for the empty frame the transform
    has no data points and a [ValueError] is raised. *)
Theorem one_third_octaves_outcome (x : list R) :
  match one_third_octaves x with
  | Ok (labels, numbers, energies) =>
      x <> [] /\ numbers = ansi_bands /\ length energies = 28%nat
  | Raise e =>
      x = [] /\ e = ValueError "invalid number of data points (0) specified"
  end.
Proof.
  destruct x as [|u x].
  - unfold one_third_octaves. change (len (@nil R)) with 0.
    pose proof (blackmanharris_len 0 ltac:(lia)) as Hw.
    destruct (blackmanharris 0) as [|v t];
      [|unfold len in Hw; cbn [length] in Hw; lia].
    cbn. split; reflexivity.
  - rewrite one_third_octaves_ok by discriminate.
    split; [discriminate|]. split; [reflexivity|apply band_energies_length].
Qed.

(** ** Levels and gain *)

Lemma np_sum_scaled (c : R) (l : list R) :
  np_sum (map (Rmult c) l) = (c * np_sum l)%R.
Proof. induction l as [|x l IH]; cbn; [lra|]. fold (np_sum (map (Rmult c) l)).
  fold (np_sum l). rewrite IH. lra. Qed.

Lemma band_loop_scaled (c : R) (m : list R) (its : list (Z * Z)) (st : band_state) :
  fold_left (band_body (map (Rmult c) m)) its
    (mk_band_state (map (Rmult c) (acc_energy st)) (step st) (nbins st)
       (start_bin st) (stop_bin st))
  = let st' := fold_left (band_body m) its st in
    mk_band_state (map (Rmult c) (acc_energy st')) (step st') (nbins st')
      (start_bin st') (stop_bin st').
Proof.
  revert st. induction its as [|it its IH]; intros st; [reflexivity|].
  cbn [fold_left]. rewrite <- IH. f_equal.
  unfold band_body; cbn [acc_energy step nbins start_bin stop_bin].
  rewrite map_app, py_slice_map, np_sum_scaled. reflexivity.
Qed.

Lemma band_loop_energy_scaled (c : R) (m : list R) :
  acc_energy (band_loop (map (Rmult c) m) (enumerate ansi_bands))
  = map (Rmult c) (acc_energy (band_loop m (enumerate ansi_bands))).
Proof.
  unfold band_loop.
  pose proof (band_loop_scaled c m (enumerate ansi_bands) band_init) as H.
  change (mk_band_state (map (Rmult c) (acc_energy band_init)) (step band_init)
            (nbins band_init) (start_bin band_init) (stop_bin band_init))
    with band_init in H.
  rewrite H. reflexivity.
Qed.

Lemma log10_mult (a b : R) :
  (0 < a)%R -> (0 < b)%R -> log10 (a * b) = (log10 a + log10 b)%R.
Proof.
  intros Ha Hb. unfold log10. rewrite ln_mult by assumption.
  field. assert (0 < ln 10)%R by (rewrite <- ln_1; apply ln_increasing; lra). lra.
Qed.

(** X8: a gain [c > 0] on the spectrum multiplies every band energy by
    [c], so each calibrated band level moves by 20*log10(c) dB, while the
    level measured by the last two statements of [calibrate], which sums
    squared magnitudes, moves by twice that. *)
Theorem gain_moves_levels (c : R) (N target : Z) (offset : R) (m : list R)
  (Hc : (0 < c)%R) (HN : 0 < N)
  (Hloud : Forall (fun e => e <> 0%R)
             (acc_energy (band_loop m (enumerate ansi_bands)))) :
  calibrated_energy N target offset
    (acc_energy (band_loop (map (Rmult c) m) (enumerate ansi_bands)))
  = map (fun level => (level + 20 * log10 c)%R)
      (calibrated_energy N target offset
         (acc_energy (band_loop m (enumerate ansi_bands))))
  /\ total_level N (map (Rmult c) m)
     = (total_level N m + 2 * (20 * log10 c))%R.
Proof.
  assert (Hinv : (0 < 2 / IZR N)%R)
    by (apply Rdiv_lt_0_compat; [lra|now apply IZR_lt]).
  split.
  - rewrite band_loop_energy_scaled. unfold calibrated_energy.
    rewrite !map_map. apply map_ext_in. intros e He.
    rewrite Forall_forall in Hloud. specialize (Hloud e He).
    rewrite Rabs_mult, (Rabs_right c) by lra.
    replace (2 / IZR N * (c * Rabs e))%R with (c * (2 / IZR N * Rabs e))%R by lra.
    rewrite log10_mult; [lra|exact Hc|].
    apply Rmult_lt_0_compat; [exact Hinv|now apply Rabs_pos_lt].
  - unfold total_level. rewrite energy_scaled.
    assert (Hs : (0 < np_sum (np_square m))%R).
    { apply energy_pos_loud.
      destruct (Forall_Exists_dec (fun v => v = 0%R) (fun v => Req_dec_T v 0) m)
        as [Hz|Hnz].
      - exfalso.
        assert (Hl : length (acc_energy (band_loop m (enumerate ansi_bands))) = 28%nat).
        { rewrite <- (state_at_all m 28) by lia.
          now destruct (state_at_invariant m 28) as (_ & _ & Hl); [lia|]. }
        destruct (acc_energy (band_loop m (enumerate ansi_bands))) as [|e t] eqn:E;
          [discriminate|].
        inversion Hloud as [|? ? He _]; subst. apply He.
        change e with (nth 0 (e :: t) 0%R). rewrite <- E.
        rewrite <- (state_at_all m 28) by lia. rewrite acc_energy_nth by lia.
        apply np_sum_zeros. now apply py_slice_Forall.
      - apply Exists_exists in Hnz. exact Hnz. }
    replace (2 / IZR N * (c * c * np_sum (np_square m)))%R
      with (c * (c * (2 / IZR N * np_sum (np_square m))))%R by lra.
    rewrite !log10_mult; try lra; try nra.
    apply Rmult_lt_0_compat; [exact Hc|nra].
Qed.

Lemma np_sum_pos (l : list R) :
  l <> [] -> Forall (fun v => (0 < v)%R) l -> (0 < np_sum l)%R.
Proof.
  intros Hne H. destruct H as [|x l Hx Hl]; [congruence|].
  cbn. assert (0 <= np_sum l)%R; [|unfold np_sum in *; lra].
  apply np_sum_nonneg. eapply Forall_impl; [|exact Hl]. intros; cbn in *; lra.
Qed.

(** On a spectrum of positive magnitudes that reaches bin 7680 every band
    has energy. *)
Lemma band_energy_positive (m : list R) :
  Forall (fun v => (0 < v)%R) m -> 7681 <= len m ->
  Forall (fun e => e <> 0%R) (acc_energy (band_loop m (enumerate ansi_bands))).
Proof.
  intros Hm Hlen. rewrite <- (state_at_all m 28) by lia.
  destruct (state_at_invariant m 28) as (_ & _ & Hl); [lia|].
  apply Forall_nth. intros k d Hk. rewrite Hl in Hk.
  rewrite (nth_indep _ d 0%R) by lia. rewrite acc_energy_nth by lia.
  pose proof (band_range_start_nonneg m k ltac:(lia)) as Hr.
  pose proof (band_range_stop_last m k Hk) as Hs.
  assert (0 < np_sum (py_slice m (fst (band_range m k)) (snd (band_range m k))))%R;
    [|lra].
  apply np_sum_pos; [|now apply py_slice_Forall].
  apply len_nonempty. rewrite py_slice_length by lia. lia.
Qed.

(** ** Calibration: what stops it *)

(** X9: with any response time other than ["fast"] and ["slow"],
    [calibrate] raises the [ValueError] of its [else] branch once the
    target level has been parsed and stored in [cal_target]; the recording
    is not read and nothing is printed. *)
Theorem calibrate_invalid_mode (response_time : string) (w : World)
  (tok : string) (target : Z)
  (Htok : list_get (split_on "_"%char (basename (cal_file (self w)))) 1 = Ok tok)
  (Hint : py_int tok = Ok target)
  (Hfast : response_time <> "fast"%string)
  (Hslow : response_time <> "slow"%string) :
  calibrate response_time w
  = (Raise (ValueError "Invalid response time. Must be 'fast' or 'slow'."),
     mk_World (set_cal_target target (self w)) (stdout w) (figures w)).
Proof.
  unfold calibrate.
  unfold bind at 1. unfold read at 1.
  unfold bind at 1. unfold lift at 1. rewrite Htok.
  unfold bind at 1. unfold lift at 1. rewrite Hint.
  unfold bind at 1. unfold assign at 1.
  unfold bind at 1.
  destruct (String.eqb_spec response_time "fast"); [contradiction|].
  destruct (String.eqb_spec response_time "slow"); [contradiction|].
  reflexivity.
Qed.

Lemma contains_lstrip (c : ascii) (s : string) :
  is_space c = false -> contains c (lstrip s) = contains c s.
Proof.
  intros Hc. induction s as [|c' t IH]; [reflexivity|].
  cbn [lstrip]. destruct (is_space c') eqn:E; [|reflexivity].
  rewrite IH. cbn [contains].
  destruct (Ascii.eqb_spec c' c) as [->|_]; [congruence|reflexivity].
Qed.

Lemma contains_rstrip (c : ascii) (s : string) :
  is_space c = false -> contains c (rstrip s) = contains c s.
Proof.
  intros Hc. induction s as [|c' t IH]; [reflexivity|].
  cbn [rstrip contains]. rewrite <- IH.
  destruct (rstrip t) as [|c'' t'] eqn:E.
  - destruct (is_space c') eqn:Es; cbn [contains].
    + destruct (Ascii.eqb_spec c' c) as [->|_]; [congruence|reflexivity].
    + reflexivity.
  - reflexivity.
Qed.

Lemma digits_val_none (c : ascii) (s : string) (acc : Z) :
  digit_val c = None -> contains c s = true -> digits_val acc s = None.
Proof.
  intros Hc. revert acc. induction s as [|c' t IH]; intros acc H; [discriminate|].
  cbn [contains] in H. cbn [digits_val].
  destruct (Ascii.eqb_spec c' c) as [->|_].
  - now rewrite Hc.
  - destruct (digit_val c'); [apply IH; exact H|reflexivity].
Qed.

(** [int] rejects any text with a dot in it. *)
Lemma py_int_dot (s : string) :
  contains "."%char s = true ->
  py_int s = Raise (ValueError "invalid literal for int() with base 10").
Proof.
  intros H. unfold py_int.
  assert (Ht : contains "."%char (rstrip (lstrip s)) = true)
    by (rewrite contains_rstrip, contains_lstrip by reflexivity; exact H).
  destruct (rstrip (lstrip s)) as [|c t]; [discriminate|].
  assert (Hd : forall body acc, contains "."%char body = true ->
                 digits_val acc body = None)
    by (intros body acc; now apply digits_val_none).
  cbn [contains] in Ht.
  destruct (Ascii.eqb_spec c "-"%char) as [->|Hm].
  - cbn in Ht. destruct t as [|c' t']; [discriminate|].
    now rewrite (Hd (String c' t') 0 Ht).
  - destruct (Ascii.eqb_spec c "+"%char) as [->|Hp].
    + cbn in Ht. destruct t as [|c' t']; [discriminate|].
      now rewrite (Hd (String c' t') 0 Ht).
    + assert (Hb : digits_val 0 (String c t) = None)
        by (apply Hd; cbn [contains]; exact Ht).
      destruct c as [[] [] [] [] [] [] [] []];
        try (exfalso; apply Hm; reflexivity);
        try (exfalso; apply Hp; reflexivity);
        now rewrite Hb.
Qed.

(** X10: [calibrate] reads the target level from the second underscore
    token of the base name without removing the extension; when that token
    has a dot in it, as in [cal_94.wav], [int] fails and [calibrate]
    raises its [ValueError] with nothing assigned, read or printed. *)
Theorem calibrate_dotted_target (response_time : string) (w : World) (tok : string)
  (Htok : list_get (split_on "_"%char (basename (cal_file (self w)))) 1 = Ok tok)
  (Hdot : contains "."%char tok = true) :
  calibrate response_time w
  = (Raise (ValueError "invalid literal for int() with base 10"), w).
Proof.
  unfold calibrate.
  unfold bind at 1. unfold read at 1.
  unfold bind at 1. unfold lift at 1. rewrite Htok.
  unfold bind at 1. unfold lift at 1. rewrite (py_int_dot tok Hdot).
  reflexivity.
Qed.

(** ** The per-file path: missing keys *)

Lemma dict_get_missing {A : Type} (d : list (string * A)) (k : string) :
  (forall v, ~ In (k, v) d) -> dict_get d k = Raise (KeyError k).
Proof.
  induction d as [|[k' v'] d IH]; intros H; [reflexivity|].
  cbn [dict_get]. destruct (String.eqb_spec k' k) as [->|_].
  - exfalso. apply (H v'). now left.
  - apply IH. intros v Hv. apply (H v). now right.
Qed.

(** X11: when the test type parsed from the file name is not a key of the
    threshold table, [run] raises [KeyError] for that type before anything
    else happens: no attribute is assigned, the file is not read, nothing
    is printed or drawn. *)
Theorem run_unknown_type (audio_file : string) (w : World) (test : test_details)
  (table : list (string * spec_entry))
  (Hp : parse_filename audio_file = Ok test)
  (Hs : slr (self w) = Some table)
  (Hmiss : forall entry, ~ In (test_type test, entry) table) :
  run audio_file w = (Raise (KeyError (test_type test)), w).
Proof.
  unfold run.
  rewrite (bind_ok _ _ _ _ _ (get_test_details_parsed audio_file w test Hp)).
  unfold bind at 1. unfold getattr at 1. rewrite Hs.
  unfold bind at 1. unfold lift at 1. rewrite (dict_get_missing table _ Hmiss).
  reflexivity.
Qed.

(** X12: when the test type has thresholds in the table but no entry in
    [test_names], [run] raises [KeyError] only after the whole analysis:
    [band_specs] and [two_band_spec] are assigned and the file has been
    loaded and analysed, but no figure is saved. *)
Theorem run_unnamed_type (audio_file : string) (w : World) (test : test_details)
  (table : list (string * spec_entry)) (entry : spec_entry)
  (data : list R) (rate idx target : Z) (b a : list R) (c : R)
  (Hp : parse_filename audio_file = Ok test)
  (Hs : slr (self w) = Some table)
  (Hd : dict_get table (test_type test) = Ok entry)
  (Hread : sf_read audio_file = Ok (Arr1 data, rate))
  (Hlen : 0 < block_size (self w) <= len data)
  (Hrate : rate = cal_fs (self w))
  (Hidx : find_greatest_energy data rate (block_size (self w)) = Ok idx)
  (Hw : A_weighting rate = Ok (b, a))
  (Ht : cal_target (self w) = Some target)
  (Hc : cal (self w) = Some c)
  (Hname : forall name, ~ In (test_type test, name) test_names) :
  run audio_file w
  = (Raise (KeyError (test_type test)),
     after_load (Arr1 data) rate audio_file
       (mk_World (set_two_band_spec (two_band entry)
                    (set_band_specs (map snd (octave_bands entry)) (self w)))
          (stdout w) (figures w))).
Proof.
  unfold run.
  rewrite (bind_ok _ _ _ _ _ (get_test_details_parsed audio_file w test Hp)).
  unfold bind at 1. unfold getattr at 1. rewrite Hs.
  unfold bind at 1. unfold lift at 1. rewrite Hd.
  unfold bind at 1. unfold assign at 1.
  unfold bind at 1. unfold getattr at 1. cbn [self slr set_band_specs]. rewrite Hs.
  unfold bind at 1. unfold lift at 1. rewrite Hd.
  unfold bind at 1. unfold assign at 1. cbn [self stdout figures].
  set (w0 := mk_World _ (stdout w) (figures w)).
  pose proof (analyze_ok audio_file w0 data rate idx target b a c
                Hread Hlen Hrate Hidx Hw Ht Hc) as Ha.
  cbv zeta in Ha. rewrite (bind_ok _ _ _ _ _ Ha).
  unfold bind at 1. unfold lift at 1.
  rewrite (dict_get_missing test_names _ Hname). reflexivity.
Qed.

(** ** Plotting: what is saved *)

Lemma plt_bar_raises (x : list Z) (h : list R) (e : exn) :
  plt_bar x h = Raise e -> exn_class e = "ValueError"%string.
Proof.
  unfold plt_bar. intros H.
  destruct (len x =? len h); [discriminate|].
  destruct (len h =? 1); [discriminate|].
  destruct (len x =? 1); [discriminate|].
  injection H as <-. reflexivity.
Qed.

Lemma first_bar_raises (n : Z) (e : exn) :
  first_bar n = Raise e -> exn_class e = "IndexError"%string.
Proof.
  unfold first_bar. destruct (n =? 0); [|discriminate].
  intros H. injection H as <-. reflexivity.
Qed.

Lemma first_bar_returns (n : Z) (u : unit) : first_bar n = Ok u -> n <> 0.
Proof. unfold first_bar. destruct (Z.eqb_spec n 0); [discriminate|auto]. Qed.

Lemma set_xticklabels_raises (ticks : list Z) (labels : list string) (e : exn) :
  set_xticklabels ticks labels = Raise e -> exn_class e = "ValueError"%string.
Proof.
  unfold set_xticklabels. destruct labels; [discriminate|].
  destruct (len ticks =? _); [discriminate|].
  intros H. injection H as <-. reflexivity.
Qed.

Lemma frequency_axes_raises (an : analysis) (w : World) (e : exn) :
  fst (frequency_axes an w) = Raise e ->
  In (exn_class e) ["ValueError"; "AttributeError"; "IndexError"]%string.
Proof.
  unfold frequency_axes. unfold_monad.
  destruct (plt_bar _ (skipn 15 (energy an))) as [n1|e1] eqn:E1;
    [|intros H; injection H as <-; left; symmetry;
      exact (plt_bar_raises _ _ _ E1)].
  destruct (band_specs (self w)) as [specs|];
    [|intros H; injection H as <-; right; left; reflexivity].
  destruct (plt_bar _ specs) as [n2|e2] eqn:E2;
    [|intros H; injection H as <-; left; symmetry;
      exact (plt_bar_raises _ _ _ E2)].
  destruct (amb_analysis (self w)) as [amb|];
    [|intros H; injection H as <-; right; left; reflexivity].
  destruct (plt_bar _ (skipn 15 (energy amb))) as [n3|e3] eqn:E3;
    [|intros H; injection H as <-; left; symmetry;
      exact (plt_bar_raises _ _ _ E3)].
  destruct (set_xticklabels _ _) as [u|e4] eqn:E4;
    [|intros H; injection H as <-; left; symmetry;
      exact (set_xticklabels_raises _ _ _ E4)].
  destruct (two_band_spec (self w)) as [line|];
    [|intros H; injection H as <-; right; left; reflexivity].
  destruct (first_bar n1) as [u1|e5] eqn:E5;
    [|intros H; injection H as <-; right; right; left; symmetry;
      exact (first_bar_raises _ _ E5)].
  destruct (first_bar n2) as [u2|e6] eqn:E6;
    [|intros H; injection H as <-; right; right; left; symmetry;
      exact (first_bar_raises _ _ E6)].
  destruct (first_bar n3) as [u3|e7] eqn:E7;
    [|intros H; injection H as <-; right; right; left; symmetry;
      exact (first_bar_raises _ _ E7)].
  discriminate.
Qed.

Lemma frequency_axes_returns (an amb : analysis) (w : World) (specs : list R)
  (line : R) :
  fst (frequency_axes an w) = Ok (specs, amb, line) ->
  band_specs (self w) = Some specs
  /\ amb_analysis (self w) = Some amb
  /\ two_band_spec (self w) = Some line
  /\ exists n, plt_bar (skipn 15 (bands an)) specs = Ok n /\ n <> 0.
Proof.
  unfold frequency_axes. unfold_monad.
  destruct (plt_bar _ (skipn 15 (energy an))) as [n1|e1]; [|discriminate].
  destruct (band_specs (self w)) as [specs'|]; [|discriminate].
  destruct (plt_bar _ specs') as [n2|e2] eqn:E2; [|discriminate].
  destruct (amb_analysis (self w)) as [amb'|]; [|discriminate].
  destruct (plt_bar _ (skipn 15 (energy amb'))) as [n3|e3]; [|discriminate].
  destruct (set_xticklabels _ _) as [u|e4]; [|discriminate].
  destruct (two_band_spec (self w)) as [line'|]; [|discriminate].
  destruct (first_bar n1) as [u1|e5]; [|discriminate].
  destruct (first_bar n2) as [u2|e6] eqn:E6; [|discriminate].
  destruct (first_bar n3) as [u3|e7]; [|discriminate].
  intros H. injection H as <- <- <-.
  repeat split. exists n2. split; [exact E2|exact (first_bar_returns _ _ E6)].
Qed.

(** X13: [generate_plots] assigns no attribute and prints nothing.  When
    it returns, the audio was not empty, the thresholds in [band_specs]
    fitted the bar positions, both files could be written, and exactly the
    two figures are on record, the joint one under [<path>_j.<type>] and
    the frequency one under [<path>_f.<type>].  When it raises, the
    frequency figure has not been saved, and the joint figure has been
    saved only when it was the writing of the frequency figure that failed;
    an exception raised before any figure is saved is a [ValueError] (empty
    audio, a bar series or labels that do not fit the positions), an
    [AttributeError] (an attribute not set), a [ZeroDivisionError] (sample
    rate 0), an [IndexError] (no bar to put in the legend) or what
    [plt.savefig] raised for the joint figure. *)
Theorem generate_plots_outcome (title name : string) (an : analysis)
  (w : World) :
  let path := path_join (output_dir (self w)) name in
  let file_j := (path ++ "_j" ++ "." ++ file_type (self w))%string in
  let file_f := (path ++ "_f" ++ "." ++ file_type (self w))%string in
  let out := generate_plots title name an w in
  self (snd out) = self w
  /\ stdout (snd out) = stdout w
  /\ match fst out with
     | Ok _ =>
         audio an <> []
         /\ (exists specs n,
               band_specs (self w) = Some specs
               /\ plt_bar (skipn 15 (bands an)) specs = Ok n /\ n <> 0)
         /\ plt_savefig file_j = Ok tt /\ plt_savefig file_f = Ok tt
         /\ exists fj ff,
              figures (snd out) = figures w ++ [fj; ff]
              /\ fig_file fj = file_j /\ fig_file ff = file_f
              /\ fig_title fj = title /\ fig_title ff = title
     | Raise e =>
         (figures (snd out) = figures w
          /\ (In (exn_class e)
                 ["ValueError"; "AttributeError"; "ZeroDivisionError";
                  "IndexError"]%string
              \/ plt_savefig file_j = Raise e))
         \/ (plt_savefig file_j = Ok tt /\ plt_savefig file_f = Raise e
             /\ exists fj, figures (snd out) = figures w ++ [fj]
                           /\ fig_file fj = file_j)
     end.
Proof.
  intros path file_j file_f out.
  assert (E : out = generate_plots title name an w) by reflexivity.
  clearbody out. unfold generate_plots in E.
  unfold bind at 1 in E. unfold read at 1 in E. fold path in E.
  unfold bind at 1 in E. unfold lift at 1 in E.
  destruct (audio an) as [|v t] eqn:Eau.
  { subst out. cbn. split; [reflexivity|]. split; [reflexivity|]. left. auto. }
  cbn [np_max] in E.
  unfold bind at 1 in E. unfold getattr at 1 in E.
  destruct (fs (self w)) as [r|].
  2:{ subst out. cbn. split; [reflexivity|]. split; [reflexivity|]. left. auto. }
  unfold bind at 1 in E.
  destruct (r =? 0).
  { subst out. cbn. split; [reflexivity|]. split; [reflexivity|]. left. auto 6. }
  unfold ret at 1 in E.
  unfold bind at 1 in E. rewrite (frequency_axes_pure an w) in E.
  destruct (fst (frequency_axes an w)) as [[[specs amb] line]|e] eqn:Efa.
  2:{ subst out. cbn [fst snd]. split; [reflexivity|]. split; [reflexivity|].
      left. split; [reflexivity|]. left.
      destruct (frequency_axes_raises an w e Efa) as [H|[H|[H|[]]]];
        rewrite <- H; cbn; auto 6. }
  unfold bind at 1 in E. unfold read at 1 in E.
  unfold bind at 1 in E. unfold lift at 1 in E. fold file_j in E.
  destruct (plt_savefig file_j) as [[]|e] eqn:Ej.
  2:{ subst out. cbn [fst snd]. split; [reflexivity|]. split; [reflexivity|].
      left. split; [reflexivity|]. right. reflexivity. }
  unfold bind at 1 in E. unfold savefig at 1 in E.
  set (w1 := mk_World (self w) (stdout w) (figures w ++ [_])) in E.
  unfold bind at 1 in E. rewrite (frequency_axes_pure an w1) in E.
  rewrite (frequency_axes_self an w w1 eq_refl), Efa in E.
  unfold bind at 1 in E. unfold read at 1 in E.
  unfold bind at 1 in E. unfold lift at 1 in E. cbn [self w1] in E.
  fold file_f in E.
  destruct (plt_savefig file_f) as [[]|e] eqn:Ef.
  - subst out. unfold savefig. cbn [fst snd self stdout figures w1].
    split; [reflexivity|]. split; [reflexivity|].
    destruct (frequency_axes_returns an amb w specs line Efa)
      as (Hb & _ & _ & n & Hn & Hn0).
    split; [discriminate|].
    split; [exists specs, n; auto|].
    split; [reflexivity|]. split; [reflexivity|].
    eexists. eexists. split; [rewrite <- app_assoc; reflexivity|].
    unfold plot_figure. cbn [fig_file fig_title]. repeat split.
  - subst out. cbn [fst snd self stdout figures w1].
    split; [reflexivity|]. split; [reflexivity|]. right.
    split; [reflexivity|]. split; [reflexivity|].
    eexists. split; [reflexivity|]. reflexivity.
Qed.

(** ** Construction *)





(** X15: the calibration recording is validated against [block_size]
    (65536 samples in [__init__]) although the calibration frame has 8192
    samples: a shorter recording makes [calibrate], and with it
    [__init__], raise the length error, with [cal_target] already
    assigned and [cal] left unset. *)
Theorem init_short_calibration (w : World) (x : ndarray) (rate target : Z)
  (tok : string)
  (Htok : list_get (split_on "_"%char (basename (cal_file (self w)))) 1 = Ok tok)
  (Hint : py_int tok = Ok target)
  (Hread : sf_read (cal_file (self w)) = Ok (x, rate))
  (Hshort : shape0 x < block_size (self w)) :
  let w' := mk_World (set_cal_target target (self w)) (stdout w) (figures w) in
  calibrate "fast" w = (Raise (invalid_length (block_size (self w))), w')
  /\ init w = (Raise (invalid_length (block_size (self w))), w')
  /\ cal (self w') = cal (self w).
Proof.
  intros w'.
  assert (Hc : calibrate "fast" w
               = (Raise (invalid_length (block_size (self w))), w')).
  { unfold calibrate.
    unfold bind at 1. unfold read at 1.
    unfold bind at 1. unfold lift at 1. rewrite Htok.
    unfold bind at 1. unfold lift at 1. rewrite Hint.
    unfold bind at 1. unfold assign at 1. fold w'.
    unfold bind at 1. unfold ret at 1. cbn [String.eqb Ascii.eqb Bool.eqb].
    cbv beta iota.
    assert (Hl : load (cal_file (self w)) w'
                 = (Raise (invalid_length (block_size (self w))), w')).
    { rewrite load_eq, Hread, validate_audio_eq. cbn [fst].
      change (self w') with (set_cal_target target (self w)).
      cbn [block_size set_cal_target].
      destruct (Z.ltb_spec (shape0 x) (block_size (self w))); [reflexivity|lia]. }
    now rewrite (bind_raise _ _ _ _ _ Hl). }
  split; [exact Hc|]. split; [|reflexivity].
  unfold init. now rewrite (bind_raise _ _ _ _ _ Hc).
Qed.

(** ** File names *)

Lemma split_on_nonempty (sep : ascii) (s : string) : split_on sep s <> [].
Proof.
  destruct s as [|c t]; cbn [split_on]; [discriminate|].
  destruct (Ascii.eqb c sep); [discriminate|].
  destruct (split_on sep t); discriminate.
Qed.

Lemma split_on_whole (sep : ascii) (s : string) :
  contains sep s = false -> split_on sep s = [s].
Proof.
  induction s as [|c t IH]; cbn [contains split_on]; [reflexivity|].
  intros H. apply orb_false_iff in H. destruct H as [Hc Ht].
  rewrite Hc, (IH Ht). reflexivity.
Qed.

Lemma split_on_app (sep : ascii) (a b : string) :
  split_on sep (a ++ String sep b) = (split_on sep a ++ split_on sep b)%list.
Proof.
  induction a as [|c t IH]; cbn [String.append split_on].
  - rewrite Ascii.eqb_refl. reflexivity.
  - destruct (Ascii.eqb c sep).
    + rewrite IH. reflexivity.
    + rewrite IH. pose proof (split_on_nonempty sep t) as Hne.
      destruct (split_on sep t) as [|h r]; [contradiction|]. reflexivity.
Qed.

Lemma last_app_nonempty {A : Type} (l1 l2 : list A) (d : A) :
  l2 <> [] -> last (l1 ++ l2) d = last l2 d.
Proof.
  intros Hne. induction l1 as [|x l1 IH]; [reflexivity|].
  cbn [app]. change (last (x :: (l1 ++ l2)) d)
    with (match l1 ++ l2 with [] => x | _ :: _ => last (l1 ++ l2) d end).
  destruct (l1 ++ l2) eqn:E.
  - apply app_eq_nil in E. destruct E; contradiction.
  - exact IH.
Qed.

Lemma basename_join (dir name : string) :
  contains "/" name = false ->
  basename (dir ++ String "/" name) = name.
Proof.
  intros H. unfold basename. rewrite split_on_app.
  rewrite last_app_nonempty by apply split_on_nonempty.
  rewrite (split_on_whole _ _ H). reflexivity.
Qed.

Lemma contains_app (c : ascii) (a b : string) :
  contains c (a ++ b) = (contains c a || contains c b)%bool.
Proof.
  induction a as [|x t IH]; cbn [String.append contains]; [reflexivity|].
  rewrite IH. apply orb_assoc.
Qed.

Lemma str_remove_suffix (s : string) :
  contains "." s = false -> str_remove ".wav" (s ++ ".wav") = s.
Proof.
  unfold str_remove.
  induction s as [|c t IH]; cbn [contains]; intros H.
  - reflexivity.
  - apply orb_false_iff in H. destruct H as [Hc Ht].
    cbn [String.append remove_from String.prefix].
    destruct (ascii_dec "." c) as [E|_].
    + subst c. discriminate Hc.
    + rewrite (IH Ht). reflexivity.
Qed.

(** [int] reads back the decimal digits [str] writes. *)
Lemma digits_val_uint (d : Decimal.uint) (p : positive) :
  digits_val (Z.pos p) (NilEmpty.string_of_uint d)
  = Some (Z.pos (Pos.of_uint_acc d p)).
Proof.
  revert p. induction d; intros p;
    cbn [NilEmpty.string_of_uint digits_val Pos.of_uint_acc]; try reflexivity.
  all: match goal with
       | |- context [digit_val ?c] =>
           let v := eval vm_compute in (digit_val c) in
           change (digit_val c) with v
       end.
  all: cbv iota; rewrite <- IHd; f_equal; lia.
Qed.

Lemma digits_val_of_uint (d : Decimal.uint) :
  digits_val 0 (NilEmpty.string_of_uint d) = Some (Z.of_N (Pos.of_uint d)).
Proof.
  induction d; cbn [NilEmpty.string_of_uint digits_val Pos.of_uint];
    try reflexivity.
  all: match goal with
       | |- context [digit_val ?c] =>
           let v := eval vm_compute in (digit_val c) in
           change (digit_val c) with v
       end.
  all: cbv iota; change (10 * 0 + 0) with 0; try exact IHd.
  all: cbn [Z.of_N]; apply digits_val_uint.
Qed.

Lemma uint_digits (c : ascii) (d : Decimal.uint) :
  digit_val c = None -> contains c (NilEmpty.string_of_uint d) = false.
Proof.
  intros Hc. induction d; cbn [NilEmpty.string_of_uint contains];
    try reflexivity; rewrite IHd, orb_false_r;
    apply Ascii.eqb_neq; intros E; subst c; discriminate Hc.
Qed.

Lemma uint_no_space (d : Decimal.uint) :
  lstrip (NilEmpty.string_of_uint d) = NilEmpty.string_of_uint d
  /\ rstrip (NilEmpty.string_of_uint d) = NilEmpty.string_of_uint d.
Proof.
  split.
  - destruct d; reflexivity.
  - induction d; cbn [NilEmpty.string_of_uint rstrip]; try reflexivity;
      rewrite IHd; destruct d; reflexivity.
Qed.

Lemma py_int_uint (d : Decimal.uint) :
  d <> Decimal.Nil ->
  py_int (NilEmpty.string_of_uint d) = Ok (Z.of_N (Pos.of_uint d))
  /\ py_int (String "-" (NilEmpty.string_of_uint d))
     = Ok (- Z.of_N (Pos.of_uint d)).
Proof.
  intros Hd. destruct (uint_no_space d) as [Hl Hr].
  pose proof (digits_val_of_uint d) as Hv.
  split.
  - unfold py_int. rewrite Hl, Hr.
    destruct d; try contradiction; cbn [NilEmpty.string_of_uint] in *;
      rewrite Hv; f_equal; lia.
  - unfold py_int. cbn [lstrip]. change (is_space "-") with false. cbv iota.
    cbn [rstrip]. rewrite Hr.
    destruct d; try contradiction; cbn [NilEmpty.string_of_uint] in *;
      rewrite Hv; f_equal; lia.
Qed.

Lemma py_int_str_int (n : Z) : py_int (str_int n) = Ok n.
Proof.
  unfold str_int. destruct n as [|p|p]; cbn [Z.to_int NilZero.string_of_int].
  - reflexivity.
  - pose proof (DecimalPos.Unsigned.to_uint_nonnil p) as Hne.
    unfold NilZero.string_of_uint.
    destruct (py_int_uint _ Hne) as [H _].
    rewrite DecimalPos.Unsigned.of_to in H.
    destruct (Pos.to_uint p); try contradiction; exact H.
  - pose proof (DecimalPos.Unsigned.to_uint_nonnil p) as Hne.
    unfold NilZero.string_of_uint.
    destruct (py_int_uint _ Hne) as [_ H].
    rewrite DecimalPos.Unsigned.of_to in H.
    destruct (Pos.to_uint p); try contradiction; exact H.
Qed.

Lemma contains_str_int (c : ascii) (n : Z) :
  digit_val c = None -> c <> "-"%char -> contains c (str_int n) = false.
Proof.
  intros Hc Hm. unfold str_int.
  assert (H0 : contains c "0" = false).
  { cbn [contains]. rewrite orb_false_r. apply Ascii.eqb_neq.
    intros E; subst c; discriminate Hc. }
  assert (Hu : forall d, contains c (NilZero.string_of_uint d) = false).
  { intros d. unfold NilZero.string_of_uint.
    pose proof (uint_digits c d Hc) as H. destruct d; assumption. }
  destruct n as [|p|p]; cbn [Z.to_int NilZero.string_of_int].
  - exact H0.
  - apply Hu.
  - cbn [contains]. rewrite Hu, orb_false_r.
    apply Ascii.eqb_neq. congruence.
Qed.

Lemma append_assoc (a b c : string) :
  ((a ++ b) ++ c = a ++ (b ++ c))%string.
Proof. induction a as [|x a IH]; cbn [String.append]; congruence. Qed.

(** X16: a recording named after the convention, in any directory, with a
    type and a date free of slashes, underscores and dots: the [try] block
    of [get_test_details] returns exactly these parts, the index read back
    from its decimal digits, and the file name without its extension. *)
Theorem parse_filename_round_trip (dir ty date : string) (n : Z)
  (Hty : forall c, In c ["/"; "_"; "."]%char -> contains c ty = false)
  (Hdate : forall c, In c ["/"; "_"; "."]%char -> contains c date = false) :
  parse_filename
    (dir ++ "/" ++ ty ++ "_" ++ date ++ "_" ++ str_int n ++ ".wav")
  = Ok {| test_type := ty; test_date := date; test_num := n;
          test_file := ty ++ "_" ++ date ++ "_" ++ str_int n |}.
Proof.
  assert (Hn : forall c, In c ["/"; "_"; "."]%char -> contains c (str_int n) = false).
  { intros c [E|[E|[E|[]]]]; subst c; apply contains_str_int;
      solve [reflexivity | discriminate]. }
  set (stem := (ty ++ "_" ++ date ++ "_" ++ str_int n)%string).
  assert (Hstem : forall c, In c ["/"; "."]%char -> contains c stem = false).
  { intros c Hc. unfold stem.
    assert (Hin : In c ["/"; "_"; "."]%char)
      by (destruct Hc as [E|[E|[]]]; subst c; cbn; auto).
    assert (Hu : contains c "_" = false)
      by (destruct Hc as [E|[E|[]]]; subst c; reflexivity).
    rewrite !contains_app, (Hty c Hin), (Hdate c Hin), (Hn c Hin), Hu.
    reflexivity. }
  unfold parse_filename.
  replace (dir ++ "/" ++ ty ++ "_" ++ date ++ "_" ++ str_int n ++ ".wav")%string
    with (dir ++ String "/" (stem ++ ".wav"))%string.
  2:{ unfold stem.
      repeat (rewrite ?append_assoc; cbn [String.append]). reflexivity. }
  rewrite basename_join.
  2:{ rewrite contains_app, (Hstem "/"%char) by (cbn; auto). reflexivity. }
  rewrite str_remove_suffix by (apply Hstem; cbn; auto).
  cbv zeta.
  assert (Hs : split_on "_" stem = [ty; date; str_int n]).
  { unfold stem. cbn [String.append].
    rewrite split_on_app, (split_on_whole "_"%char ty) by (apply Hty; cbn; auto).
    rewrite split_on_app, (split_on_whole "_"%char date) by (apply Hdate; cbn; auto).
    rewrite (split_on_whole "_"%char (str_int n)) by (apply Hn; cbn; auto).
    reflexivity. }
  rewrite Hs. cbn [list_get nth_error rbind].
  rewrite py_int_str_int. reflexivity.
Qed.

Lemma str_remove_absent (s : string) :
  contains "." s = false -> remove_from ".wav" 0 s = s.
Proof.
  induction s as [|c t IH]; cbn [contains]; intros H; [reflexivity|].
  apply orb_false_iff in H. destruct H as [Hc Ht].
  cbn [remove_from String.prefix].
  destruct (ascii_dec "." c) as [E|_].
  - subst c. discriminate Hc.
  - rewrite (IH Ht). reflexivity.
Qed.

Lemma str_remove_other_extension (s ext : string) :
  contains "." s = false -> contains "." ext = false ->
  String.prefix "wav" ext = false ->
  str_remove ".wav" (s ++ String "." ext) = (s ++ String "." ext)%string.
Proof.
  intros Hs He Hp. unfold str_remove.
  induction s as [|c t IH]; cbn [contains] in Hs.
  - cbn [String.append]. unfold remove_from at 1. fold remove_from.
    replace (String.prefix ".wav" (String "." ext)) with (String.prefix "wav" ext)
      by reflexivity.
    rewrite Hp, (str_remove_absent ext He). reflexivity.
  - apply orb_false_iff in Hs. destruct Hs as [Hc Ht].
    cbn [String.append remove_from String.prefix].
    destruct (ascii_dec "." c) as [E|_].
    + subst c. discriminate Hc.
    + rewrite (IH Ht). reflexivity.
Qed.

Lemma parse_other_extension (dir ty date ext : string) (n : Z)
  (Hty : forall c, In c ["/"; "_"; "."]%char -> contains c ty = false)
  (Hdate : forall c, In c ["/"; "_"; "."]%char -> contains c date = false)
  (Hext : forall c, In c ["/"; "_"; "."]%char -> contains c ext = false)
  (Hwav : String.prefix "wav" ext = false) :
  parse_filename
    (dir ++ "/" ++ ty ++ "_" ++ date ++ "_" ++ str_int n ++ "." ++ ext)
  = Raise (ValueError "invalid literal for int() with base 10").
Proof.
  assert (Hn : forall c, In c ["/"; "_"; "."]%char -> contains c (str_int n) = false).
  { intros c [E|[E|[E|[]]]]; subst c; apply contains_str_int;
      solve [reflexivity | discriminate]. }
  set (stem := (ty ++ "_" ++ date ++ "_" ++ str_int n)%string).
  assert (Hstem : forall c, In c ["/"; "."]%char -> contains c stem = false).
  { intros c Hc. unfold stem.
    assert (Hin : In c ["/"; "_"; "."]%char)
      by (destruct Hc as [E|[E|[]]]; subst c; cbn; auto).
    assert (Hu : contains c "_" = false)
      by (destruct Hc as [E|[E|[]]]; subst c; reflexivity).
    rewrite !contains_app, (Hty c Hin), (Hdate c Hin), (Hn c Hin), Hu.
    reflexivity. }
  unfold parse_filename.
  replace (dir ++ "/" ++ ty ++ "_" ++ date ++ "_" ++ str_int n ++ "." ++ ext)%string
    with (dir ++ String "/" (stem ++ String "." ext))%string.
  2:{ unfold stem.
      repeat (rewrite ?append_assoc; cbn [String.append]). reflexivity. }
  rewrite basename_join.
  2:{ rewrite contains_app, (Hstem "/"%char) by (cbn; auto).
      cbn [contains orb]. apply Hext. cbn; auto. }
  rewrite str_remove_other_extension
    by (solve [apply Hstem; cbn; auto | apply Hext; cbn; auto | exact Hwav]).
  cbv zeta.
  assert (Hs : split_on "_" (stem ++ String "." ext)
               = [ty; date; (str_int n ++ String "." ext)%string]).
  { unfold stem. repeat (rewrite ?append_assoc; cbn [String.append]).
    rewrite split_on_app, (split_on_whole "_"%char ty) by (apply Hty; cbn; auto).
    rewrite split_on_app, (split_on_whole "_"%char date) by (apply Hdate; cbn; auto).
    rewrite (split_on_whole "_"%char (str_int n ++ String "." ext)).
    - reflexivity.
    - rewrite contains_app, Hn by (cbn; auto). cbn [contains orb].
      apply Hext. cbn; auto. }
  rewrite Hs. cbn [list_get nth_error rbind].
  rewrite py_int_dot; [reflexivity|].
  rewrite contains_app. cbn [contains]. rewrite Ascii.eqb_refl.
  apply orb_true_r.
Qed.

Lemma run_unparsable (audio_file : string) (w : World) (e : exn) :
  parse_filename audio_file = Raise e ->
  run audio_file w
  = (Raise (UnboundLocalError "test"),
     mk_World (self w) (stdout w ++ ["Failed to parse " ++ audio_file ++ "!"]%string)
       (figures w)).
Proof.
  intros Hp. pose proof (get_test_details_failed audio_file w e Hp) as Hg.
  unfold run. now rewrite (bind_raise _ _ _ _ _ Hg).
Qed.

(** X17: only the extension [.wav] is removed from a file name.  With any
    other extension (one that does not start with [wav]) the third token
    keeps its dot and [int] rejects it; [run] prints the failure message and
    stops with the [UnboundLocalError] of [return test], the instance and
    the figures untouched. *)
Theorem other_extension_unparsable (dir ty date ext : string) (n : Z) (w : World)
  (Hty : forall c, In c ["/"; "_"; "."]%char -> contains c ty = false)
  (Hdate : forall c, In c ["/"; "_"; "."]%char -> contains c date = false)
  (Hext : forall c, In c ["/"; "_"; "."]%char -> contains c ext = false)
  (Hwav : String.prefix "wav" ext = false) :
  let audio_file :=
    (dir ++ "/" ++ ty ++ "_" ++ date ++ "_" ++ str_int n ++ "." ++ ext)%string in
  parse_filename audio_file
  = Raise (ValueError "invalid literal for int() with base 10")
  /\ run audio_file w
     = (Raise (UnboundLocalError "test"),
        mk_World (self w)
          (stdout w ++ ["Failed to parse " ++ audio_file ++ "!"]%string)
          (figures w)).
Proof.
  intros audio_file.
  pose proof (parse_other_extension dir ty date ext n Hty Hdate Hext Hwav) as Hp.
  fold audio_file in Hp. split; [exact Hp|].
  exact (run_unparsable audio_file w _ Hp).
Qed.

End Methods.

(** * The methods on concrete inputs *)

(** ** The reference primitives keep the lengths *)

Lemma blackmanharris_sym_len (n : Z) : 0 <= n -> len (blackmanharris_sym n) = n.
Proof.
  intros Hn. unfold blackmanharris_sym.
  destruct (Z.eqb_spec n 1) as [->|_]; [reflexivity|].
  unfold len. rewrite length_map, range_length. lia.
Qed.

Lemma dft_len (x : list R) : len (dft x) = len x.
Proof. unfold dft, len. now rewrite length_map, length_seq. Qed.

Lemma lfilter_from_length (b a xh yh x : list R) :
  length (lfilter_from b a xh yh x) = length x.
Proof.
  revert xh yh. induction x as [|xn t IH]; intros xh yh; simpl; [reflexivity|].
  now rewrite IH.
Qed.

Lemma lfilter_direct_len (b a x : list R) : len (lfilter_direct b a x) = len x.
Proof. unfold lfilter_direct, len. now rewrite lfilter_from_length. Qed.

Local Abbreviation demo_one_third_octaves := (one_third_octaves blackmanharris_sym dft).
Local Abbreviation demo_band_energies := (band_energies blackmanharris_sym dft).
Local Abbreviation demo_analyze :=
  (analyze demo_read flat_weighting lfilter_direct blackmanharris_sym dft).
Local Abbreviation demo_calibrate :=
  (calibrate demo_read flat_weighting lfilter_direct blackmanharris_sym dft).
Local Abbreviation demo_run :=
  (run demo_read flat_weighting lfilter_direct blackmanharris_sym dft
     demo_savefig).

(** ** The reference primitives on a click *)

Lemma lfilter_from_flat (xh yh x : list R) :
  lfilter_from [1%R] [1%R] xh yh x = x.
Proof.
  revert xh yh. induction x as [|xn t IH]; intros xh yh; [reflexivity|].
  cbn [lfilter_from]. rewrite IH. f_equal.
  unfold dot. cbn [tl hd combine map np_sum fold_right fst snd].
  field.
Qed.

Lemma lfilter_direct_flat (x : list R) : lfilter_direct [1%R] [1%R] x = x.
Proof. apply lfilter_from_flat. Qed.

Lemma nth_silent (t : list R) (n : nat) :
  Forall (fun v => v = 0%R) t -> nth n t 0%R = 0%R.
Proof.
  intros H. revert n. induction H as [|v t Hv _ IH]; intros [|n]; cbn [nth];
    auto.
Qed.

(** A click on the first sample of a frame: the sample and silence. *)
Lemma click_first_frame (n N : Z) :
  1 <= N ->
  exists t, py_slice (click_first n) 0 (0 + N) = 1%R :: t
            /\ Forall (fun v => v = 0%R) t.
Proof.
  intros HN. unfold py_slice, click_first.
  replace (Z.to_nat (0 + N - 0)) with (S (Z.to_nat (N - 1))) by lia.
  cbn [Z.to_nat skipn firstn]. eexists. split; [reflexivity|].
  apply Forall_firstn', repeat_silent.
Qed.

Lemma window_first (n : Z) :
  2 <= n ->
  exists rest, blackmanharris_sym n = (6 / 100000)%R :: rest
               /\ length rest = Z.to_nat (n - 1).
Proof.
  intros Hn. unfold blackmanharris_sym.
  destruct (Z.eqb_spec n 1) as [|_]; [lia|].
  unfold range. replace (Z.to_nat n) with (S (Z.to_nat (n - 1))) by lia.
  cbn [seq map]. eexists. split.
  - f_equal. change (IZR (Z.of_nat 0)) with 0%R.
    replace (2 * PI * 0 / IZR (n - 1))%R with 0%R
      by (unfold Rdiv; rewrite Rmult_0_r, Rmult_0_l; reflexivity).
    rewrite !Rmult_0_r, cos_0. lra.
  - rewrite !length_map, length_seq. reflexivity.
Qed.

Lemma combine_silent (t w : list R) :
  Forall (fun v => v = 0%R) t ->
  Forall (fun v => v = 0%R) (map (fun p => (fst p * snd p)%R) (combine t w)).
Proof.
  intros H. revert w. induction H as [|v t Hv _ IH]; intros [|u w];
    cbn [combine map]; constructor; [|apply IH].
  cbn [fst snd]. rewrite Hv. lra.
Qed.

(** The transform of a frame that is silent after its first sample is
    that sample in every bin. *)
Lemma dft_click (a : R) (t : list R) :
  Forall (fun v => v = 0%R) t ->
  Forall (fun z => re z = a /\ im z = 0%R) (dft (a :: t)).
Proof.
  intros Ht. unfold dft. apply Forall_forall. intros z Hz.
  apply in_map_iff in Hz. destruct Hz as (k & <- & _).
  cbn [re im length seq map np_sum fold_right nth].
  repeat match goal with
  | |- context [fold_right Rplus 0%R (map ?f (seq 1 (length t)))] =>
      replace (fold_right Rplus 0%R (map f (seq 1 (length t)))) with 0%R
        by (symmetry; apply (np_sum_zeros _); apply Forall_forall;
            intros v Hv; apply in_map_iff in Hv; destruct Hv as (n & <- & Hn);
            apply in_seq in Hn; destruct n as [|n]; [lia|];
            rewrite (nth_silent t n Ht); lra)
  end.
  change (INR 0) with 0%R.
  replace (2 * PI * INR k * 0 / INR (S (length t)))%R with 0%R
    by (unfold Rdiv; rewrite Rmult_0_r, Rmult_0_l; reflexivity).
  rewrite cos_0, sin_0. split; lra.
Qed.

(** The magnitude spectrum of a frame with a click on its first sample
    and silence after it is flat: the first window coefficient in every
    bin. *)
Lemma spectrum_click (t : list R) :
  t <> [] -> Forall (fun v => v = 0%R) t ->
  Forall (fun v => v = (6 / 100000)%R) (spectrum blackmanharris_sym dft (1%R :: t))
  /\ len (spectrum blackmanharris_sym dft (1%R :: t)) = len (1%R :: t) / 2.
Proof.
  intros Hne Ht.
  assert (Hl : 2 <= len (1%R :: t)).
  { destruct t; [congruence|]. unfold len. cbn [length]. lia. }
  destruct (window_first _ Hl) as (rest & Hw & Hr).
  unfold spectrum. rewrite Hw. cbn [combine map fst snd].
  pose proof (combine_silent t rest Ht) as Hs.
  set (xw := map _ (combine t rest)) in *.
  pose proof (dft_click (1 * (6 / 100000)) xw Hs) as Hd.
  assert (Hlen : length xw = length t).
  { unfold xw. rewrite length_map, length_combine, Hr.
    unfold len in *. cbn [length] in *. lia. }
  split.
  - unfold np_abs. apply Forall_forall. intros v Hv.
    apply in_map_iff in Hv. destruct Hv as (z & <- & Hz).
    apply (Forall_firstn' _ (Z.to_nat (len (1%R :: t) / 2))) in Hd.
    rewrite Forall_forall in Hd. destruct (Hd z Hz) as [-> ->].
    replace (1 * (6 / 100000) * (1 * (6 / 100000)) + 0 * 0)%R
      with ((6 / 100000) * (6 / 100000))%R by lra.
    apply sqrt_square. lra.
  - unfold np_abs, len. rewrite length_map, length_firstn.
    pose proof (dft_len (1 * (6 / 100000) :: xw)%R) as Hdl.
    unfold len in Hdl. apply Nat2Z.inj in Hdl. rewrite Hdl.
    cbn [length]. rewrite Hlen.
    assert (0 <= Z.of_nat (S (length t)) / 2 <= Z.of_nat (S (length t))).
    { split; [apply Z.div_pos; lia|]. apply Z.div_le_upper_bound; lia. }
    lia.
Qed.

Local Abbreviation demo_spectrum := (spectrum blackmanharris_sym dft).

(** The fixture recordings: the spectrum of a frame that starts at the
    click, passed through the flat filter. *)
Lemma click_spectrum (n N : Z) :
  2 <= N <= n ->
  Forall (fun v => v = (6 / 100000)%R)
    (demo_spectrum (lfilter_direct [1%R] [1%R] (py_slice (click_first n) 0 (0 + N))))
  /\ len (demo_spectrum
            (lfilter_direct [1%R] [1%R] (py_slice (click_first n) 0 (0 + N))))
     = N / 2.
Proof.
  intros HN. rewrite lfilter_direct_flat.
  destruct (click_first_frame n N ltac:(lia)) as (t & E & Ht).
  assert (Hl : len (py_slice (click_first n) 0 (0 + N)) = 0 + N - 0)
    by (apply py_slice_length; rewrite ?click_first_len; lia).
  rewrite E in *.
  assert (Hne : t <> []).
  { intros ->. unfold len in Hl. cbn [length] in Hl. lia. }
  destruct (spectrum_click t Hne Ht) as (Hflat & Hlen).
  split; [exact Hflat|]. rewrite Hlen, Hl. f_equal. lia.
Qed.

Lemma click_spectrum_positive (n N : Z) :
  2 <= N <= n ->
  Forall (fun v => (0 < v)%R)
    (demo_spectrum (lfilter_direct [1%R] [1%R] (py_slice (click_first n) 0 (0 + N)))).
Proof.
  intros HN. destruct (click_spectrum n N HN) as (Hflat & _).
  eapply Forall_impl; [|exact Hflat]. intros v ->. lra.
Qed.

(** The calibration frame of the fixture is not silent. *)
Lemma click_level_positive (n N : Z) :
  2 <= N <= n ->
  (0 < np_sum (np_square
                 (demo_spectrum
                    (lfilter_direct [1%R] [1%R]
                       (py_slice (click_first n) 0 (0 + N))))))%R.
Proof.
  intros HN. destruct (click_spectrum n N HN) as (_ & Hlen).
  pose proof (click_spectrum_positive n N HN) as Hpos.
  set (m := demo_spectrum _) in *.
  apply np_sum_pos.
  - destruct m; [|discriminate].
    unfold len in Hlen. cbn [length] in Hlen.
    assert (1 <= N / 2) by (apply Z.div_le_lower_bound; lia). lia.
  - unfold np_square. apply Forall_forall. intros v Hv.
    apply in_map_iff in Hv. destruct Hv as (u & <- & Hu).
    rewrite Forall_forall in Hpos. specialize (Hpos u Hu). nra.
Qed.

Lemma click_power_positive (n N : Z) :
  2 <= N <= n ->
  (0 < np_sum (map (fun v => v * v)
                 (demo_spectrum
                    (lfilter_direct [1%R] [1%R]
                       (py_slice (click_first n) 0 (0 + N))))))%R.
Proof. exact (click_level_positive n N). Qed.


(** ** Band grouping *)

Lemma band_grouping_first_six_witness :
  5000 <= len (repeat 1%R (Z.to_nat 5000))
  /\ map (band_range (repeat 1%R (Z.to_nat 5000))) (seq 0 6)
     = [(13, 16); (16, 20); (20, 25); (25, 31); (31, 39); (39, 49)].
Proof.
  assert (H : 5000 <= len (repeat 1%R (Z.to_nat 5000)))
    by (unfold len; rewrite repeat_length; lia).
  split; [exact H|].
  apply (band_grouping_first_six (repeat 1%R (Z.to_nat 5000)) H).
Defined.

Lemma band_analysis_result_witness :
  [1%R] <> []
  /\ exists labels energies,
       demo_one_third_octaves [1%R] = Ok (labels, ansi_bands, energies)
       /\ length energies = 28%nat /\ length labels = 13%nat.
Proof.
  assert (H : [1%R] <> []) by discriminate.
  split; [exact H|].
  destruct (band_analysis_result blackmanharris_sym dft blackmanharris_sym_len
              dft_len [1%R] H)
    as (labels & energies & Hr & _ & He & _ & _ & _ & Hl).
  exists labels, energies. repeat split; assumption.
Defined.

(** Counterexample to C8 as stated: the band analysis of the one-sample
    frame [1] returns 28 band numbers and 28 energies but 13 labels. *)
Lemma thirteen_labels_counterexample :
  exists labels energies,
    demo_one_third_octaves [1%R] = Ok (labels, ansi_bands, energies)
    /\ length ansi_bands = 28%nat
    /\ length energies = 28%nat
    /\ length labels = 13%nat
    /\ length labels <> length ansi_bands.
Proof.
  eexists. eexists. split.
  - apply (one_third_octaves_ok blackmanharris_sym dft blackmanharris_sym_len dft_len).
    discriminate.
  - assert (Hb : length ansi_bands = 28%nat) by reflexivity.
    assert (Hl : length (skipn 15 (map band_label ansi_bands)) = 13%nat)
      by (rewrite length_skipn, length_map, Hb; reflexivity).
    split; [exact Hb|]. split; [apply band_energies_length|].
    split; [exact Hl|]. rewrite Hl, Hb. discriminate.
Qed.

(** ** Validation *)

(** Counterexample to C6 as stated: a two-channel signal of three frames
    raises the error of a short signal, not one about its channels, and
    the three errors of [validate_audio] share the class [RuntimeError]. *)
Lemma stereo_short_signal_counterexample :
  ndim (Arr2 [[0; 0]; [0; 0]; [0; 0]]%R) = 2
  /\ validate_audio (Arr2 [[0; 0]; [0; 0]; [0; 0]]%R) 48000
       (demo_world "cal_94_ref.wav" [])
     = (Raise (RuntimeError "Invalid length - input file must be 65536 samples long"),
        demo_world "cal_94_ref.wav" [])
  /\ exn_class (invalid_length 65536) = exn_class (invalid_rate 48000)
  /\ exn_class (invalid_rate 48000) = exn_class invalid_channels
  /\ exn_class invalid_channels = "RuntimeError"%string.
Proof.
  split; [reflexivity|]. split; [|repeat split].
  rewrite validate_audio_eq. reflexivity.
Qed.

(** ** Calibration *)

Lemma click_first_valid : 65536 <= len (click_first 65536).
Proof. rewrite click_first_len; lia. Qed.

Lemma calibration_level_and_offset_witness :
  find_greatest_energy (click_first 65536) 48000 8192 = Ok 0
  /\ 0 + 8192 <= len (click_first 65536)
  /\ exists level w1,
       demo_calibrate "fast" (demo_blank "cal_94_ref.wav") = (Ok level, w1).
Proof.
  assert (Hidx : find_greatest_energy (click_first 65536) 48000 8192 = Ok 0)
    by (apply find_greatest_energy_click_first; lia).
  assert (Hfit : 0 + 8192 <= len (click_first 65536))
    by (rewrite click_first_len; lia).
  split; [exact Hidx|]. split; [exact Hfit|].
  eexists. eexists.
  exact (proj1 (calibration_level_and_offset demo_read flat_weighting
                  lfilter_direct blackmanharris_sym dft blackmanharris_sym_len
                  dft_len lfilter_direct_len "fast" (demo_blank "cal_94_ref.wav")
                  (click_first 65536) 48000 0 94 8192 "94" [1%R] [1%R]
                  eq_refl eq_refl (or_introl (conj eq_refl eq_refl)) eq_refl
                  click_first_valid eq_refl Hidx Hfit eq_refl
                  (click_power_positive 65536 8192 ltac:(lia)))).
Defined.

(** ** The per-file path *)

Lemma demo_reqs_entry (levels : list R) (margin : R) :
  length levels = 13%nat ->
  exists entry,
    dict_get (demo_reqs levels margin) "stat" = Ok entry
    /\ length (octave_bands entry) = 13%nat
    /\ map snd (octave_bands entry) = map (fun v => (v + margin)%R) levels
    /\ two_band entry = (hd 0%R levels + margin)%R.
Proof.
  intros Hl. eexists. split; [reflexivity|]. cbn [octave_bands two_band].
  split; [now rewrite length_combine, !length_map, Hl|].
  split; [|reflexivity].
  assert (H : forall (A B : Type) (l1 : list A) (l2 : list B),
                length l1 = length l2 -> map snd (combine l1 l2) = l2).
  { intros A B l1. induction l1 as [|u l1 IH]; intros [|v l2] E;
      simpl in *; try discriminate; [reflexivity|].
    f_equal. apply IH. lia. }
  apply H. now rewrite !length_map, Hl.
Qed.

Lemma stat_file_parses :
  parse_filename "stat_20200101_1.wav"
  = Ok {| test_type := "stat"; test_date := "20200101"; test_num := 1;
          test_file := "stat_20200101_1" |}.
Proof. reflexivity. Qed.

(** [run] on the first fixture file, whatever the table for ["stat"]. *)
Lemma demo_run_ok (levels : list R) (margin : R) :
  length levels = 13%nat ->
  let w := demo_world "cal_94_ref.wav" (demo_reqs levels margin) in
  let measured :=
    calibrated_energy 65536 94 12
      (demo_band_energies
         (lfilter_direct [1%R] [1%R] (py_slice (click_first 65536) 0 (0 + 65536)))) in
  exists w',
    demo_run "stat_20200101_1.wav" w = (Ok tt, w')
    /\ stdout w' = []
    /\ band_specs (self w') = Some (map (fun v => (v + margin)%R) levels)
    /\ two_band_spec (self w') = Some (hd 0%R levels + margin)%R
    /\ map fig_measured (figures w') = [skipn 15 measured; skipn 15 measured]
    /\ map fig_spec (figures w')
       = [map (fun v => (v + margin)%R) levels;
          map (fun v => (v + margin)%R) levels]
    /\ map without_thresholds (figures w')
       = [plot_figure "plots/stat_20200101_1_j.png" "Stationary # 1 | 20200101"
            (Some (py_slice (click_first 65536) 0 (0 + 65536)))
            {| audio := py_slice (click_first 65536) 0 (0 + 65536);
               bands := ansi_bands; energy := measured;
               xticks := skipn 15 (map band_label ansi_bands);
               frame_idx := 0 |} demo_ambient [] 0%R;
          plot_figure "plots/stat_20200101_1_f.png" "Stationary # 1 | 20200101"
            None
            {| audio := py_slice (click_first 65536) 0 (0 + 65536);
               bands := ansi_bands; energy := measured;
               xticks := skipn 15 (map band_label ansi_bands);
               frame_idx := 0 |} demo_ambient [] 0%R].
Proof.
  intros Hl w measured.
  destruct (demo_reqs_entry levels margin Hl) as (entry & Hd & H13 & Hspecs & Hline).
  pose proof (run_ok demo_read flat_weighting lfilter_direct blackmanharris_sym dft
                demo_savefig blackmanharris_sym_len dft_len lfilter_direct_len
                "stat_20200101_1.wav" w _ (demo_reqs levels margin) entry
                (click_first 65536) 48000 0 94 48000 [1%R] [1%R] 12%R
                "Stationary" demo_ambient
                stat_file_parses eq_refl Hd H13 eq_refl
                (conj eq_refl click_first_valid) eq_refl
                (find_greatest_energy_click_first 65536 48000 65536
                   ltac:(lia) ltac:(lia))
                eq_refl eq_refl eq_refl eq_refl eq_refl ltac:(discriminate) eq_refl
                eq_refl eq_refl eq_refl)
    as Hrun.
  cbv zeta in Hrun. eexists. split; [exact Hrun|].
  cbn [self stdout figures]. rewrite self_after_load, figures_after_load.
  unfold after_load, w, demo_world.
  cbn [self stdout figures verbose band_specs two_band_spec set_two_band_spec
         set_band_specs block_size output_dir file_type test_file test_num
         test_date app map].
  rewrite !without_thresholds_plot_figure.
  unfold plot_figure at 1 2 3 4. cbn [fig_measured fig_spec energy].
  rewrite Hspecs, Hline.
  repeat split.
Qed.






(** Counterexample to C9 as stated: on an instance without [band_specs]
    and [two_band_spec], the run of [stat_20200101_1.wav] returns with both
    attributes assigned. *)
Lemma run_assigns_thresholds_counterexample :
  exists w',
    demo_run "stat_20200101_1.wav"
      (demo_world "cal_94_ref.wav" (demo_reqs (repeat 40%R 13) 1))
    = (Ok tt, w')
    /\ band_specs (self (demo_world "cal_94_ref.wav" (demo_reqs (repeat 40%R 13) 1)))
       = None
    /\ two_band_spec (self (demo_world "cal_94_ref.wav" (demo_reqs (repeat 40%R 13) 1)))
       = None
    /\ band_specs (self w') = Some (map (fun v => (v + 1)%R) (repeat 40%R 13))
    /\ two_band_spec (self w') = Some (40 + 1)%R.
Proof.
  destruct (demo_run_ok (repeat 40%R 13) 1 eq_refl)
    as (w' & Hr & _ & Hb & Ht & _).
  exists w'. split; [exact Hr|]. split; [reflexivity|]. split; [reflexivity|].
  split; [exact Hb|exact Ht].
Qed.

(** ** A selected frame that runs past the end *)

Lemma click_last_selected :
  find_greatest_energy (click_last 65536) 48000 65536 = Ok 16384.
Proof.
  change 16384 with (65536 / 4 * Z.of_nat 1).
  apply find_greatest_energy_click_last.
  - lia.
  - lia.
  - change ((65536 + 1) / 65536 * 4) with 4. change (Z.of_nat 1) with 1. lia.
  - change (65536 / 4 * Z.of_nat 1) with 16384. lia.
  - intros j Hj. assert (j = 0%nat) as -> by lia.
    change (65536 / 4 * Z.of_nat 0 + 65536) with 65536. lia.
Qed.

Lemma click_last_valid : 65536 <= len (click_last 65536).
Proof. rewrite click_last_len; lia. Qed.

Lemma selected_frame_may_overrun_witness :
  0 < 65536 /\ 65536 <= len (click_last 65536)
  /\ find_greatest_energy (click_last 65536) 48000 65536 = Ok 16384
  /\ len (click_last 65536) < 16384 + 65536
  /\ len (py_slice (click_last 65536) 16384 (16384 + 65536))
     = len (click_last 65536) - 16384
  /\ (exists an w',
        demo_analyze "stat_20200101_2.wav" (demo_world "cal_94_ref.wav" [])
        = (Ok an, w')
        /\ len (audio an) < 65536).
Proof.
  assert (Hov : len (click_last 65536) < 16384 + 65536)
    by (rewrite click_last_len; lia).
  pose proof (selected_frame_may_overrun demo_read flat_weighting lfilter_direct
                blackmanharris_sym dft blackmanharris_sym_len dft_len
                lfilter_direct_len (click_last 65536) 48000 65536 16384
                ltac:(lia) click_last_valid click_last_selected)
    as (_ & _ & Hcut & Han).
  split; [lia|]. split; [exact click_last_valid|].
  split; [exact click_last_selected|]. split; [exact Hov|].
  split; [exact (proj1 (Hcut Hov))|].
  destruct (Han "stat_20200101_2.wav"%string (demo_world "cal_94_ref.wav" [])
              [1%R] [1%R] 94 12%R Hov eq_refl eq_refl eq_refl eq_refl
              eq_refl eq_refl)
    as (an & w' & Hr & _ & _ & Hshort).
  exists an, w'. split; [exact Hr|exact Hshort].
Defined.

(** ** The nested hypotheses at concrete inputs *)

Lemma band_ranges_contiguous_witness :
  snd (band_range [] 0) = fst (band_range [] 1)
  /\ band_width [] 0 <= band_width [] 1.
Proof.
  destruct (proj1 (proj2 (band_ranges_contiguous [])) 0%nat ltac:(lia))
    as (Hc & _ & _ & Hw).
  split; [exact Hc|exact Hw].
Defined.

Lemma validation_errors_witness :
  validate_audio (Arr2 [[0; 0]; [0; 0]; [0; 0]]%R) 48000
    (demo_world "cal_94_ref.wav" [])
  = (Raise (invalid_length 65536), demo_world "cal_94_ref.wav" []).
Proof.
  exact (proj1 (validation_errors demo_read flat_weighting lfilter_direct
                  blackmanharris_sym dft (Arr2 [[0; 0]; [0; 0]; [0; 0]]%R) 48000
                  (demo_world "cal_94_ref.wav" []))
           eq_refl).
Defined.

Lemma per_file_calls_frame_witness :
  cal (self (snd (demo_run "stat_20200101_1.wav"
                    (demo_world "cal_94_ref.wav" (demo_reqs (repeat 40%R 13) 1)))))
  = Some 12%R
  /\ exists specs,
       band_specs
         (self (snd (demo_run "stat_20200101_1.wav"
                       (demo_world "cal_94_ref.wav" (demo_reqs (repeat 40%R 13) 1)))))
       = Some specs.
Proof.
  destruct (per_file_calls_frame demo_read flat_weighting lfilter_direct
              blackmanharris_sym dft demo_savefig "stat_20200101_1.wav"
              (demo_world "cal_94_ref.wav" (demo_reqs (repeat 40%R 13) 1)))
    as (_ & _ & Hc & _ & _ & Hs).
  split; [exact Hc|].
  destruct (demo_reqs_entry (repeat 40%R 13) 1 eq_refl) as (entry & Hd & _).
  eexists. exact (proj1 (Hs _ _ entry stat_file_parses eq_refl Hd)).
Defined.

(** * Further properties on concrete inputs *)

Lemma one_third_octaves_outcome_witness :
  match demo_one_third_octaves [1%R] with
  | Ok (labels, numbers, energies) =>
      [1%R] <> [] /\ numbers = ansi_bands /\ length energies = 28%nat
  | Raise e =>
      [1%R] = [] /\ e = ValueError "invalid number of data points (0) specified"
  end.
Proof.
  exact (one_third_octaves_outcome blackmanharris_sym dft blackmanharris_sym_len
           dft_len [1%R]).
Defined.

Lemma flat_spectrum_positive :
  Forall (fun v => (0 < v)%R) (repeat 1%R (Z.to_nat 7681))
  /\ 7681 <= len (repeat 1%R (Z.to_nat 7681)).
Proof.
  split.
  - apply Forall_forall. intros v Hv. apply repeat_spec in Hv. subst v. lra.
  - unfold len. rewrite repeat_length. lia.
Qed.

Lemma gain_moves_levels_witness :
  total_level 65536 (map (Rmult 2) (repeat 1%R (Z.to_nat 7681)))
  = (total_level 65536 (repeat 1%R (Z.to_nat 7681)) + 2 * (20 * log10 2))%R.
Proof.
  apply (gain_moves_levels 2 65536 94 12 (repeat 1%R (Z.to_nat 7681))).
  - lra.
  - lia.
  - apply band_energy_positive; apply flat_spectrum_positive.
Defined.

Lemma calibrate_invalid_mode_witness :
  demo_calibrate "medium" (demo_blank "cal_94_ref.wav")
  = (Raise (ValueError "Invalid response time. Must be 'fast' or 'slow'."),
     mk_World (set_cal_target 94 (self (demo_blank "cal_94_ref.wav")))
       (stdout (demo_blank "cal_94_ref.wav"))
       (figures (demo_blank "cal_94_ref.wav"))).
Proof.
  apply (calibrate_invalid_mode demo_read flat_weighting lfilter_direct
           blackmanharris_sym dft "medium" (demo_blank "cal_94_ref.wav") "94" 94).
  - reflexivity.
  - reflexivity.
  - discriminate.
  - discriminate.
Defined.

Lemma calibrate_dotted_target_witness :
  demo_calibrate "fast" (demo_blank "cal_94.wav")
  = (Raise (ValueError "invalid literal for int() with base 10"),
     demo_blank "cal_94.wav").
Proof.
  apply (calibrate_dotted_target demo_read flat_weighting lfilter_direct
           blackmanharris_sym dft "fast" (demo_blank "cal_94.wav") "94.wav").
  - reflexivity.
  - reflexivity.
Defined.

Lemma run_unknown_type_witness :
  demo_run "walk_20200101_1.wav"
    (demo_world "cal_94_ref.wav" (demo_reqs (repeat 40%R 13) 1))
  = (Raise (KeyError "walk"),
     demo_world "cal_94_ref.wav" (demo_reqs (repeat 40%R 13) 1)).
Proof.
  apply (run_unknown_type demo_read flat_weighting lfilter_direct
              blackmanharris_sym dft demo_savefig "walk_20200101_1.wav"
           (demo_world "cal_94_ref.wav" (demo_reqs (repeat 40%R 13) 1))
           {| test_type := "walk"; test_date := "20200101"; test_num := 1;
              test_file := "walk_20200101_1" |}
           (demo_reqs (repeat 40%R 13) 1)).
  - reflexivity.
  - reflexivity.
  - intros entry [H|[]]. discriminate H.
Defined.

Lemma run_unnamed_type_witness :
  exists w',
    run (fun _ => Ok (Arr1 (click_first 65536), 48000)) flat_weighting
      lfilter_direct blackmanharris_sym dft demo_savefig "idle_20200101_1.wav"
      (demo_world "cal_94_ref.wav"
         [("idle"%string, {| octave_bands := []; two_band := 50%R |})])
    = (Raise (KeyError "idle"), w')
    /\ figures w' = [].
Proof.
  eexists. split.
  - apply (run_unnamed_type (fun _ => Ok (Arr1 (click_first 65536), 48000))
             flat_weighting lfilter_direct blackmanharris_sym dft demo_savefig
             blackmanharris_sym_len dft_len lfilter_direct_len
             "idle_20200101_1.wav"
             (demo_world "cal_94_ref.wav"
                [("idle"%string, {| octave_bands := []; two_band := 50%R |})])
             {| test_type := "idle"; test_date := "20200101"; test_num := 1;
                test_file := "idle_20200101_1" |}
             [("idle"%string, {| octave_bands := []; two_band := 50%R |})]
             {| octave_bands := []; two_band := 50%R |}
             (click_first 65536) 48000 0 94 [1%R] [1%R] 12%R).
    + reflexivity.
    + reflexivity.
    + reflexivity.
    + reflexivity.
    + split; [reflexivity|exact click_first_valid].
    + reflexivity.
    + exact (find_greatest_energy_click_first 65536 48000 65536
               ltac:(lia) ltac:(lia)).
    + reflexivity.
    + reflexivity.
    + reflexivity.
    + intros name H. cbn in H.
      repeat (destruct H as [H|H]; [discriminate H|]). exact H.
  - rewrite figures_after_load. reflexivity.
Defined.


Lemma init_short_calibration_witness :
  init (fun _ => Ok (Arr1 (click_first 10000), 48000)) flat_weighting
    lfilter_direct blackmanharris_sym dft (Ok []) (demo_blank "cal_94_ref.wav")
  = (Raise (invalid_length 65536),
     mk_World (set_cal_target 94 (self (demo_blank "cal_94_ref.wav"))) [] []).
Proof.
  apply (init_short_calibration (fun _ => Ok (Arr1 (click_first 10000), 48000))
           flat_weighting lfilter_direct blackmanharris_sym dft (Ok [])
           (demo_blank "cal_94_ref.wav") (Arr1 (click_first 10000)) 48000 94 "94").
  - reflexivity.
  - reflexivity.
  - reflexivity.
  - change (len (click_first 10000) < 65536). rewrite click_first_len; lia.
Defined.

Lemma parse_filename_round_trip_witness :
  parse_filename "recordings/stat_20200101_7.wav"
  = Ok {| test_type := "stat"; test_date := "20200101"; test_num := 7;
          test_file := "stat_20200101_7" |}.
Proof.
  apply (parse_filename_round_trip "recordings"%string "stat"%string
           "20200101"%string 7).
  - intros c [E|[E|[E|[]]]]; subst c; reflexivity.
  - intros c [E|[E|[E|[]]]]; subst c; reflexivity.
Defined.

Lemma other_extension_unparsable_witness :
  demo_run "recordings/stat_20200101_7.WAV"
    (demo_world "cal_94_ref.wav" (demo_reqs (repeat 40%R 13) 1))
  = (Raise (UnboundLocalError "test"),
     mk_World (self (demo_world "cal_94_ref.wav" (demo_reqs (repeat 40%R 13) 1)))
       ["Failed to parse recordings/stat_20200101_7.WAV!"%string] []).
Proof.
  apply (other_extension_unparsable demo_read flat_weighting lfilter_direct
              blackmanharris_sym dft demo_savefig "recordings"%string "stat"%string
           "20200101"%string "WAV"%string 7
           (demo_world "cal_94_ref.wav" (demo_reqs (repeat 40%R 13) 1))).
  - intros c [E|[E|[E|[]]]]; subst c; reflexivity.
  - intros c [E|[E|[E|[]]]]; subst c; reflexivity.
  - intros c [E|[E|[E|[]]]]; subst c; reflexivity.
  - reflexivity.
Defined.
